(** * Phone-order print server: a shallow embedding of [server.js]

    The server is a Node/Express program over a SQLite table.  The embedding
    keeps the program's shape: JavaScript values are a dynamically typed
    inductive, numbers are IEEE binary64 floats, exceptions are results,
    the database, the console and the network are threaded through a state
    monad, and each route handler is one monadic function.

    Strings are sequences of bytes (the UTF-8 encoding of the text), so
    [length] and character positions count bytes; they agree with
    JavaScript's on ASCII text.  The request body is what [express.json]
    hands to the handler, the query what Express parses from the URL. *)

From Stdlib Require Import ZArith List String Ascii Bool Lia.
From Stdlib Require Import Floats.
From Stdlib Require Import Sorting.Sorted Sorting.Permutation.
Import ListNotations.

Set Warnings "-inexact-float,-register-all".

Local Open Scope string_scope.
Local Open Scope Z_scope.

(** ** Text helpers *)

Definition chars (s : string) : list ascii := list_ascii_of_string s.
Definition text (l : list ascii) : string := string_of_list_ascii l.

(** [Array.prototype.join] on strings. *)
Fixpoint join (sep : string) (l : list string) : string :=
  match l with
  | [] => ""
  | [x] => x
  | x :: rest => x ++ sep ++ join sep rest
  end.

Fixpoint repeat_string (n : nat) (s : string) : string :=
  match n with
  | O => ""
  | S k => s ++ repeat_string k s
  end.

Definition code (c : ascii) : Z := Z.of_nat (nat_of_ascii c).
Definition char_of_code (z : Z) : ascii := ascii_of_nat (Z.to_nat z).

Definition is_digit (c : ascii) : bool := (48 <=? code c) && (code c <=? 57).
Definition digit_value (c : ascii) : Z := code c - 48.
Definition digit_char (d : Z) : ascii := char_of_code (48 + d).

(** ** Decimal numerals of integers *)

(** Digits of a non-negative integer, least significant first.  The fuel is
    the bit length of the number, which bounds its decimal length. *)
Fixpoint digits_lsf (fuel : nat) (n : Z) : list Z :=
  match fuel with
  | O => []
  | S k => if n <? 10 then [n] else (n mod 10) :: digits_lsf k (n / 10)
  end.

Definition digit_fuel (n : Z) : nat := S (Z.to_nat (Z.log2 n)).

Definition digits_of (n : Z) : list Z := rev (digits_lsf (digit_fuel n) n).

(** The decimal numeral of a non-negative integer. *)
Definition decimal (n : Z) : string := text (map digit_char (digits_of n)).

(** The decimal numeral of any integer, with a minus sign when negative. *)
Definition decimal_Z (n : Z) : string :=
  if n <? 0 then "-" ++ decimal (- n) else decimal n.

(** The value of a digit string (most significant first). *)
Definition number_of_digits (ds : list ascii) : Z :=
  fold_left (fun acc c => 10 * acc + digit_value c) ds 0.

(** Left-pad a numeral with zeros up to [width] characters. *)
Definition pad_zeros (width : nat) (s : string) : string :=
  repeat_string (width - String.length s) "0" ++ s.

(** [String.prototype.slice(-k)]: the last [k] characters, the whole string
    when it is shorter. *)
Definition slice_last (k : nat) (s : string) : string :=
  text (skipn (List.length (chars s) - k) (chars s)).

(** ** Numbers: IEEE binary64 *)

Definition number := float.

(** The double nearest to [m * 10^e10] (ties to even), computed by one
    correctly rounded division of exact integers. *)
Definition float_of_decimal (neg : bool) (m : Z) (e10 : Z) : number :=
  match m with
  | Zpos p =>
      let num := if 0 <? e10 then (p * Pos.pow 10 (Z.to_pos e10))%positive else p in
      let den := if e10 <? 0 then Pos.pow 10 (Z.to_pos (- e10)) else 1%positive in
      SF2Prim (SFdiv prec emax (S754_finite neg num 0) (S754_finite false den 0))
  | _ => if neg then (-0)%float else 0%float
  end.

Definition float_of_Z (z : Z) : number := float_of_decimal (z <? 0) (Z.abs z) 0.

(** The exact value of a positive finite double [m * 2^e] as a fraction. *)
Definition exact_fraction (m : positive) (e : Z) : Z * Z :=
  if 0 <=? e then (Zpos m * 2 ^ e, 1) else (Zpos m, 2 ^ (- e)).

(** For a positive fraction below one, the least [j >= 1] with
    [num * 10^j >= den]. *)
Fixpoint leading_shift (fuel : nat) (num den j : Z) : Z :=
  match fuel with
  | O => j
  | S k => if den <=? num * 10 then j else leading_shift k (num * 10) den (j + 1)
  end.

(** The decimal exponent [n] of a positive fraction: [10^(n-1) <= x < 10^n]. *)
Definition decimal_exponent (num den : Z) : Z :=
  if den <=? num
  then Z.of_nat (List.length (digits_of (num / den)))
  else 1 - leading_shift 400 num den 1.

Fixpoint strip_zeros (fuel : nat) (s scale : Z) : Z * Z :=
  match fuel with
  | O => (s, scale)
  | S k => if (0 <? s) && (s mod 10 =? 0) then strip_zeros k (s / 10) (scale + 1) else (s, scale)
  end.

(** The candidates with [k] significant digits for printing [x = num/den]:
    the two multiples of [10^(n-k)] around [x].  A candidate counts when it
    reads back as [x]; of two that do, the closer wins, the even one on a tie. *)
Definition shortest_at (x : number) (num den n k : Z) : option (Z * Z) :=
  let scale := n - k in
  let '(a, b) := if 0 <=? scale then (num, den * 10 ^ scale) else (num * 10 ^ (- scale), den) in
  let lo := a / b in
  let hi := lo + 1 in
  let reads c := (0 <? c) && PrimFloat.eqb (float_of_decimal false c scale) x in
  let d_lo := a - lo * b in
  let d_hi := hi * b - a in
  match reads lo, reads hi with
  | true, true =>
      if d_lo <? d_hi then Some (lo, scale)
      else if d_hi <? d_lo then Some (hi, scale)
      else if Z.even lo then Some (lo, scale) else Some (hi, scale)
  | true, false => Some (lo, scale)
  | false, true => Some (hi, scale)
  | false, false => None
  end.

Fixpoint shortest_from (fuel : nat) (x : number) (num den n k : Z) : Z * Z :=
  match fuel with
  | O => (0, 0)
  | S f =>
      match shortest_at x num den n k with
      | Some r => r
      | None => shortest_from f x num den n (k + 1)
      end
  end.

(** The shortest decimal [s * 10^scale] that reads back as the positive
    finite double [m * 2^e]; seventeen digits always suffice. *)
Definition shortest_decimal (x : number) (m : positive) (e : Z) : Z * Z :=
  let '(num, den) := exact_fraction m e in
  let n := decimal_exponent num den in
  let '(s, scale) := shortest_from 17 x num den n 1 in
  strip_zeros 20 s scale.

(** [Number::toString] (radix 10) on the digits [ds] of [s], with [k] the
    number of digits and [n] the position of the decimal point. *)
Definition layout_number (ds : list ascii) (n : Z) : string :=
  let k := Z.of_nat (List.length ds) in
  if (k <=? n) && (n <=? 21) then
    text ds ++ repeat_string (Z.to_nat (n - k)) "0"
  else if (0 <? n) && (n <=? 21) then
    text (firstn (Z.to_nat n) ds) ++ "." ++ text (skipn (Z.to_nat n) ds)
  else if (-6 <? n) && (n <=? 0) then
    "0." ++ repeat_string (Z.to_nat (- n)) "0" ++ text ds
  else
    let e := n - 1 in
    let exponent := (if e <? 0 then "-" else "+") ++ decimal (Z.abs e) in
    match ds with
    | [d] => text [d] ++ "e" ++ exponent
    | d :: rest => text [d] ++ "." ++ text rest ++ "e" ++ exponent
    | [] => ""
    end.

Definition Number_toString (x : number) : string :=
  match Prim2SF x with
  | S754_nan => "NaN"
  | S754_zero _ => "0"
  | S754_infinity neg => if neg then "-Infinity" else "Infinity"
  | S754_finite neg m e =>
      let '(s, scale) := shortest_decimal (PrimFloat.abs x) m e in
      let ds := map digit_char (digits_of s) in
      (if neg then "-" else "") ++ layout_number ds (scale + Z.of_nat (List.length ds))
  end.

(** [Number.prototype.toFixed(2)]: the integer [n] nearest to [100 * x]
    (the larger on a tie), printed with two decimals. *)
Definition toFixed2 (x : number) : string :=
  match Prim2SF x with
  | S754_nan => "NaN"
  | S754_infinity neg => if neg then "-Infinity" else "Infinity"
  | S754_zero _ => "0.00"
  | S754_finite neg m e =>
      let '(num, den) := exact_fraction m e in
      if 10 ^ 21 * den <=? num then Number_toString x
      else
        let n := (2 * 100 * num + den) / (2 * den) in
        let ds := chars (pad_zeros 3 (decimal n)) in
        let k := List.length ds in
        (if neg then "-" else "") ++
        text (firstn (k - 2) ds) ++ "." ++ text (skipn (k - 2) ds)
  end.

Definition is_nan (x : number) : bool := negb (PrimFloat.eqb x x).

(** ** JavaScript values, exceptions and conversions *)

Inductive value : Type :=
| VUndefined
| VNull
| VBool (b : bool)
| VNum (x : number)
| VStr (s : string)
| VArr (elements : list value)
| VObj (fields : list (string * value)).
Arguments VNum x%_float.

Inductive exn : Type :=
| TypeError (msg : string)
| RangeError (msg : string)
| SyntaxError (msg : string)
| SqliteError (msg : string)
| FetchError (msg : string).

(** [error.message] *)
Definition message (e : exn) : string :=
  match e with
  | TypeError m | RangeError m | SyntaxError m | SqliteError m | FetchError m => m
  end.

Inductive result (A : Type) : Type :=
| Ok (a : A)
| Throw (e : exn).
Arguments Ok {A} a.
Arguments Throw {A} e.

Definition result_bind {A B} (r : result A) (k : A -> result B) : result B :=
  match r with
  | Ok a => k a
  | Throw e => Throw e
  end.

(** [map] for a function that may throw: the first exception stops it. *)
Fixpoint result_map {A B} (f : A -> result B) (l : list A) : result (list B) :=
  match l with
  | [] => Ok []
  | a :: rest =>
      result_bind (f a) (fun b =>
      result_bind (result_map f rest) (fun bs => Ok (b :: bs)))
  end.

(** ToBoolean *)
Definition truthy (v : value) : bool :=
  match v with
  | VUndefined | VNull => false
  | VBool b => b
  | VNum x => negb (PrimFloat.eqb x 0 || is_nan x)
  | VStr s => negb (s =? "")%string
  | VArr _ | VObj _ => true
  end.

(** [a || b] *)
Definition or_else (a b : value) : value := if truthy a then a else b.

(** [typeof v === 'string'] *)
Definition is_string (v : value) : bool :=
  match v with
  | VStr _ => true
  | _ => false
  end.

(** An array index is a canonical numeral below [2^32 - 1]. *)
Definition array_index (k : string) : option Z :=
  match chars k with
  | [] => None
  | c :: rest =>
      if forallb is_digit (c :: rest) && (negb (code c =? 48) || (List.length rest =? 0)%nat)
      then
        let n := number_of_digits (c :: rest) in
        if n <? 2 ^ 32 - 1 then Some n else None
      else None
  end.

Fixpoint lookup (k : string) (fields : list (string * value)) : option value :=
  match fields with
  | [] => None
  | (k', v) :: rest => if (k =? k')%string then Some v else lookup k rest
  end.

Fixpoint replace_field (k : string) (v : value) (fields : list (string * value)) :=
  match fields with
  | [] => []
  | (k', v') :: rest =>
      if (k =? k')%string then (k, v) :: rest else (k', v') :: replace_field k v rest
  end.

(** Place a new index key among the index keys, which an object lists first
    and in ascending order. *)
Fixpoint insert_index (i : Z) (k : string) (v : value) (fields : list (string * value)) :=
  match fields with
  | [] => [(k, v)]
  | (k', v') :: rest =>
      match array_index k' with
      | Some j => if j <? i then (k', v') :: insert_index i k v rest else (k, v) :: fields
      | None => (k, v) :: fields
      end
  end.

(** Define or overwrite an own property.  An existing key keeps its place;
    a new one goes last, or among the index keys when it is one. *)
Definition obj_set (k : string) (v : value) (fields : list (string * value)) :=
  match lookup k fields with
  | Some _ => replace_field k v fields
  | None =>
      match array_index k with
      | Some i => insert_index i k v fields
      | None => (fields ++ [(k, v)])%list
      end
  end.

(** [{...o, k: v}] for an object [o]. *)
Definition spread_with (o : list (string * value)) (k : string) (v : value) : value :=
  VObj (obj_set k v o).

(** Property read [v.k] / [v[k]] for the data properties of JSON-shaped
    values: own fields of an object, [length] and the elements of an array,
    [length] and the characters of a string.  Reading from [undefined] or
    [null] throws.  Members inherited from a prototype are not data of the
    value and read as [undefined] here; the methods the program calls on its
    values ([forEach], [toFixed]) are modelled where they are called. *)
Definition get (v : value) (k : string) : result value :=
  match v with
  | VUndefined => Throw (TypeError ("Cannot read properties of undefined (reading '" ++ k ++ "')"))
  | VNull => Throw (TypeError ("Cannot read properties of null (reading '" ++ k ++ "')"))
  | VBool _ | VNum _ => Ok VUndefined
  | VStr s =>
      if (k =? "length")%string then Ok (VNum (float_of_Z (Z.of_nat (String.length s))))
      else match array_index k with
           | Some i => match nth_error (chars s) (Z.to_nat i) with
                       | Some c => Ok (VStr (text [c]))
                       | None => Ok VUndefined
                       end
           | None => Ok VUndefined
           end
  | VArr l =>
      if (k =? "length")%string then Ok (VNum (float_of_Z (Z.of_nat (List.length l))))
      else match array_index k with
           | Some i => match nth_error l (Z.to_nat i) with
                       | Some x => Ok x
                       | None => Ok VUndefined
                       end
           | None => Ok VUndefined
           end
  | VObj fields =>
      match lookup k fields with
      | Some x => Ok x
      | None => Ok VUndefined
      end
  end.

(** Destructuring [{k} = v] and reads the program makes of values it built
    itself go through [get]; [field] is the total read on a known object. *)
Definition field (k : string) (v : value) : value :=
  match get v k with
  | Ok x => x
  | Throw _ => VUndefined
  end.

Definition cannot_convert : exn := TypeError "Cannot convert object to primitive value".

(** ToString.  An object prints as [[object Object]] through the inherited
    method; an own [toString] field (data, never callable) hides that method,
    conversion falls to [valueOf], which yields no primitive, and throws. *)
Fixpoint ToString (v : value) : result string :=
  match v with
  | VUndefined => Ok "undefined"
  | VNull => Ok "null"
  | VBool b => Ok (if b then "true" else "false")
  | VNum x => Ok (Number_toString x)
  | VStr s => Ok s
  | VArr l =>
      let fix each (l : list value) : result (list string) :=
        match l with
        | [] => Ok []
        | x :: rest =>
            result_bind
              (match x with
               | VUndefined | VNull => Ok ""
               | _ => ToString x
               end) (fun s =>
            result_bind (each rest) (fun ss => Ok (s :: ss)))
        end in
      result_bind (each l) (fun ss => Ok (join "," ss))
  | VObj fields =>
      match lookup "toString" fields with
      | Some _ => Throw cannot_convert
      | None => Ok "[object Object]"
      end
  end.

(** ** Numerals in strings *)

Fixpoint take_digits (cs : list ascii) : list ascii * list ascii :=
  match cs with
  | c :: rest =>
      if is_digit c then let '(ds, r) := take_digits rest in (c :: ds, r) else ([], cs)
  | [] => ([], [])
  end.

(** An exponent part [e], [e+] or [e-] with at least one digit. *)
Definition take_exponent (cs : list ascii) : option (Z * list ascii) :=
  match cs with
  | ("e" | "E")%char :: rest =>
      let '(neg, rest1) :=
        match rest with
        | "+"%char :: r => (false, r)
        | "-"%char :: r => (true, r)
        | _ => (false, rest)
        end in
      match take_digits rest1 with
      | ([], _) => None
      | (ds, r) => Some (if neg then - number_of_digits ds else number_of_digits ds, r)
      end
  | _ => None
  end.

(** The fraction and exponent that may follow an integer part [ip]. *)
Definition finish_number (neg : bool) (ip : list ascii) (cs : list ascii)
  : option (number * list ascii) :=
  let after_fraction (fp cs : list ascii) : option (number * list ascii) :=
    let mantissa := number_of_digits (ip ++ fp)%list in
    let shift := - Z.of_nat (List.length fp) in
    match cs with
    | ("e" | "E")%char :: _ =>
        match take_exponent cs with
        | Some (e, r) => Some (float_of_decimal neg mantissa (e + shift), r)
        | None => None
        end
    | _ => Some (float_of_decimal neg mantissa shift, cs)
    end in
  match cs with
  | "."%char :: rest =>
      match take_digits rest with
      | ([], _) => None
      | (fp, r) => after_fraction fp r
      end
  | _ => after_fraction [] cs
  end.

(** A JSON number token: an optional minus, an integer part that is [0] or
    starts with a non-zero digit, an optional fraction with at least one
    digit, an optional exponent with at least one digit. *)
Definition json_number (cs : list ascii) : option (number * list ascii) :=
  let '(neg, cs1) :=
    match cs with
    | "-"%char :: r => (true, r)
    | _ => (false, cs)
    end in
  match cs1 with
  | "0"%char :: r => finish_number neg ["0"%char] r
  | _ =>
      match take_digits cs1 with
      | ([], _) => None
      | (ip, r) => finish_number neg ip r
      end
  end.

(** The length of the white space or line terminator that starts [cs]
    (UTF-8): TAB, LF, VT, FF, CR, SP, U+00A0, U+1680, U+2000..U+200A,
    U+2028, U+2029, U+202F, U+205F, U+3000, U+FEFF. *)
Definition ws_len (cs : list ascii) : nat :=
  match map code (firstn 3 cs) with
  | (9 | 10 | 11 | 12 | 13 | 32) :: _ => 1%nat
  | 194 :: 160 :: _ => 2%nat
  | 225 :: 154 :: 128 :: _ => 3%nat
  | 226 :: 128 :: c :: _ =>
      if ((128 <=? c) && (c <=? 138)) || (c =? 168) || (c =? 169) || (c =? 175)
      then 3%nat else 0%nat
  | 226 :: 129 :: 159 :: _ => 3%nat
  | 227 :: 128 :: 128 :: _ => 3%nat
  | 239 :: 187 :: 191 :: _ => 3%nat
  | _ => 0%nat
  end.

Fixpoint trim_start (fuel : nat) (cs : list ascii) : list ascii :=
  match fuel with
  | O => cs
  | S f =>
      match ws_len cs with
      | O => cs
      | n => trim_start f (skipn n cs)
      end
  end.

Fixpoint trim_end (cs : list ascii) : list ascii :=
  match cs with
  | [] => []
  | c :: rest =>
      match trim_start (S (List.length rest)) (c :: rest) with
      | [] => []
      | _ => c :: trim_end rest
      end
  end.

Definition trim (cs : list ascii) : list ascii :=
  trim_end (trim_start (List.length cs) cs).

Definition digit_in (radix : Z) (c : ascii) : option Z :=
  let z := code c in
  let d := if (48 <=? z) && (z <=? 57) then z - 48
           else if (97 <=? z) && (z <=? 122) then z - 87
           else if (65 <=? z) && (z <=? 90) then z - 55
           else radix in
  if d <? radix then Some d else None.

(** The longest prefix of digits in [radix], as digit values. *)
Fixpoint take_radix (radix : Z) (cs : list ascii) : list Z * list ascii :=
  match cs with
  | c :: rest =>
      match digit_in radix c with
      | Some d => let '(ds, r) := take_radix radix rest in (d :: ds, r)
      | None => ([], cs)
      end
  | [] => ([], [])
  end.

Definition radix_value (radix : Z) (ds : list Z) : Z :=
  fold_left (fun acc d => radix * acc + d) ds 0.

Definition nan : number := PrimFloat.nan.

(** StringToNumber: the whole trimmed string must be a numeric literal
    (empty counts as zero), otherwise the result is NaN. *)
Definition StringToNumber (s : string) : number :=
  let prefixed (radix : Z) (r : list ascii) : number :=
    match take_radix radix r with
    | (d :: ds, []) => float_of_Z (radix_value radix (d :: ds))
    | _ => nan
    end in
  let unsigned (neg : bool) (cs : list ascii) : number :=
    if (text cs =? "Infinity")%string
    then (if neg then neg_infinity else infinity)
    else
      let '(ip, r) := take_digits cs in
      let '(fp, r1) :=
        match r with
        | "."%char :: r' => take_digits r'
        | _ => ([], r)
        end in
      match (ip ++ fp)%list with
      | [] => nan
      | ds =>
          let shift := - Z.of_nat (List.length fp) in
          match r1 with
          | [] => float_of_decimal neg (number_of_digits ds) shift
          | _ =>
              match take_exponent r1 with
              | Some (e, []) => float_of_decimal neg (number_of_digits ds) (e + shift)
              | _ => nan
              end
          end
      end in
  match trim (chars s) with
  | [] => 0%float
  | "0"%char :: ("x" | "X")%char :: r => prefixed 16 r
  | "0"%char :: ("o" | "O")%char :: r => prefixed 8 r
  | "0"%char :: ("b" | "B")%char :: r => prefixed 2 r
  | "+"%char :: r => unsigned false r
  | "-"%char :: r => unsigned true r
  | cs => unsigned false cs
  end.

(** ToNumber after ToPrimitive with hint number.  Arrays and objects turn
    into their strings first. *)
Definition ToNumber (v : value) : result number :=
  match v with
  | VUndefined => Ok nan
  | VNull => Ok 0%float
  | VBool b => Ok (if b then 1%float else 0%float)
  | VNum x => Ok x
  | VStr s => Ok (StringToNumber s)
  | VArr _ | VObj _ => result_bind (ToString v) (fun s => Ok (StringToNumber s))
  end.

(** [v > 0] *)
Definition greater_than_zero (v : value) : result bool :=
  result_bind (ToNumber v) (fun x => Ok (PrimFloat.ltb 0 x)).

(** ** JSON *)

(** UTF-8 of a code point (strings are kept as their UTF-8 bytes). *)
Definition utf8 (cp : Z) : list ascii :=
  let byte z := char_of_code z in
  let tail k := byte (128 + (cp / 64 ^ k) mod 64) in
  if cp <? 128 then [byte cp]
  else if cp <? 2048 then [byte (192 + cp / 64); tail 0]
  else if cp <? 65536 then [byte (224 + cp / 4096); tail 1; tail 0]
  else [byte (240 + cp / 262144); tail 2; tail 1; tail 0].

Definition hex4 (cs : list ascii) : option (Z * list ascii) :=
  match cs with
  | a :: b :: c :: d :: rest =>
      match digit_in 16 a, digit_in 16 b, digit_in 16 c, digit_in 16 d with
      | Some x, Some y, Some z, Some w => Some (radix_value 16 [x; y; z; w], rest)
      | _, _, _, _ => None
      end
  | _ => None
  end.

Definition newline : string := text [char_of_code 10].
Definition dquote : ascii := char_of_code 34.
Definition backslash : ascii := char_of_code 92.

(** The characters of a JSON string after its opening quote, up to the
    closing one.  [acc] holds the decoded bytes in reverse. *)
Fixpoint json_string (fuel : nat) (acc : list ascii) (cs : list ascii)
  : option (string * list ascii) :=
  match fuel with
  | O => None
  | S f =>
      match cs with
      | [] => None
      | c :: rest =>
          if code c =? 34 then Some (text (rev acc), rest)
          else if code c =? 92 then
            match rest with
            | [] => None
            | e :: rest =>
                let plain (z : Z) := json_string f (char_of_code z :: acc) rest in
                if code e =? 34 then plain 34
                else if code e =? 92 then plain 92
                else
                  match e with
                  | "/"%char => plain 47
                  | "b"%char => plain 8
                  | "f"%char => plain 12
                  | "n"%char => plain 10
                  | "r"%char => plain 13
                  | "t"%char => plain 9
                  | "u"%char =>
                      match hex4 rest with
                      | None => None
                      | Some (hi, rest1) =>
                          let single := json_string f (rev (utf8 hi) ++ acc)%list rest1 in
                          if (55296 <=? hi) && (hi <? 56320) then
                            match rest1 with
                            | b :: "u"%char :: rest2 =>
                                match hex4 rest2 with
                                | Some (lo, rest3) =>
                                    if (code b =? 92) && (56320 <=? lo) && (lo <? 57344)
                                    then
                                      let cp := 65536 + (hi - 55296) * 1024 + (lo - 56320) in
                                      json_string f (rev (utf8 cp) ++ acc)%list rest3
                                    else single
                                | None => single
                                end
                            | _ => single
                            end
                          else single
                      end
                  | _ => None
                  end
            end
          else if code c <? 32 then None
          else json_string f (c :: acc) rest
      end
  end.

Definition json_ws (c : ascii) : bool :=
  let z := code c in (z =? 32) || (z =? 9) || (z =? 10) || (z =? 13).

Fixpoint skip_ws (cs : list ascii) : list ascii :=
  match cs with
  | c :: rest => if json_ws c then skip_ws rest else cs
  | [] => []
  end.

(** One JSON value at the front of [cs], and what follows it.  Members of an
    object are defined in order, so a repeated key keeps its first place and
    its last value. *)
Fixpoint json_value (fuel : nat) (cs : list ascii) : option (value * list ascii) :=
  match fuel with
  | O => None
  | S f =>
      match skip_ws cs with
      | "["%char :: r =>
          match skip_ws r with
          | "]"%char :: r' => Some (VArr [], r')
          | r' => json_elements f [] r'
          end
      | "{"%char :: r =>
          match skip_ws r with
          | "}"%char :: r' => Some (VObj [], r')
          | r' => json_members f [] r'
          end
      | "t"%char :: "r"%char :: "u"%char :: "e"%char :: r => Some (VBool true, r)
      | "f"%char :: "a"%char :: "l"%char :: "s"%char :: "e"%char :: r => Some (VBool false, r)
      | "n"%char :: "u"%char :: "l"%char :: "l"%char :: r => Some (VNull, r)
      | c :: r =>
          if code c =? 34 then
            match json_string (S (List.length r)) [] r with
            | Some (s, r') => Some (VStr s, r')
            | None => None
            end
          else
            match json_number (c :: r) with
            | Some (x, r') => Some (VNum x, r')
            | None => None
            end
      | [] => None
      end
  end
with json_elements (fuel : nat) (acc : list value) (cs : list ascii)
  : option (value * list ascii) :=
  match fuel with
  | O => None
  | S f =>
      match json_value f cs with
      | Some (v, r) =>
          match skip_ws r with
          | ","%char :: r' => json_elements f (v :: acc) r'
          | "]"%char :: r' => Some (VArr (rev (v :: acc)), r')
          | _ => None
          end
      | None => None
      end
  end
with json_members (fuel : nat) (acc : list (string * value)) (cs : list ascii)
  : option (value * list ascii) :=
  match fuel with
  | O => None
  | S f =>
      match skip_ws cs with
      | c :: r =>
          if code c =? 34 then
            match json_string (S (List.length r)) [] r with
            | Some (k, r1) =>
                match skip_ws r1 with
                | ":"%char :: r2 =>
                    match json_value f r2 with
                    | Some (v, r3) =>
                        match skip_ws r3 with
                        | ","%char :: r4 => json_members f (obj_set k v acc) r4
                        | "}"%char :: r4 => Some (VObj (obj_set k v acc), r4)
                        | _ => None
                        end
                    | None => None
                    end
                | _ => None
                end
            | None => None
            end
          else None
      | [] => None
      end
  end.

Definition not_valid_json (s : string) : exn :=
  SyntaxError (String dquote s ++ String dquote " is not valid JSON").

(** [JSON.parse(s)]: one value, white space around it, nothing else. *)
Definition JSON_parse (s : string) : result value :=
  let cs := chars s in
  match json_value (2 * List.length cs + 2) cs with
  | Some (v, r) =>
      match skip_ws r with
      | [] => Ok v
      | _ => Throw (not_valid_json s)
      end
  | None => Throw (not_valid_json s)
  end.

Definition hex_char (d : Z) : ascii :=
  if d <? 10 then char_of_code (48 + d) else char_of_code (87 + d).

(** QuoteJSONString *)
Definition quote (s : string) : string :=
  let escape (c : ascii) : list ascii :=
    let z := code c in
    if z =? 8 then chars "\b"
    else if z =? 9 then chars "\t"
    else if z =? 10 then chars "\n"
    else if z =? 12 then chars "\f"
    else if z =? 13 then chars "\r"
    else if z =? 34 then [backslash; dquote]
    else if z =? 92 then chars "\\"
    else if z <? 32 then (chars "\u00" ++ [hex_char (z / 16); hex_char (z mod 16)])%list
    else [c] in
  text (dquote :: flat_map escape (chars s) ++ [dquote])%list.

Definition is_finite (x : number) : bool :=
  match Prim2SF x with
  | S754_zero _ | S754_finite _ _ _ => true
  | _ => false
  end.

(** [JSON.stringify(v)]; [None] is the result [undefined]. *)
Fixpoint JSON_stringify (v : value) : option string :=
  match v with
  | VUndefined => None
  | VNull => Some "null"
  | VBool b => Some (if b then "true" else "false")
  | VNum x => Some (if is_finite x then Number_toString x else "null")
  | VStr s => Some (quote s)
  | VArr l =>
      let element x :=
        match JSON_stringify x with
        | Some t => t
        | None => "null"
        end in
      Some ("[" ++ join "," (map element l) ++ "]")
  | VObj fields =>
      let member (kv : string * value) :=
        match JSON_stringify (snd kv) with
        | Some t => [quote (fst kv) ++ ":" ++ t]
        | None => []
        end in
      Some ("{" ++ join "," (flat_map member fields) ++ "}")
  end.

Definition quoted (s : string) : string := String dquote (s ++ String dquote "").

(** ** Dates *)

(** Days since 1970-01-01 to year, month and day of the proleptic
    Gregorian calendar. *)
Definition civil_from_days (days : Z) : Z * Z * Z :=
  let z := days + 719468 in
  let era := z / 146097 in
  let doe := z - era * 146097 in
  let yoe := (doe - doe / 1460 + doe / 36524 - doe / 146096) / 365 in
  let doy := doe - (365 * yoe + yoe / 4 - yoe / 100) in
  let mp := (5 * doy + 2) / 153 in
  let d := doy - (153 * mp + 2) / 5 + 1 in
  let m := if mp <? 10 then mp + 3 else mp - 9 in
  (yoe + era * 400 + (if m <=? 2 then 1 else 0), m, d).

Definition two (n : Z) : string := pad_zeros 2 (decimal n).

Definition date_text (days : Z) : string :=
  let '(y, m, d) := civil_from_days days in
  let year :=
    if (0 <=? y) && (y <=? 9999) then pad_zeros 4 (decimal y)
    else (if y <? 0 then "-" else "+") ++ pad_zeros 6 (decimal (Z.abs y)) in
  year ++ "-" ++ two m ++ "-" ++ two d.

Definition time_text (ms : Z) : string :=
  let s := (ms mod 86400000) / 1000 in
  two (s / 3600) ++ ":" ++ two (s / 60 mod 60) ++ ":" ++ two (s mod 60).

(** [new Date(ms).toISOString()] *)
Definition toISOString (ms : Z) : string :=
  date_text (ms / 86400000) ++ "T" ++ time_text ms ++ "." ++
  pad_zeros 3 (decimal (ms mod 1000)) ++ "Z".

(** SQLite's [CURRENT_TIMESTAMP]: UTC, to the second. *)
Definition CURRENT_TIMESTAMP (ms : Z) : string :=
  date_text (ms / 86400000) ++ " " ++ time_text ms.

(** ** Base64 and parseInt *)

Definition base64_char (n : Z) : ascii :=
  if n <? 26 then char_of_code (65 + n)
  else if n <? 52 then char_of_code (97 + n - 26)
  else if n <? 62 then char_of_code (48 + n - 52)
  else if n =? 62 then "+"%char else "/"%char.

Fixpoint base64_groups (fuel : nat) (bytes : list Z) : list ascii :=
  match fuel with
  | O => []
  | S f =>
      match bytes with
      | [] => []
      | [a] =>
          [base64_char (a / 4); base64_char (a mod 4 * 16); "="%char; "="%char]
      | [a; b] =>
          [base64_char (a / 4); base64_char (a mod 4 * 16 + b / 16);
           base64_char (b mod 16 * 4); "="%char]
      | a :: b :: c :: rest =>
          (base64_char (a / 4) :: base64_char (a mod 4 * 16 + b / 16) ::
           base64_char (b mod 16 * 4 + c / 64) :: base64_char (c mod 64) ::
           base64_groups f rest)
      end
  end.

(** [Buffer.from(s).toString('base64')] *)
Definition base64 (s : string) : string :=
  text (base64_groups (S (String.length s)) (map code (chars s))).

(** [parseInt(v)] without a radix: the string of [v], leading white space
    and a sign skipped, base 16 after [0x], the longest run of digits; NaN
    when there is none. *)
Definition parseInt (v : value) : result number :=
  result_bind (ToString v) (fun s =>
    let cs := trim_start (String.length s) (chars s) in
    let '(neg, cs1) :=
      match cs with
      | "-"%char :: r => (true, r)
      | "+"%char :: r => (false, r)
      | _ => (false, cs)
      end in
    let '(radix, cs2) :=
      match cs1 with
      | "0"%char :: ("x" | "X")%char :: r => (16, r)
      | _ => (10, cs1)
      end in
    match take_radix radix cs2 with
    | ([], _) => Ok nan
    | (ds, _) =>
        let n := radix_value radix ds in
        Ok (if n =? 0 then (if neg then (-0)%float else 0%float)
            else float_of_decimal neg n 0)
    end).

(** [Object.keys(v)] *)
Definition Object_keys (v : value) : result value :=
  let indices (n : nat) := map (fun i => VStr (decimal (Z.of_nat i))) (seq 0 n) in
  match v with
  | VUndefined | VNull => Throw (TypeError "Cannot convert undefined or null to object")
  | VBool _ | VNum _ => Ok (VArr [])
  | VStr s => Ok (VArr (indices (String.length s)))
  | VArr l => Ok (VArr (indices (List.length l)))
  | VObj fields => Ok (VArr (map (fun kv => VStr (fst kv)) fields))
  end.

(** ** The orders table

    [[
    CREATE TABLE IF NOT EXISTS orders (
      id INTEGER PRIMARY KEY AUTOINCREMENT,
      business_id TEXT NOT NULL, order_number TEXT NOT NULL,
      customer_name TEXT, customer_phone TEXT, items TEXT NOT NULL,
      special_instructions TEXT, total REAL,
      status TEXT DEFAULT 'new', created_at DATETIME DEFAULT CURRENT_TIMESTAMP)
    ]]

    A row holds what the statements of the program can put in each column:
    text in a TEXT column (NULL where the schema allows it), a number or
    unconverted text in the REAL column, the text of [CURRENT_TIMESTAMP] in
    [created_at]. *)

Inductive sqlval : Type :=
| SqlNull
| SqlReal (x : number)
| SqlText (s : string).
Arguments SqlReal x%_float.

Record row : Type := {
  row_id : Z;
  business_id : string;
  order_number : string;
  customer_name : option string;
  customer_phone : option string;
  items : string;
  special_instructions : option string;
  total : sqlval;
  status : option string;
  created_at : string
}.

(** The table and the AUTOINCREMENT counter kept in [sqlite_sequence]. *)
Record store : Type := {
  orders : list row;
  sequence : Z
}.

(** Conversions SQLite makes by column affinity.  They belong to the
    database engine, so they are taken as given: the text a number turns
    into in a TEXT column, the number a text turns into in the REAL column
    (none when it does not look like one), and the integer a text compares
    as against the INTEGER key (none when it is no integer). *)
Record conversions : Type := {
  text_of_number : number -> string;
  real_of_text : string -> option number;
  integer_of_text : string -> option Z
}.

(** What better-sqlite3 accepts as one bound value: [undefined] binds as
    NULL, like [null]. *)
Definition bind_value (v : value) : result sqlval :=
  match v with
  | VUndefined | VNull => Ok SqlNull
  | VNum x => Ok (if is_nan x then SqlNull else SqlReal x)
  | VStr s => Ok (SqlText s)
  | VBool _ | VArr _ | VObj _ =>
      Throw (TypeError "SQLite3 can only bind numbers, strings, bigints, buffers, and null")
  end.

(** One value bound to the next placeholder, of which [room] are left: a
    value of the wrong type is refused first, then a value with no
    placeholder left for it. *)
Definition bind_one (room : nat) (v : value) : result sqlval :=
  result_bind (bind_value v) (fun x =>
    match room with
    | O => Throw (RangeError "Too many parameter values were provided")
    | S _ => Ok x
    end).

Fixpoint bind_array (room : nat) (l : list value) : result (list sqlval) :=
  match l with
  | [] => Ok []
  | v :: rest =>
      result_bind (bind_one room v) (fun x =>
      result_bind (bind_array (pred room) rest) (fun xs => Ok (x :: xs)))
  end.

(** The arguments of [run] and [all], bound from left to right: an array
    argument binds its elements one by one, a plain object carries named
    parameters (none of the statements here has any, so it binds nothing,
    and only one such object may appear), anything else binds as one value.
    Every placeholder must get its value. *)
Fixpoint bind_arguments (room : nat) (named : bool) (args : list value)
  : result (list sqlval) :=
  match args with
  | [] =>
      match room with
      | O => Ok []
      | S _ => Throw (RangeError "Too few parameter values were provided")
      end
  | VArr l :: rest =>
      result_bind (bind_array room l) (fun xs =>
      result_bind (bind_arguments (room - List.length xs) named rest) (fun ys =>
        Ok (xs ++ ys)%list))
  | VObj _ :: rest =>
      if named
      then Throw (TypeError "You cannot specify named parameters in two different objects")
      else bind_arguments room true rest
  | v :: rest =>
      result_bind (bind_one room v) (fun x =>
      result_bind (bind_arguments (pred room) named rest) (fun ys => Ok (x :: ys)))
  end.

(** Binding for a statement with [n] placeholders. *)
Definition bind_statement (n : nat) (args : list value) : result (list sqlval) :=
  bind_arguments n false args.

Section Statements.
Variable cv : conversions.

(** TEXT affinity. *)
Definition text_column (v : sqlval) : option string :=
  match v with
  | SqlNull => None
  | SqlText s => Some s
  | SqlReal x => Some (text_of_number cv x)
  end.

(** REAL affinity. *)
Definition real_column (v : sqlval) : sqlval :=
  match v with
  | SqlText s =>
      match real_of_text cv s with
      | Some x => SqlReal x
      | None => SqlText s
      end
  | _ => v
  end.

Definition not_null (column : string) (v : option string) : result string :=
  match v with
  | Some s => Ok s
  | None => Throw (SqliteError ("NOT NULL constraint failed: orders." ++ column))
  end.

(** The next AUTOINCREMENT key: one more than the largest key the table
    holds or has ever held. *)
Definition next_id (st : store) : Z :=
  1 + fold_right Z.max (sequence st) (map row_id (orders st)).

(** [INSERT INTO orders (business_id, order_number, customer_name,
    customer_phone, items, special_instructions, total) VALUES (?, ?, ?, ?, ?, ?, ?)]
    with its seven bound values, at the time [now]. *)
Definition insert_row (now : Z) (vs : list sqlval) (st : store) : result (Z * store) :=
  match vs with
  | [b; n; c; p; i; s; t] =>
      result_bind (not_null "business_id" (text_column b)) (fun b' =>
      result_bind (not_null "order_number" (text_column n)) (fun n' =>
      result_bind (not_null "items" (text_column i)) (fun i' =>
        let key := next_id st in
        let r := {| row_id := key; business_id := b'; order_number := n';
                    customer_name := text_column c; customer_phone := text_column p;
                    items := i'; special_instructions := text_column s;
                    total := real_column t; status := Some "new";
                    created_at := CURRENT_TIMESTAMP now |} in
        Ok (key, {| orders := (orders st ++ [r])%list; sequence := key |}))))
  | _ => Throw (RangeError "Too few parameter values were provided")
  end.

(** [column = ?] for a TEXT column. *)
Definition text_equals (column : option string) (v : sqlval) : bool :=
  match column, text_column v with
  | Some c, Some s => (c =? s)%string
  | _, _ => false
  end.

(** [id = ?] *)
Definition id_equals (key : Z) (v : sqlval) : bool :=
  match v with
  | SqlNull => false
  | SqlReal x => PrimFloat.eqb x (float_of_Z key)
  | SqlText s =>
      match integer_of_text cv s with
      | Some z => z =? key
      | None => false
      end
  end.

(** [ORDER BY created_at DESC]: insertion, each row placed before the first
    one not newer than it, so rows of one second keep their table order. *)
Fixpoint insert_desc (r : row) (l : list row) : list row :=
  match l with
  | [] => [r]
  | x :: rest =>
      if (created_at x <=? created_at r)%string then r :: l else x :: insert_desc r rest
  end.

Definition order_by_created_at_desc (l : list row) : list row :=
  fold_right insert_desc [] l.

(** [SELECT * FROM orders WHERE 1=1 [AND business_id = ?] [AND status = ?]
    ORDER BY created_at DESC LIMIT 100]; [by_business] and [by_status] say
    which conditions the query text has, [vs] are the bound values. *)
Definition select_orders (by_business by_status : bool) (vs : list sqlval) (st : store)
  : list row :=
  let keep (r : row) : bool :=
    match by_business, by_status, vs with
    | true, true, [b; s] => text_equals (Some (business_id r)) b && text_equals (status r) s
    | true, false, [b] => text_equals (Some (business_id r)) b
    | false, true, [s] => text_equals (status r) s
    | _, _, _ => true
    end in
  firstn 100 (order_by_created_at_desc (filter keep (orders st))).

(** [UPDATE orders SET status = ? WHERE id = ?] *)
Definition update_status (new_status key : sqlval) (st : store) : store :=
  let set (r : row) : row :=
    if id_equals (row_id r) key
    then {| row_id := row_id r; business_id := business_id r;
            order_number := order_number r; customer_name := customer_name r;
            customer_phone := customer_phone r; items := items r;
            special_instructions := special_instructions r; total := total r;
            status := text_column new_status; created_at := created_at r |}
    else r in
  {| orders := map set (orders st); sequence := sequence st |}.

Definition sql_value (v : sqlval) : value :=
  match v with
  | SqlNull => VNull
  | SqlReal x => VNum x
  | SqlText s => VStr s
  end.

Definition nullable (v : option string) : value :=
  match v with
  | Some s => VStr s
  | None => VNull
  end.

(** The object better-sqlite3 returns for a row of [SELECT *]: one field
    per column, under the column's name, in table order. *)
Definition row_object (r : row) : list (string * value) :=
  [("id", VNum (float_of_Z (row_id r)));
   ("business_id", VStr (business_id r));
   ("order_number", VStr (order_number r));
   ("customer_name", nullable (customer_name r));
   ("customer_phone", nullable (customer_phone r));
   ("items", VStr (items r));
   ("special_instructions", nullable (special_instructions r));
   ("total", sql_value (total r));
   ("status", nullable (status r));
   ("created_at", VStr (created_at r))].
End Statements.

(** ** The world of a request *)

(** The argument of [fetch] after the URL. *)
Record request : Type := {
  method : string;
  headers : list (string * string);
  body : string
}.

(** How a [fetch] ends: the promise rejects, or it resolves to a response
    with its [ok] flag and what [text()] gives. *)
Inductive fetch_outcome : Type :=
| Rejected (e : exn)
| Resolved (ok : bool) (response_text : result string).

(** What the program reads but does not own: [process.env], the system
    clock (its successive readings, in milliseconds since the epoch), the
    locale's rendering of a time of day, the network, and SQLite's
    conversions. *)
Record environment : Type := {
  PRINT_METHOD : option string;
  PRINTNODE_API_KEY : option string;
  PRINTER_IDS : option string;
  PRINT_WEBHOOKS : option string;
  clock : nat -> Z;
  toLocaleTimeString : Z -> string;
  network : value -> request -> fetch_outcome;
  sqlite : conversions
}.

Inductive logged : Type :=
| Nothing
| A_value (v : value)
| An_error (e : exn).

Inductive event : Type :=
| Console_log (msg : string) (extra : logged)
| Console_error (msg : string) (extra : logged)
| Fetch (url : value) (init : request).

(** The database, what has been written and sent so far (newest first),
    and how many times the clock has been read. *)
Record world : Type := {
  database : store;
  trace : list event;
  ticks : nat
}.

Record response : Type := {
  http_status : Z;
  json : value
}.

(** Computations that read and change the world and may throw. *)
Definition M (A : Type) : Type := world -> result A * world.

Definition ret {A} (a : A) : M A := fun w => (Ok a, w).

Definition throw {A} (e : exn) : M A := fun w => (Throw e, w).

Definition bind {A B} (m : M A) (k : A -> M B) : M B :=
  fun w =>
    match m w with
    | (Ok a, w') => k a w'
    | (Throw e, w') => (Throw e, w')
    end.

(** [try { m } catch (e) { handler e }] *)
Definition try_catch {A} (m : M A) (handler : exn -> M A) : M A :=
  fun w =>
    match m w with
    | (Ok a, w') => (Ok a, w')
    | (Throw e, w') => handler e w'
    end.

Definition lift {A} (r : result A) : M A := fun w => (r, w).

Declare Scope js_scope.
Delimit Scope js_scope with js.
Notation "x <- m ;; k" := (bind m (fun x => k))
  (at level 61, m at next level, right associativity) : js_scope.
Notation "m ;; k" := (bind m (fun _ => k))
  (at level 61, right associativity) : js_scope.
Local Open Scope js_scope.

Definition emit (e : event) : M unit :=
  fun w => (Ok tt, {| database := database w; trace := e :: trace w; ticks := ticks w |}).

Definition console_log (msg : string) (extra : logged) : M unit :=
  emit (Console_log msg extra).

Definition console_error (msg : string) (extra : logged) : M unit :=
  emit (Console_error msg extra).

(** [process.env.X || fallback] and [!process.env.X] *)
Definition env_or (x : option string) (fallback : string) : string :=
  match x with
  | Some s => if (s =? "")%string then fallback else s
  | None => fallback
  end.

Definition env_unset (x : option string) : bool :=
  match x with
  | Some s => (s =? "")%string
  | None => true
  end.

(** [arr.forEach(f)]; [what] is the source text of [arr], for the message. *)
Definition forEach (what : string) (arr : value) (f : value -> result (list string))
  : result (list string) :=
  match arr with
  | VArr l => result_bind (result_map f l) (fun ls => Ok (List.concat ls))
  | VUndefined =>
      Throw (TypeError "Cannot read properties of undefined (reading 'forEach')")
  | VNull => Throw (TypeError "Cannot read properties of null (reading 'forEach')")
  | _ => Throw (TypeError (what ++ ".forEach is not a function"))
  end.

Section Server.
Variable env : environment.

(** One reading of the clock: [Date.now()], [new Date()], CURRENT_TIMESTAMP. *)
Definition now : M Z :=
  fun w => (Ok (clock env (ticks w)),
            {| database := database w; trace := trace w; ticks := S (ticks w) |}).

Definition fetch (url : value) (init : request) : M (bool * result string) :=
  emit (Fetch url init) ;;
  match network env url init with
  | Rejected e => throw e
  | Resolved ok t => ret (ok, t)
  end.

(** *** The database statements *)

Definition insert_run (args : list value) : M Z :=
  vs <- lift (bind_statement 7 args) ;;
  t <- now ;;
  fun w =>
    match insert_row (sqlite env) t vs (database w) with
    | Ok (key, st) => (Ok key, {| database := st; trace := trace w; ticks := ticks w |})
    | Throw e => (Throw e, w)
    end.

Definition select_all (by_business by_status : bool) (args : list value) : M (list row) :=
  let n := ((if by_business then 1 else 0) + (if by_status then 1 else 0))%nat in
  vs <- lift (bind_statement n args) ;;
  fun w => (Ok (select_orders (sqlite env) by_business by_status vs (database w)), w).

Definition update_run (args : list value) : M unit :=
  vs <- lift (bind_statement 2 args) ;;
  match vs with
  | [s; k] =>
      fun w => (Ok tt, {| database := update_status (sqlite env) s k (database w);
                          trace := trace w; ticks := ticks w |})
  | _ => ret tt
  end.

(** *** formatKitchenTicket *)

(** The lines of one item: [`${item.quantity}x ${item.name}`], then one
    line per modification. *)
Definition item_lines (item : value) : result (list string) :=
  result_bind (get item "quantity") (fun quantity =>
  result_bind (ToString quantity) (fun q =>
  result_bind (get item "name") (fun name =>
  result_bind (ToString name) (fun n =>
  result_bind (get item "modifications") (fun modifications =>
  result_bind
    (if truthy modifications then
       result_bind (get modifications "length") (fun len =>
       result_bind (greater_than_zero len) (fun some =>
         if some
         then forEach "item.modifications" modifications
                (fun mod_ => result_bind (ToString mod_) (fun m => Ok ["   - " ++ m]))
         else Ok []))
     else Ok [])
    (fun mods => Ok ((q ++ "x " ++ n) :: mods))))))).

(** [order.total.toFixed(2)] *)
Definition total_toFixed (total : value) : result string :=
  match total with
  | VNum x => Ok (toFixed2 x)
  | VUndefined => Throw (TypeError "Cannot read properties of undefined (reading 'toFixed')")
  | VNull => Throw (TypeError "Cannot read properties of null (reading 'toFixed')")
  | _ => Throw (TypeError "order.total.toFixed is not a function")
  end.

(** The ticket once the order number has been printed and the clock read:
    [time] is [new Date().toLocaleTimeString()]. *)
Definition ticket (order : value) (number time : string) : result string :=
  result_bind (get order "customerName") (fun customerName =>
  result_bind (ToString customerName) (fun name =>
  result_bind (get order "customerPhone") (fun customerPhone =>
  result_bind (if truthy customerPhone
               then result_bind (ToString customerPhone) (fun p => Ok ["Phone: " ++ p])
               else Ok []) (fun phone =>
  result_bind (get order "items") (fun items =>
  result_bind (forEach "order.items" items item_lines) (fun item_block =>
  result_bind (get order "specialInstructions") (fun specialInstructions =>
  result_bind (if truthy specialInstructions
               then result_bind (ToString specialInstructions) (fun t =>
                      Ok [""; "Special Instructions:"; t])
               else Ok []) (fun instructions =>
  result_bind (get order "total") (fun total =>
  result_bind (total_toFixed total) (fun amount =>
    let banner := ["================================";
                   "ORDER " ++ number ++ "     " ++ time;
                   "================================";
                   "";
                   "Customer: " ++ name] in
    let rule := ["--------------------------------"] in
    let footer := ["";
                   "TOTAL: $" ++ amount;
                   "================================";
                   "";
                   ""] in
    Ok (join newline
          (banner ++ phone ++ [""] ++ rule ++ item_block ++ rule
           ++ instructions ++ footer)%list))))))))))).

Definition formatKitchenTicket (order : value) : M string :=
  number <- lift (result_bind (get order "orderNumber") ToString) ;;
  t <- now ;;
  lift (ticket order number (toLocaleTimeString env t)).

(** *** The print channels *)

Definition printViaPrintNode (businessId : value) (content : string) : M unit :=
  if env_unset (PRINTNODE_API_KEY env) then
    console_log "PrintNode API key not configured" Nothing
  else
    let apiKey := env_or (PRINTNODE_API_KEY env) "" in
    printerIds <- lift (JSON_parse (env_or (PRINTER_IDS env) "{}")) ;;
    key <- lift (ToString businessId) ;;
    printerId <- lift (get printerIds key) ;;
    if negb (truthy printerId) then
      console_log ("No printer configured for business " ++ key) Nothing ;;
      keys <- lift (Object_keys printerIds) ;;
      console_log "Available business IDs:" (A_value keys)
    else
      p <- lift (ToString printerId) ;;
      b <- lift (ToString businessId) ;;
      console_log ("Printing to PrintNode printer " ++ p ++ " for business " ++ b) Nothing ;;
      n <- lift (parseInt printerId) ;;
      let job := VObj [("printerId", VNum n);
                       ("title", VStr "Kitchen Order");
                       ("contentType", VStr "raw_base64");
                       ("content", VStr (base64 content));
                       ("source", VStr "Phone Order System")] in
      response <- fetch (VStr "https://api.printnode.com/printjobs")
                    {| method := "POST";
                       headers := [("Authorization", "Basic " ++ base64 (apiKey ++ ":"));
                                   ("Content-Type", "application/json")];
                       body := match JSON_stringify job with Some t => t | None => "" end |} ;;
      if negb (fst response) then
        error <- lift (snd response) ;;
        console_error "PrintNode error:" (A_value (VStr error))
      else
        console_log "Print job sent successfully" Nothing.

Definition printViaCloudPRNT (businessId : value) (content : string) : M unit :=
  console_log "CloudPRNT implementation pending" Nothing.

Definition printViaWebhook (businessId : value) (content : string) : M unit :=
  webhookUrls <- lift (JSON_parse (env_or (PRINT_WEBHOOKS env) "{}")) ;;
  key <- lift (ToString businessId) ;;
  webhookUrl <- lift (get webhookUrls key) ;;
  if truthy webhookUrl then
    let envelope := VObj [("content", VStr content); ("businessId", businessId)] in
    _ <- fetch webhookUrl
           {| method := "POST";
              headers := [("Content-Type", "application/json")];
              body := match JSON_stringify envelope with Some t => t | None => "" end |} ;;
    ret tt
  else ret tt.

(** *** printOrder *)

Definition printOrder (businessId order : value) : M unit :=
  if env_unset (PRINT_METHOD env) then
    console_log "No print method configured" Nothing
  else
    let printMethod := env_or (PRINT_METHOD env) "" in
    ticket <- formatKitchenTicket order ;;
    try_catch
      (if (printMethod =? "printnode")%string then printViaPrintNode businessId ticket
       else if (printMethod =? "cloudprnt")%string then printViaCloudPRNT businessId ticket
       else if (printMethod =? "webhook")%string then printViaWebhook businessId ticket
       else ret tt)
      (fun error => console_error "Print error:" (An_error error)).

(** *** POST /api/orders *)

Definition stringified (v : value) : value :=
  match JSON_stringify v with
  | Some t => VStr t
  | None => VUndefined
  end.

(** The items of the payload: a string is parsed, and when that fails it
    becomes the name of a single item. *)
Definition parse_items (items : value) : M value :=
  match items with
  | VStr s =>
      try_catch (lift (JSON_parse s))
        (fun e =>
           console_error "Failed to parse items string:" (An_error e) ;;
           ret (VArr [VObj [("name", items); ("quantity", VNum 1);
                            ("modifications", VArr [])]]))
  | _ => ret items
  end.

(** [`#${Date.now().toString().slice(-6)}`] *)
Definition generate_orderNumber (t : Z) : string :=
  "#" ++ slice_last 6 (decimal_Z t).

(** The [try] block of the handler. *)
Definition post_orders_try (req_body : value) : M response :=
  businessId <- lift (get req_body "businessId") ;;
  customerName <- lift (get req_body "customerName") ;;
  customerPhone <- lift (get req_body "customerPhone") ;;
  items <- lift (get req_body "items") ;;
  specialInstructions <- lift (get req_body "specialInstructions") ;;
  total <- lift (get req_body "total") ;;
  console_log "Received order:" (A_value req_body) ;;
  parsedItems <- parse_items items ;;
  t <- now ;;
  let orderNumber := generate_orderNumber t in
  lastInsertRowid <-
    insert_run [or_else businessId (VStr "default");
                VStr orderNumber;
                or_else customerName (VStr "Guest");
                or_else customerPhone (VStr "");
                stringified parsedItems;
                or_else specialInstructions (VStr "");
                or_else total (VNum 0)] ;;
  created <- now ;;
  let order := VObj [("id", VNum (float_of_Z lastInsertRowid));
                     ("orderNumber", VStr orderNumber);
                     ("businessId", or_else businessId (VStr "default"));
                     ("customerName", or_else customerName (VStr "Guest"));
                     ("customerPhone", or_else customerPhone (VStr ""));
                     ("items", parsedItems);
                     ("specialInstructions", or_else specialInstructions (VStr ""));
                     ("total", or_else total (VNum 0));
                     ("createdAt", VStr (toISOString created))] in
  printOrder (or_else businessId (VStr "default")) order ;;
  ret {| http_status := 200; json := VObj [("success", VBool true); ("order", order)] |}.

(** The [catch] block: [res.status(500).json({ success: false, error: error.message })]. *)
Definition post_orders_catch (error : exn) : M response :=
  console_error "Error processing order:" (An_error error) ;;
  ret {| http_status := 500;
         json := VObj [("success", VBool false); ("error", VStr (message error))] |}.

Definition post_orders (req_body : value) : M response :=
  try_catch (post_orders_try req_body) post_orders_catch.

(** *** GET /api/orders *)

Definition get_orders (req_query : value) : M response :=
  businessId <- lift (get req_query "businessId") ;;
  status <- lift (get req_query "status") ;;
  let params := ((if truthy businessId then [businessId] else [])
                 ++ (if truthy status then [status] else []))%list in
  orders <- select_all (truthy businessId) (truthy status) params ;;
  formattedOrders <-
    lift (result_map
            (fun order =>
               result_bind (JSON_parse (items order)) (fun parsed =>
                 Ok (spread_with (row_object order) "items" parsed)))
            orders) ;;
  ret {| http_status := 200; json := VArr formattedOrders |}.

(** *** PATCH /api/orders/:id *)

Definition patch_order (id : string) (req_body : value) : M response :=
  status <- lift (get req_body "status") ;;
  update_run [status; VStr id] ;;
  ret {| http_status := 200; json := VObj [("success", VBool true)] |}.
End Server.

(** * Vocabulary of the statements *)

Definition logged_world (e : event) (w : world) : world :=
  {| database := database w; trace := e :: trace w; ticks := ticks w |}.

Definition ticked (w : world) : world :=
  {| database := database w; trace := trace w; ticks := S (ticks w) |}.

Definition is_fetch (e : event) : bool :=
  match e with
  | Fetch _ _ => true
  | _ => false
  end.

(** Between [w] and [w'] the program wrote to the console at most: every
    event added to the trace is a console line, none a network call. *)
Definition no_fetch_between (w w' : world) : Prop :=
  exists added,
    trace w' = (added ++ trace w)%list /\ forallb (fun e => negb (is_fetch e)) added = true.

(** [frames m]: whatever [m] does, the database is afterwards as before. *)
Definition frames {A} (m : M A) : Prop :=
  forall w r w', m w = (r, w') -> database w' = database w.

(** What [parse_items] yields. *)
Definition fallback_item (s : string) : value :=
  VArr [VObj [("name", VStr s); ("quantity", VNum 1); ("modifications", VArr [])]].

Definition parsed_items (items : value) : value :=
  match items with
  | VStr s =>
      match JSON_parse s with
      | Ok v => v
      | Throw _ => fallback_item s
      end
  | _ => items
  end.

(** The arguments of the insert and the order object of the response, as
    the handler builds them from the fields of the payload. *)
Definition insert_arguments (orderNumber : string)
    (businessId customerName customerPhone parsedItems specialInstructions total : value)
  : list value :=
  [or_else businessId (VStr "default"); VStr orderNumber;
   or_else customerName (VStr "Guest"); or_else customerPhone (VStr "");
   stringified parsedItems; or_else specialInstructions (VStr "");
   or_else total (VNum 0)].

Definition order_object (key : Z) (orderNumber : string)
    (businessId customerName customerPhone parsedItems specialInstructions total : value)
    (created : Z) : value :=
  VObj [("id", VNum (float_of_Z key));
        ("orderNumber", VStr orderNumber);
        ("businessId", or_else businessId (VStr "default"));
        ("customerName", or_else customerName (VStr "Guest"));
        ("customerPhone", or_else customerPhone (VStr ""));
        ("items", parsedItems);
        ("specialInstructions", or_else specialInstructions (VStr ""));
        ("total", or_else total (VNum 0));
        ("createdAt", VStr (toISOString created))].

(** [res.json({ success: true, order })] *)
Definition created (order : value) : response :=
  {| http_status := 200; json := VObj [("success", VBool true); ("order", order)] |}.

(** [res.status(500).json({ success: false, error })] *)
Definition failed (e : exn) : response :=
  {| http_status := 500;
     json := VObj [("success", VBool false); ("error", VStr (message e))] |}.

(** The order a successful POST on [req_body] returns in the world [w]:
    the key is the next one of the table, the order number comes from the
    first reading of the clock, [createdAt] from the third (the insert
    takes the second). *)
Definition created_order (env : environment) (w : world) (req_body : value) : value :=
  order_object (next_id (database w)) (generate_orderNumber (clock env (ticks w)))
    (field "businessId" req_body) (field "customerName" req_body)
    (field "customerPhone" req_body) (parsed_items (field "items" req_body))
    (field "specialInstructions" req_body) (field "total" req_body)
    (clock env (S (S (ticks w)))).

(** Line items as the data model has them: a name, a positive whole
    quantity, a sequence of modification strings. *)
Definition is_positive_integer (x : number) : bool :=
  match Prim2SF x with
  | S754_finite false m e => if 0 <=? e then true else (Zpos m mod 2 ^ (- e) =? 0)
  | _ => false
  end.

Definition is_line_item (v : value) : bool :=
  match v with
  | VObj fields =>
      match lookup "name" fields, lookup "quantity" fields, lookup "modifications" fields with
      | Some (VStr _), Some (VNum q), Some (VArr mods) =>
          is_positive_integer q && forallb is_string mods
      | _, _, _ => false
      end
  | _ => false
  end.

Definition well_formed_items (v : value) : bool :=
  match v with
  | VArr l => forallb is_line_item l
  | _ => false
  end.

(** A create payload is valid when it is an object whose optional text
    fields are strings (or absent, or null), whose total is a number (or
    absent, or null), and whose items are a sequence of line items, given
    as such or as a string: a string that parses must parse to such a
    sequence, one that does not parse is taken whole by the fallback. *)
Definition optional_text (v : value) : bool :=
  match v with
  | VUndefined | VNull | VStr _ => true
  | _ => false
  end.

Definition optional_number (v : value) : bool :=
  match v with
  | VUndefined | VNull | VNum _ => true
  | _ => false
  end.

Definition valid_items (v : value) : bool :=
  match v with
  | VArr l => forallb is_line_item l
  | VStr s =>
      match JSON_parse s with
      | Ok parsed => well_formed_items parsed
      | Throw _ => true
      end
  | _ => false
  end.

Definition valid_payload (req_body : value) : bool :=
  match req_body with
  | VObj _ =>
      optional_text (field "businessId" req_body)
      && optional_text (field "customerName" req_body)
      && optional_text (field "customerPhone" req_body)
      && optional_text (field "specialInstructions" req_body)
      && optional_number (field "total" req_body)
      && valid_items (field "items" req_body)
  | _ => false
  end.

(** The number a list of digits, least significant first, stands for. *)
Fixpoint lsf_value (ds : list Z) : Z :=
  match ds with
  | [] => 0
  | d :: rest => d + 10 * lsf_value rest
  end.

(** The last six decimal digits of [t], most significant first. *)
Definition last_six (t : Z) : list Z :=
  map (fun i => (t / 10 ^ i) mod 10) [5; 4; 3; 2; 1; 0].

Definition six_digits (t : Z) : string := text (map digit_char (last_six t)).

(** [a] was created no earlier than [b], by the [created_at] column. *)
Definition not_older (a b : row) : Prop :=
  (created_at b <=? created_at a)%string = true.

(** The names of a listed order's fields. *)
Definition keys (v : value) : list string :=
  match v with
  | VObj fields => map fst fields
  | _ => []
  end.

Definition column_names : list string :=
  ["id"; "business_id"; "order_number"; "customer_name"; "customer_phone"; "items";
   "special_instructions"; "total"; "status"; "created_at"].

Definition model_names : list string :=
  ["businessId"; "orderNumber"; "customerName"; "customerPhone"; "items";
   "specialInstructions"; "total"; "status"; "createdAt"].

(** The query string [?businessId=..&status=..], each part optional. *)
Definition query (businessId status : option string) : value :=
  VObj ((match businessId with Some b => [("businessId", VStr b)] | None => [] end)
        ++ (match status with Some s => [("status", VStr s)] | None => [] end))%list.



(** *** Sample surroundings for the concrete cases *)

Definition sample_conversions : conversions :=
  {| text_of_number := Number_toString;
     real_of_text := fun s =>
       let x := StringToNumber s in if is_nan x then None else Some x;
     integer_of_text := fun s =>
       match chars s with
       | [] => None
       | cs => if forallb is_digit cs then Some (number_of_digits cs) else None
       end |}.

(** A server whose print method is [printMethod], with one printer and one
    webhook for the business [default], a clock that starts on 2023-11-14
    at 22:13:20.123 UTC and advances a second per reading, times of day
    printed as HH:MM:SS, and a network that refuses connections. *)
Definition sample_env (printMethod : option string) : environment :=
  {| PRINT_METHOD := printMethod;
     PRINTNODE_API_KEY := Some "key";
     PRINTER_IDS := Some ("{" ++ quoted "default" ++ ":" ++ quoted "42" ++ "}");
     PRINT_WEBHOOKS :=
       Some ("{" ++ quoted "default" ++ ":" ++ quoted "http://printer.local/hook" ++ "}");
     clock := fun n => 1700000000123 + 1000 * Z.of_nat n;
     toLocaleTimeString := time_text;
     network := fun _ _ => Rejected (FetchError "connect ECONNREFUSED");
     sqlite := sample_conversions |}.

Definition empty_world : world :=
  {| database := {| orders := []; sequence := 0 |}; trace := []; ticks := 0 |}.

(** The payload of the end-to-end example. *)
Definition alice : value :=
  VObj [("customerName", VStr "Alice");
        ("items", VArr [VObj [("name", VStr "Burger"); ("quantity", VNum 2);
                              ("modifications", VArr [VStr "no onions"])]]);
        ("total", VNum 15.5)].

(** A single item sent as the JSON text of an object, not of an array. *)
Definition single_item_text : string :=
  "{" ++ quoted "name" ++ ":" ++ quoted "Burger" ++ "," ++ quoted "quantity" ++ ":2}".

(** A payload with array-valued fields: the two elements of [businessId]
    take the first two placeholders of the insert and the empty
    [specialInstructions] takes none, so every later value lands one
    column further and the items column receives the empty phone text. *)
Definition shifted : value :=
  VObj [("businessId", VArr [VStr "a"; VStr "b"]); ("items", VArr []);
        ("specialInstructions", VArr [])].

(** A stored row whose items text is not JSON. *)
Definition bad_row : row :=
  {| row_id := 1; business_id := "default"; order_number := "#000123";
     customer_name := Some "Guest"; customer_phone := Some "";
     items := "2 burgers"; special_instructions := Some "";
     total := SqlReal 0; status := Some "new"; created_at := "2023-11-14 22:13:21" |}.

(** A filter that takes part in the query: given and not empty. *)
Definition active (f : option string) : bool :=
  match f with
  | Some x => negb (x =? "")%string
  | None => false
  end.

(** The rows a query with the filters [b] and [s] is about. *)
Definition matches (b s : option string) (r : row) : bool :=
  match b with
  | Some x => if (x =? "")%string then true else (business_id r =? x)%string
  | None => true
  end
  &&
  match s with
  | Some x =>
      if (x =? "")%string then true
      else match status r with
           | Some c => (c =? x)%string
           | None => false
           end
  | None => true
  end.

(** The element of the GET response for the row [r] whose items text
    parsed to [v]. *)
Definition listed (r : row) (v : value) : value :=
  VObj [("id", VNum (float_of_Z (row_id r)));
        ("business_id", VStr (business_id r));
        ("order_number", VStr (order_number r));
        ("customer_name", nullable (customer_name r));
        ("customer_phone", nullable (customer_phone r));
        ("items", v);
        ("special_instructions", nullable (special_instructions r));
        ("total", sql_value (total r));
        ("status", nullable (status r));
        ("created_at", VStr (created_at r))].

(** The element of the response for one row. *)
Definition format_row (order : row) : result value :=
  result_bind (JSON_parse (items order)) (fun parsed =>
    Ok (spread_with (row_object order) "items" parsed)).

(** The row the text [id] of the route selects. *)
Definition identifies (cv : conversions) (id : string) (r : row) : bool :=
  match integer_of_text cv id with
  | Some z => z =? row_id r
  | None => false
  end.

(** [r'] is [r] but for its status. *)
Definition same_but_status (r r' : row) : Prop :=
  row_id r' = row_id r /\ business_id r' = business_id r /\
  order_number r' = order_number r /\ customer_name r' = customer_name r /\
  customer_phone r' = customer_phone r /\ items r' = items r /\
  special_instructions r' = special_instructions r /\ total r' = total r /\
  created_at r' = created_at r.

(** [res.json({ success: true })] *)
Definition acknowledged : response :=
  {| http_status := 200; json := VObj [("success", VBool true)] |}.

(** The world after the end-to-end example has been posted to a server
    without a print method, and the order it was answered with. *)
Definition alice_world : world := snd (post_orders (sample_env None) alice empty_world).

Definition alice_order : value := created_order (sample_env None) empty_world alice.

(** *** Three sentences of the specification, as they are written *)

(** "Given the same Order, the formatted string is byte-identical across
    calls", whenever the calls are made. *)
Definition ticket_ignores_the_clock (env : environment) (order : value) : Prop :=
  forall w1 w2, fst (formatKitchenTicket env order w1) = fst (formatKitchenTicket env order w2).

(** "Response order has customerName Alice, status new, items[0].quantity 2,
    total 15.5 and a generated orderNumber string." *)
Definition example_as_stated (env : environment) (w : world) : Prop :=
  exists order w',
    post_orders env alice w = (Ok (created order), w') /\
    field "customerName" order = VStr "Alice" /\
    field "status" order = VStr "new" /\
    result_bind (get (field "items" order) "0") (fun item => get item "quantity")
      = Ok (VNum 2) /\
    field "total" order = VNum 15.5 /\
    is_string (field "orderNumber" order) = true.

(** "Every element of the sequence returned by GET carries the fields of
    the data model under those names." *)
Definition listing_as_stated (env : environment) (req_query : value) (w : world) : Prop :=
  forall r w' os o,
    get_orders env req_query w = (Ok r, w') -> json r = VArr os -> In o os ->
    forall k, In k model_names -> In k (keys o).


(** A table of 102 rows, each created in a second of its own: the example
    order posted 101 times for the business [default], then one order for
    the business [cafe]. *)
Definition cafe_order : value :=
  VObj [("businessId", VStr "cafe"); ("customerName", VStr "Bob");
        ("items", VArr [VObj [("name", VStr "Tea"); ("quantity", VNum 1);
                              ("modifications", VArr [])]]);
        ("total", VNum 3)].

Definition busy_world : world :=
  fold_left (fun w req_body => snd (post_orders (sample_env None) req_body w))
            (repeat alice 101 ++ [cafe_order]) empty_world.

(** ** Vocabulary of the further properties *)

(** The number of network calls among the events [added]. *)
Definition calls (added : list event) : nat := List.length (filter is_fetch added).

(** [sends n m]: whatever [m] does, it only adds to the trace, at most [n]
    network calls among what it adds. *)
Definition sends {A} (n : nat) (m : M A) : Prop :=
  forall w r w', m w = (r, w') ->
    exists added, trace w' = (added ++ trace w)%list /\ (calls added <= n)%nat.

(** The requests the server answers, and the router. *)
Inductive call : Type :=
| Post (req_body : value)
| Get (req_query : value)
| Patch (id : string) (req_body : value).

Definition serve (env : environment) (c : call) : M response :=
  match c with
  | Post req_body => post_orders env req_body
  | Get req_query => get_orders env req_query
  | Patch id req_body => patch_order env id req_body
  end.

(** The world after a sequence of requests, served one after the other; a
    handler that throws leaves the world as it had made it. *)
Definition serve_all (env : environment) (cs : list call) (w : world) : world :=
  fold_left (fun w c => snd (serve env c w)) cs w.

(** Keys grow along the table and none is above the counter. *)
Definition keys_ascend (st : store) : Prop :=
  StronglySorted Z.lt (map row_id (orders st)) /\
  Forall (fun r => row_id r <= sequence st) (orders st).

(** The names every object inherits from [Object.prototype]: a read of
    one of them finds the inherited member when the object has no field of
    that name. *)
Definition Object_prototype_names : list string :=
  ["constructor"; "__defineGetter__"; "__defineSetter__"; "hasOwnProperty";
   "__lookupGetter__"; "__lookupSetter__"; "isPrototypeOf"; "propertyIsEnumerable";
   "toString"; "valueOf"; "__proto__"; "toLocaleString"].

(** Reading [k] from the object [v] finds a field of [v] itself or nothing:
    [k] is a key of [v], or no name of [Object.prototype]. *)
Definition reads_own_field (v : value) (k : string) : bool :=
  match v with
  | VObj fields =>
      match lookup k fields with
      | Some _ => true
      | None => negb (existsb (String.eqb k) Object_prototype_names)
      end
  | _ => false
  end.

(** [stores env m]: whatever [m] does, the database is afterwards as
    before or holds one more row, inserted by the INSERT statement. *)
Definition stores {A} (env : environment) (m : M A) : Prop :=
  forall w r w', m w = (r, w') ->
    database w' = database w \/
    exists t vs key, insert_row (sqlite env) t vs (database w) = Ok (key, database w').

(** The rows of [st] are all in [st'], in the same places and the same but
    for their status, before whatever rows [st'] has more. *)
Definition kept (st st' : store) : Prop :=
  exists updated appended,
    orders st' = (updated ++ appended)%list /\ Forall2 same_but_status (orders st) updated.

Definition printnode_url : value := VStr "https://api.printnode.com/printjobs".

(** The request [printViaPrintNode] makes for the printer [printerId] and
    the ticket [content], with the key [apiKey]. *)
Definition printnode_request (apiKey : string) (printerId : number) (content : string)
  : request :=
  {| method := "POST";
     headers := [("Authorization", "Basic " ++ base64 (apiKey ++ ":"));
                 ("Content-Type", "application/json")];
     body := match JSON_stringify
                     (VObj [("printerId", VNum printerId);
                            ("title", VStr "Kitchen Order");
                            ("contentType", VStr "raw_base64");
                            ("content", VStr (base64 content));
                            ("source", VStr "Phone Order System")])
             with Some t => t | None => "" end |}.

(** What [printOrder] writes after the PrintNode request, by its outcome. *)
Definition printnode_report (o : fetch_outcome) : event :=
  match o with
  | Rejected e => Console_error "Print error:" (An_error e)
  | Resolved true _ => Console_log "Print job sent successfully" Nothing
  | Resolved false (Ok t) => Console_error "PrintNode error:" (A_value (VStr t))
  | Resolved false (Throw e) => Console_error "Print error:" (An_error e)
  end.

(** The request [printViaWebhook] makes. *)
Definition webhook_request (businessId : value) (content : string) : request :=
  {| method := "POST";
     headers := [("Content-Type", "application/json")];
     body := match JSON_stringify (VObj [("content", VStr content); ("businessId", businessId)])
             with Some t => t | None => "" end |}.

(** What [printOrder] writes after the webhook request: nothing unless the
    request was rejected. *)
Definition webhook_report (o : fetch_outcome) : list event :=
  match o with
  | Rejected e => [Console_error "Print error:" (An_error e)]
  | Resolved _ _ => []
  end.

(** The standard decoder of base64, to state what the encoder keeps: the
    value of a character of the alphabet, and groups of four characters
    turned back into three bytes (two or one before padding). *)
Definition base64_value (c : ascii) : option Z :=
  let z := code c in
  if (65 <=? z) && (z <=? 90) then Some (z - 65)
  else if (97 <=? z) && (z <=? 122) then Some (z - 71)
  else if (48 <=? z) && (z <=? 57) then Some (z + 4)
  else if z =? 43 then Some 62
  else if z =? 47 then Some 63
  else None.

Fixpoint base64_decode_groups (cs : list ascii) : option (list Z) :=
  match cs with
  | [] => Some []
  | a :: b :: c :: d :: rest =>
      match base64_value a, base64_value b, base64_value c, base64_value d with
      | Some x, Some y, Some z, Some u =>
          match base64_decode_groups rest with
          | Some bytes =>
              Some (x * 4 + y / 16 :: y mod 16 * 16 + z / 4 :: z mod 4 * 64 + u :: bytes)
          | None => None
          end
      | Some x, Some y, Some z, None =>
          match rest with
          | [] => if code d =? 61 then Some [x * 4 + y / 16; y mod 16 * 16 + z / 4] else None
          | _ => None
          end
      | Some x, Some y, None, None =>
          match rest with
          | [] => if (code c =? 61) && (code d =? 61) then Some [x * 4 + y / 16] else None
          | _ => None
          end
      | _, _, _, _ => None
      end
  | _ => None
  end.

Definition base64_decode (s : string) : option string :=
  match base64_decode_groups (chars s) with
  | Some bytes => Some (text (map char_of_code bytes))
  | None => None
  end.

(** The escape [quote] writes for one character. *)
Definition escape_char (c : ascii) : list ascii :=
  let z := code c in
  if z =? 8 then chars "\b"
  else if z =? 9 then chars "\t"
  else if z =? 10 then chars "\n"
  else if z =? 12 then chars "\f"
  else if z =? 13 then chars "\r"
  else if z =? 34 then [backslash; dquote]
  else if z =? 92 then chars "\\"
  else if z <? 32 then (chars "\u00" ++ [hex_char (z / 16); hex_char (z mod 16)])%list
  else [c].

(** The text [JSON.stringify] writes for an element of an array. *)
Definition element_text (v : value) : string :=
  match JSON_stringify v with
  | Some t => t
  | None => "null"
  end.

(** A number whose numeral reads back as the number itself. *)
Definition reads_back (x : number) : bool :=
  is_finite x &&
  match json_number (chars (Number_toString x)) with
  | Some (y, []) => PrimFloat.Leibniz.eqb y x
  | _ => false
  end.

(** Own keys in the order an object lists them: no key twice, the index
    keys first and ascending. *)
Fixpoint own_key_order (ks : list string) : bool :=
  match ks with
  | [] => true
  | k :: rest =>
      negb (existsb (String.eqb k) rest)
      && forallb (fun k' =>
                    match array_index k, array_index k' with
                    | Some i, Some j => i <? j
                    | Some _, None => true
                    | None, Some _ => false
                    | None, None => true
                    end) rest
      && own_key_order rest
  end.

(** The values [JSON.parse] can return and [JSON.stringify] writes in
    full: no [undefined], numbers that are finite and read back, objects
    with their keys in own-key order. *)
Fixpoint json_shaped (v : value) : bool :=
  match v with
  | VUndefined => false
  | VNull | VBool _ | VStr _ => true
  | VNum x => reads_back x
  | VArr l => forallb json_shaped l
  | VObj fields =>
      own_key_order (map fst fields) && forallb (fun kv => json_shaped (snd kv)) fields
  end.

(** [p] holds of the [n] integers from [z] on. *)
Fixpoint all_from (n : nat) (z : Z) (p : Z -> bool) : bool :=
  match n with
  | O => true
  | S k => p z && all_from k (z + 1) p
  end.

(** What may follow a value in a JSON text. *)
Definition stops (rest : list ascii) : Prop :=
  match rest with
  | [] => True
  | c :: _ => c = ","%char \/ c = "]"%char \/ c = "}"%char
  end.

Definition starts_exponent (cs : list ascii) : bool :=
  match cs with
  | c :: _ => Ascii.eqb c "e" || Ascii.eqb c "E"
  | [] => false
  end.

(** What follows a number token without being read as part of it. *)
Definition closes (rest : list ascii) : bool :=
  match rest with
  | [] => true
  | c :: _ => negb (is_digit c || Ascii.eqb c "." || Ascii.eqb c "e" || Ascii.eqb c "E")
  end.

(** The text of a member of an object. *)
Definition member_text (kv : string * value) : string :=
  quote (fst kv) ++ ":" ++ element_text (snd kv).

(** A character a value can start with: no white space, no closing bracket. *)
Definition opens (c : ascii) : bool :=
  negb (json_ws c || Ascii.eqb c "]" || Ascii.eqb c "}").

(** Every stored items text is JSON: the table can be listed. *)
Definition listable (st : store) : Prop :=
  forall r, In r (orders st) -> exists v, JSON_parse (items r) = Ok v.

(** The text an optional text field of the payload is stored as. *)
Definition text_or (v : value) (fallback : string) : string :=
  match or_else v (VStr fallback) with
  | VStr s => s
  | _ => fallback
  end.

(** Requests whose create payloads are valid and made of values that JSON
    writes in full. *)
Definition well_formed_call (c : call) : Prop :=
  match c with
  | Post req_body =>
      valid_payload req_body = true /\
      json_shaped (parsed_items (field "items" req_body)) = true
  | _ => True
  end.

(** Year, month and day as one number, [yyyymmdd]. *)
Definition date_number (days : Z) : Z :=
  let '(y, m, d) := civil_from_days days in y * 10000 + m * 100 + d.

(** The last clock reading of the year 9999. *)
Definition last_four_digit_year : Z := 253402300799999.

(** A number below [10^4] and one below [10^2] as fixed-width numerals. *)
Definition four_digits (n : Z) : string :=
  text [digit_char (n / 1000); digit_char (n / 100 mod 10); digit_char (n / 10 mod 10);
        digit_char (n mod 10)].

Definition two_digits (n : Z) : string :=
  text [digit_char (n / 10); digit_char (n mod 10)].

(** The [yyyymmdd] number of the day [doe] of the era that starts on
    0000-03-01, or [-1] when month or day are out of range. *)
Definition era_key (doe : Z) : Z :=
  let '(y, m, d) := civil_from_days (doe - 719468) in
  if (0 <=? y) && (1 <=? m) && (m <=? 12) && (1 <=? d) && (d <=? 31)
  then y * 10000 + m * 100 + d
  else -1.

(** The keys of the [n] days from [doe] on go up from above [prev], and end
    on the last of February of the year 400 at the latest. *)
Fixpoint ascending (n : nat) (doe prev : Z) : bool :=
  match n with
  | O => prev <=? 4000229
  | S k => let key := era_key doe in (prev <? key) && ascending k (doe + 1) key
  end.

(** Date and time of day as one number, [yyyymmddhhmmss]. *)
Definition stamp_number (ms : Z) : Z :=
  let s := ms mod 86400000 / 1000 in
  date_number (ms / 86400000) * 1000000 + s / 3600 * 10000 + s / 60 mod 60 * 100 + s mod 60.

Definition stamp (y m d h mi s : Z) : string :=
  four_digits y ++ String "-" (two_digits m ++ String "-" (two_digits d ++ String " "
    (two_digits h ++ String ":" (two_digits mi ++ String ":" (two_digits s ++ ""))))).

(** Three requests in a row: the example order, a status update of the
    first row, the example order again. *)
Definition sample_calls : list call :=
  [Post alice; Patch "1" (VObj [("status", VStr "preparing")]); Post alice].

(** The sample server with PrintNode selected but no API key. *)
Definition keyless_env : environment :=
  {| PRINT_METHOD := Some "printnode";
     PRINTNODE_API_KEY := None;
     PRINTER_IDS := PRINTER_IDS (sample_env None);
     PRINT_WEBHOOKS := None;
     clock := clock (sample_env None);
     toLocaleTimeString := time_text;
     network := network (sample_env None);
     sqlite := sample_conversions |}.

(** [a] was created in the same second as [b] or a later one, [t] giving
    the clock reading of each row's insert. *)
Definition created_no_earlier (t : row -> Z) (a b : row) : Prop :=
  t b / 1000 <= t a / 1000.

(** A status update as it acts on one row. *)
Definition with_status (cv : conversions) (s k : sqlval) (r : row) : row :=
  if id_equals cv (row_id r) k
  then {| row_id := row_id r; business_id := business_id r;
          order_number := order_number r; customer_name := customer_name r;
          customer_phone := customer_phone r; items := items r;
          special_instructions := special_instructions r; total := total r;
          status := text_column cv s; created_at := created_at r |}
  else r.

(** Two listed orders that differ in [status] at most. *)
Definition same_listed_order (o o' : value) : Prop :=
  forall k, k <> "status" -> field k o' = field k o.

(** The clock reading at which the sample server inserted a row: three
    readings per request, the insert taking the second. *)
Definition insert_time (r : row) : Z :=
  clock (sample_env None) (Z.to_nat (3 * row_id r - 2)).

(** The ticket of the order a create request returns in the world [w]: the
    order number is that of the response, the time of day is read from the
    clock after the insert and the [createdAt] of the response. *)
Definition ticket_of_request (env : environment) (w : world) (req_body : value)
  : result string :=
  ticket (created_order env w req_body) (generate_orderNumber (clock env (ticks w)))
    (toLocaleTimeString env (clock env (S (S (S (ticks w)))))).

(** The business a create request is for. *)
Definition business_of (req_body : value) : value :=
  or_else (field "businessId" req_body) (VStr "default").

(** * Checks of the runtime model on known values *)

Example number_strings :
  map Number_toString
    [2; 15.5; 0.1; 100; 0.000001; 0.0000001; 1e21; 123456789012345680000;
     5e-324; 1.7976931348623157e308; -7.25; 0.30000000000000004; 9007199254740992]%float
  = ["2"; "15.5"; "0.1"; "100"; "0.000001"; "1e-7"; "1e+21"; "123456789012345680000";
     "5e-324"; "1.7976931348623157e+308"; "-7.25"; "0.30000000000000004"; "9007199254740992"].
Proof. vm_compute. reflexivity. Qed.

Example fixed_strings :
  map toFixed2 [7.5; 15.5; 0; 1.005; 8.345; 0.005; -0.001; 1234.5678; 1e21; 2.5; 0.125]%float
  = ["7.50"; "15.50"; "0.00"; "1.00"; "8.35"; "0.01"; "-0.00"; "1234.57"; "1e+21"; "2.50"; "0.13"].
Proof. vm_compute. reflexivity. Qed.

Example string_numbers :
  map (fun s => Number_toString (StringToNumber s))
    ["5"; "  12.50 "; ""; "0x1F"; "-3e2"; ".5"; "5."; "1e"; "abc"; "Infinity"; "1 2"; "+7"; "0b101"]
  = ["5"; "12.5"; "0"; "31"; "-300"; "0.5"; "5"; "NaN"; "NaN"; "Infinity"; "NaN"; "7"; "5"].
Proof. vm_compute. reflexivity. Qed.

Example parse_samples :
  map JSON_parse ["5"; "2 burgers"; " [1.5, true,null] "; "{}"; "[1,]"; "01"; ""]
  = [Ok (VNum 5); Throw (not_valid_json "2 burgers");
     Ok (VArr [VNum 1.5; VBool true; VNull]); Ok (VObj []);
     Throw (not_valid_json "[1,]"); Throw (not_valid_json "01"); Throw (not_valid_json "")]%float.
Proof. vm_compute. reflexivity. Qed.

Example parse_object :
  JSON_parse ("{" ++ quoted "b" ++ ":1," ++ quoted "7" ++ ":[]," ++ quoted "b" ++ ":" ++ quoted "x\ny" ++ "}")
  = Ok (VObj [("7", VArr []); ("b", VStr (text ["x"%char; char_of_code 10; "y"%char]))]).
Proof. vm_compute. reflexivity. Qed.

Example stringify_sample :
  JSON_stringify (VArr [VObj [("name", VStr "Burger"); ("quantity", VNum 2); ("note", VUndefined)];
                        VUndefined; VNum 0.5])
  = Some ("[{" ++ quoted "name" ++ ":" ++ quoted "Burger" ++ "," ++ quoted "quantity" ++ ":2},null,0.5]").
Proof. vm_compute. reflexivity. Qed.

Example iso_samples :
  map toISOString [0; 1700000000123; 951782400000; -1; 1709251199999]
  = ["1970-01-01T00:00:00.000Z"; "2023-11-14T22:13:20.123Z"; "2000-02-29T00:00:00.000Z";
     "1969-12-31T23:59:59.999Z"; "2024-02-29T23:59:59.999Z"].
Proof. vm_compute. reflexivity. Qed.

Example base64_samples :
  map base64 [""; "f"; "fo"; "foo"; "key:"; "Hello, World!"]
  = [""; "Zg=="; "Zm8="; "Zm9v"; "a2V5Og=="; "SGVsbG8sIFdvcmxkIQ=="].
Proof. vm_compute. reflexivity. Qed.

Example parseInt_samples :
  map (fun s => result_bind (parseInt (VStr s)) (fun x => Ok (Number_toString x)))
    ["42"; " 0x1f"; "12abc"; "abc"; "-7.9"; ""]
  = [Ok "42"; Ok "31"; Ok "12"; Ok "NaN"; Ok "-7"; Ok "NaN"].
Proof. vm_compute. reflexivity. Qed.

(** * Lemmas *)

(** ** Text and digits *)

Lemma chars_text (l : list ascii) : chars (text l) = l.
Proof. apply list_ascii_of_string_of_list_ascii. Qed.

Lemma text_chars (s : string) : text (chars s) = s.
Proof. apply string_of_list_ascii_of_string. Qed.

Lemma length_text (l : list ascii) : String.length (text l) = List.length l.
Proof. induction l as [| c l IH]; simpl; congruence. Qed.

Lemma skipn_rev_firstn {A} (k : nat) (l : list A) :
  (k <= List.length l)%nat ->
  skipn (List.length (rev l) - k) (rev l) = rev (firstn k l).
Proof.
  intros Hk. rewrite length_rev.
  rewrite <- (firstn_skipn k l) at 2.
  rewrite rev_app_distr, skipn_app.
  assert (Hlen : List.length (rev (skipn k l)) = (List.length l - k)%nat)
    by (rewrite length_rev, length_skipn; reflexivity).
  rewrite Hlen, Nat.sub_diag. simpl.
  rewrite <- Hlen, skipn_all. reflexivity.
Qed.

(** A number of six digits or more starts (from the right) with its last
    six digits. *)
Lemma digits_lsf_six (fuel : nat) (t : Z) :
  100000 <= t ->
  exists more, digits_lsf (6 + fuel) t = (rev (last_six t) ++ more)%list.
Proof.
  intros Ht. unfold last_six. cbn [map rev app].
  cbn [digits_lsf Nat.add].
  assert (H1 : (t <? 10) = false) by (apply Z.ltb_ge; lia).
  assert (H2 : (t / 10 <? 10) = false)
    by (apply Z.ltb_ge; apply Z.div_le_lower_bound; lia).
  assert (H3 : (t / 10 / 10 <? 10) = false)
    by (apply Z.ltb_ge; rewrite Z.div_div by lia; apply Z.div_le_lower_bound; lia).
  assert (H4 : (t / 10 / 10 / 10 <? 10) = false)
    by (apply Z.ltb_ge; rewrite !Z.div_div by lia; apply Z.div_le_lower_bound; lia).
  assert (H5 : (t / 10 / 10 / 10 / 10 <? 10) = false)
    by (apply Z.ltb_ge; rewrite !Z.div_div by lia; apply Z.div_le_lower_bound; lia).
  rewrite H1, H2, H3, H4, H5.
  rewrite !Z.div_div by lia.
  change (10 ^ 0) with 1. change (10 ^ 1) with 10. change (10 ^ 2) with 100.
  change (10 ^ 3) with 1000. change (10 ^ 4) with 10000. change (10 ^ 5) with 100000.
  change (10 * 10) with 100. change (100 * 10) with 1000. change (1000 * 10) with 10000.
  change (10000 * 10) with 100000.
  rewrite Z.div_1_r.
  destruct (t / 100000 <? 10) eqn:H6.
  - exists []. rewrite (Z.mod_small (t / 100000) 10).
    + reflexivity.
    + apply Z.ltb_lt in H6. split; [apply Z.div_pos; lia | exact H6].
  - eexists. reflexivity.
Qed.

Lemma digit_fuel_six (t : Z) : 100000 <= t -> exists k, digit_fuel t = (6 + k)%nat.
Proof.
  intros Ht. unfold digit_fuel.
  assert (16 <= Z.log2 t) by (apply Z.log2_le_pow2; lia).
  exists (Z.to_nat (Z.log2 t) - 5)%nat. lia.
Qed.

Lemma generate_orderNumber_six (t : Z) :
  100000 <= t -> generate_orderNumber t = "#" ++ six_digits t.
Proof.
  intros Ht. unfold generate_orderNumber, six_digits, decimal_Z.
  replace (t <? 0) with false by (symmetry; apply Z.ltb_ge; lia).
  f_equal. unfold slice_last, decimal, digits_of.
  rewrite chars_text.
  destruct (digit_fuel_six t Ht) as [k ->].
  destruct (digits_lsf_six k t Ht) as [more ->].
  rewrite map_rev.
  rewrite (skipn_rev_firstn 6).
  - rewrite map_app, firstn_app, length_map.
    replace (firstn 6 (map digit_char (rev (last_six t))))
      with (map digit_char (rev (last_six t))) by reflexivity.
    replace (6 - List.length (rev (last_six t)))%nat with 0%nat by reflexivity.
    rewrite firstn_O, app_nil_r, <- map_rev, rev_involutive. reflexivity.
  - rewrite length_map, length_app. cbn. lia.
Qed.

(** ** The monad *)

Lemma bind_ok {A B} (m : M A) (k : A -> M B) (w w' : world) (b : B) :
  bind m k w = (Ok b, w') ->
  exists a w1, m w = (Ok a, w1) /\ k a w1 = (Ok b, w').
Proof.
  unfold bind. destruct (m w) as [[a | e] w1]; intros H.
  - exists a, w1. split; [reflexivity | exact H].
  - discriminate H.
Qed.

Lemma bind_throw {A B} (m : M A) (k : A -> M B) (w w' : world) (e : exn) :
  bind m k w = (Throw e, w') ->
  m w = (Throw e, w') \/ exists a w1, m w = (Ok a, w1) /\ k a w1 = (Throw e, w').
Proof.
  unfold bind. destruct (m w) as [[a | e0] w1]; intros H.
  - right. exists a, w1. split; [reflexivity | exact H].
  - left. inversion H. reflexivity.
Qed.

Lemma lift_ok {A} (r : result A) (w w' : world) (a : A) :
  lift r w = (Ok a, w') -> r = Ok a /\ w' = w.
Proof. unfold lift. intros H. inversion H. split; reflexivity. Qed.

Lemma lift_throw {A} (r : result A) (w w' : world) (e : exn) :
  lift r w = (Throw e, w') -> r = Throw e /\ w' = w.
Proof. unfold lift. intros H. inversion H. split; reflexivity. Qed.

(** ** Traces *)

Lemma no_fetch_refl (w : world) : no_fetch_between w w.
Proof. exists []. split; reflexivity. Qed.

Lemma no_fetch_trans (w1 w2 w3 : world) :
  no_fetch_between w1 w2 -> no_fetch_between w2 w3 -> no_fetch_between w1 w3.
Proof.
  intros (a & Ha & Fa) (b & Hb & Fb).
  exists (b ++ a)%list. split.
  - rewrite Hb, Ha, app_assoc. reflexivity.
  - rewrite forallb_app, Fa, Fb. reflexivity.
Qed.

Lemma no_fetch_same_trace (w w' : world) : trace w' = trace w -> no_fetch_between w w'.
Proof. intros H. exists []. split; [exact H | reflexivity]. Qed.

Lemma no_fetch_console (e : event) (w : world) :
  is_fetch e = false -> no_fetch_between w (logged_world e w).
Proof. intros H. exists [e]. split; [reflexivity | simpl; rewrite H; reflexivity]. Qed.

(** ** Parsing the items *)

Lemma parse_items_spec (items : value) (w : world) :
  exists w', parse_items items w = (Ok (parsed_items items), w')
             /\ database w' = database w /\ ticks w' = ticks w
             /\ no_fetch_between w w'.
Proof.
  destruct items;
    try (exists w; repeat split; try reflexivity; apply no_fetch_refl).
  unfold parse_items, parsed_items, try_catch, lift.
  destruct (JSON_parse s) as [v | e].
  - exists w; repeat split; try reflexivity. apply no_fetch_refl.
  - eexists. split; [reflexivity |]. repeat split.
    apply (no_fetch_console (Console_error _ _)). reflexivity.
Qed.

(** ** What leaves the database alone *)

Lemma frames_ret {A} (a : A) : frames (ret a).
Proof. intros w r w' H. inversion H. reflexivity. Qed.

Lemma frames_throw {A} (e : exn) : frames (@throw A e).
Proof. intros w r w' H. inversion H. reflexivity. Qed.

Lemma frames_lift {A} (x : result A) : frames (lift x).
Proof. intros w r w' H. inversion H. reflexivity. Qed.

Lemma frames_emit (e : event) : frames (emit e).
Proof. intros w r w' H. inversion H. reflexivity. Qed.

Lemma frames_bind {A B} (m : M A) (k : A -> M B) :
  frames m -> (forall a, frames (k a)) -> frames (bind m k).
Proof.
  intros Hm Hk w r w'. unfold bind.
  destruct (m w) as [[a | e] w1] eqn:E; intros H.
  - rewrite (Hk a _ _ _ H). exact (Hm _ _ _ E).
  - inversion H; subst. exact (Hm _ _ _ E).
Qed.

Lemma frames_try_catch {A} (m : M A) (h : exn -> M A) :
  frames m -> (forall e, frames (h e)) -> frames (try_catch m h).
Proof.
  intros Hm Hh w r w'. unfold try_catch.
  destruct (m w) as [[a | e] w1] eqn:E; intros H.
  - inversion H; subst. exact (Hm _ _ _ E).
  - rewrite (Hh e _ _ _ H). exact (Hm _ _ _ E).
Qed.

Lemma frames_now (env : environment) : frames (now env).
Proof. intros w r w' H. inversion H. reflexivity. Qed.

Create HintDb frame.
#[local] Hint Resolve frames_ret frames_throw frames_lift frames_emit frames_now : frame.
#[local] Hint Extern 1 (frames (bind _ _)) => apply frames_bind; [| intro] : frame.
#[local] Hint Extern 1 (frames (try_catch _ _)) => apply frames_try_catch; [| intro] : frame.
#[local] Hint Extern 1 (frames (console_log _ _)) => apply frames_emit : frame.
#[local] Hint Extern 1 (frames (console_error _ _)) => apply frames_emit : frame.
#[local] Hint Extern 2 (frames (if ?b then _ else _)) => destruct b : frame.
#[local] Hint Extern 2 (frames (match ?x with Rejected _ => _ | Resolved _ _ => _ end)) =>
  destruct x : frame.

Lemma frames_fetch (env : environment) (url : value) (init : request) :
  frames (fetch env url init).
Proof. unfold fetch. auto with frame. Qed.
#[local] Hint Resolve frames_fetch : frame.

Lemma frames_formatKitchenTicket (env : environment) (order : value) :
  frames (formatKitchenTicket env order).
Proof. unfold formatKitchenTicket. auto with frame. Qed.
#[local] Hint Resolve frames_formatKitchenTicket : frame.

Lemma frames_printViaPrintNode (env : environment) (businessId : value) (content : string) :
  frames (printViaPrintNode env businessId content).
Proof. unfold printViaPrintNode. auto 20 with frame. Qed.

Lemma frames_printViaWebhook (env : environment) (businessId : value) (content : string) :
  frames (printViaWebhook env businessId content).
Proof. unfold printViaWebhook. auto 20 with frame. Qed.

Lemma frames_printViaCloudPRNT (businessId : value) (content : string) :
  frames (printViaCloudPRNT businessId content).
Proof. unfold printViaCloudPRNT. auto with frame. Qed.
#[local] Hint Resolve frames_printViaPrintNode frames_printViaWebhook
  frames_printViaCloudPRNT : frame.

(** Printing never touches the table. *)
Lemma frames_printOrder (env : environment) (businessId order : value) :
  frames (printOrder env businessId order).
Proof. unfold printOrder. auto 20 with frame. Qed.

(** ** The insert *)

Lemma insert_row_ok (cv : conversions) (t : Z) (vs : list sqlval) (st : store)
      (key : Z) (st' : store) :
  insert_row cv t vs st = Ok (key, st') ->
  key = next_id st /\ sequence st' = key /\
  exists r, orders st' = (orders st ++ [r])%list /\ row_id r = key /\
            status r = Some "new" /\ created_at r = CURRENT_TIMESTAMP t.
Proof.
  unfold insert_row.
  destruct vs as [| b [| n [| c [| p [| i [| s [| x [| ? ?]]]]]]]]; try discriminate.
  destruct (not_null "business_id" (text_column cv b)); try discriminate.
  destruct (not_null "order_number" (text_column cv n)); try discriminate.
  destruct (not_null "items" (text_column cv i)); try discriminate.
  simpl. intros H. inversion H; subst; clear H.
  repeat split. eexists. repeat split.
Qed.

Lemma insert_run_ok (env : environment) (args : list value) (w w' : world) (key : Z) :
  insert_run env args w = (Ok key, w') ->
  exists vs st,
    bind_statement 7 args = Ok vs /\
    insert_row (sqlite env) (clock env (ticks w)) vs (database w) = Ok (key, st) /\
    w' = {| database := st; trace := trace w; ticks := S (ticks w) |}.
Proof.
  unfold insert_run. intros H.
  apply bind_ok in H as (vs & w0 & Hvs & H). apply lift_ok in Hvs as [Hvs ->].
  apply bind_ok in H as (t & w1 & Ht & H). inversion Ht; subst t w1; clear Ht.
  cbn in H.
  destruct (insert_row (sqlite env) (clock env (ticks w)) vs (database w))
    as [[k st] | e] eqn:E; inversion H; subst.
  exists vs, st. repeat split; assumption.
Qed.

Lemma insert_run_throw (env : environment) (args : list value) (w w' : world) (e : exn) :
  insert_run env args w = (Throw e, w') ->
  database w' = database w /\ trace w' = trace w.
Proof.
  unfold insert_run. intros H.
  apply bind_throw in H as [H | (vs & w0 & Hvs & H)].
  - apply lift_throw in H as [_ ->]. split; reflexivity.
  - apply lift_ok in Hvs as [_ ->].
    apply bind_throw in H as [H | (t & w1 & Ht & H)]; [discriminate H |].
    inversion Ht; subst t w1; clear Ht. cbn in H.
    destruct (insert_row (sqlite env) (clock env (ticks w)) vs (database w))
      as [[k st] | e'] eqn:E; inversion H; subst.
    split; reflexivity.
Qed.

(** ** printOrder *)

Lemma printOrder_unset (env : environment) (businessId order : value) (w : world) :
  env_unset (PRINT_METHOD env) = true ->
  printOrder env businessId order w
  = (Ok tt, logged_world (Console_log "No print method configured" Nothing) w).
Proof. intros H. unfold printOrder. rewrite H. reflexivity. Qed.

(** Once the ticket is formatted nothing more can be thrown: what the
    channel throws is caught and logged. *)
Lemma printOrder_formatted (env : environment) (businessId order : value)
      (w w1 : world) (t : string) :
  env_unset (PRINT_METHOD env) = false ->
  formatKitchenTicket env order w = (Ok t, w1) ->
  exists w2, printOrder env businessId order w = (Ok tt, w2).
Proof.
  intros Hset Hfmt. unfold printOrder. rewrite Hset.
  unfold bind at 1. rewrite Hfmt. unfold try_catch.
  match goal with
  | |- context [match ?m w1 with _ => _ end] => destruct (m w1) as [[[] | e] w2]
  end.
  - exists w2. reflexivity.
  - eexists. reflexivity.
Qed.

(** What [printOrder] throws, the formatter threw. *)
Lemma printOrder_throw (env : environment) (businessId order : value)
      (w w' : world) (e : exn) :
  printOrder env businessId order w = (Throw e, w') ->
  env_unset (PRINT_METHOD env) = false /\ formatKitchenTicket env order w = (Throw e, w').
Proof.
  unfold printOrder. destruct (env_unset (PRINT_METHOD env)); [discriminate |].
  intros H. split; [reflexivity |].
  apply bind_throw in H as [H | (t & w1 & Ht & H)]; [exact H |].
  unfold try_catch in H.
  match type of H with
  | context [match ?m w1 with _ => _ end] => destruct (m w1) as [[[] | e'] w2]
  end; discriminate H.
Qed.

(** ** POST /api/orders, step by step *)

Lemma post_orders_total (env : environment) (req_body : value) (w : world) :
  exists r w', post_orders env req_body w = (Ok r, w').
Proof.
  unfold post_orders, try_catch.
  destruct (post_orders_try env req_body w) as [[r | e] w0].
  - exists r, w0. reflexivity.
  - eexists _, _. reflexivity.
Qed.

Lemma post_orders_200 (env : environment) (req_body : value) (w w' : world) (r : response) :
  post_orders env req_body w = (Ok r, w') -> http_status r = 200 ->
  post_orders_try env req_body w = (Ok r, w').
Proof.
  unfold post_orders, try_catch.
  destruct (post_orders_try env req_body w) as [[r0 | e] w0]; intros H Hs.
  - exact H.
  - inversion H; subst. discriminate Hs.
Qed.

(** A successful run of the [try] block, taken apart. *)
Lemma post_orders_try_ok (env : environment) (req_body : value) (w w' : world) (r : response) :
  post_orders_try env req_body w = (Ok r, w') ->
  exists b c p i s t w1 key w2,
    get req_body "businessId" = Ok b /\ get req_body "customerName" = Ok c /\
    get req_body "customerPhone" = Ok p /\ get req_body "items" = Ok i /\
    get req_body "specialInstructions" = Ok s /\ get req_body "total" = Ok t /\
    parse_items i (logged_world (Console_log "Received order:" (A_value req_body)) w)
      = (Ok (parsed_items i), w1) /\
    insert_run env
      (insert_arguments (generate_orderNumber (clock env (ticks w1))) b c p (parsed_items i) s t)
      (ticked w1) = (Ok key, w2) /\
    printOrder env (or_else b (VStr "default"))
      (order_object key (generate_orderNumber (clock env (ticks w1))) b c p (parsed_items i) s t
         (clock env (ticks w2)))
      (ticked w2) = (Ok tt, w') /\
    r = created (order_object key (generate_orderNumber (clock env (ticks w1))) b c p
                   (parsed_items i) s t (clock env (ticks w2))).
Proof.
  unfold post_orders_try. intros H.
  apply bind_ok in H as (b & w0 & Hb & H). apply lift_ok in Hb as [Hb ->].
  apply bind_ok in H as (c & w0 & Hc & H). apply lift_ok in Hc as [Hc ->].
  apply bind_ok in H as (p & w0 & Hp & H). apply lift_ok in Hp as [Hp ->].
  apply bind_ok in H as (i & w0 & Hi & H). apply lift_ok in Hi as [Hi ->].
  apply bind_ok in H as (s & w0 & Hs & H). apply lift_ok in Hs as [Hs ->].
  apply bind_ok in H as (t & w0 & Ht & H). apply lift_ok in Ht as [Ht ->].
  apply bind_ok in H as ([] & w0 & Hlog & H).
  inversion Hlog; subst w0; clear Hlog.
  apply bind_ok in H as (parsed & w1 & Hparse & H).
  destruct (parse_items_spec i (logged_world (Console_log "Received order:" (A_value req_body)) w))
    as (w1' & Hspec & _).
  unfold logged_world in Hspec. rewrite Hspec in Hparse.
  inversion Hparse; subst parsed w1'; clear Hparse.
  apply bind_ok in H as (now1 & w1t & Hnow & H).
  inversion Hnow; subst now1 w1t; clear Hnow.
  apply bind_ok in H as (key & w2 & Hins & H).
  apply bind_ok in H as (now2 & w2t & Hnow & H).
  inversion Hnow; subst now2 w2t; clear Hnow.
  apply bind_ok in H as ([] & w3 & Hprint & H).
  inversion H; subst; clear H.
  exists b, c, p, i, s, t, w1, key, w2.
  repeat split; assumption.
Qed.

(** A failed run of the [try] block: either nothing was stored and nothing
    sent, or the insert had succeeded and [printOrder] threw. *)
Lemma post_orders_try_throw (env : environment) (req_body : value) (w w' : world) (e : exn) :
  post_orders_try env req_body w = (Throw e, w') ->
  (database w' = database w /\ no_fetch_between w w')
  \/ exists b order args key w1 w2,
       insert_run env args w1 = (Ok key, w2) /\
       orders (database w1) = orders (database w) /\
       printOrder env b order (ticked w2) = (Throw e, w').
Proof.
  unfold post_orders_try. intros H.
  apply bind_throw in H as [H | (b & w0 & Hb & H)];
    [apply lift_throw in H as [_ ->]; left; split; [reflexivity | apply no_fetch_refl] |].
  apply lift_ok in Hb as [Hb ->].
  apply bind_throw in H as [H | (c & w0 & Hc & H)];
    [apply lift_throw in H as [_ ->]; left; split; [reflexivity | apply no_fetch_refl] |].
  apply lift_ok in Hc as [Hc ->].
  apply bind_throw in H as [H | (p & w0 & Hp & H)];
    [apply lift_throw in H as [_ ->]; left; split; [reflexivity | apply no_fetch_refl] |].
  apply lift_ok in Hp as [Hp ->].
  apply bind_throw in H as [H | (i & w0 & Hi & H)];
    [apply lift_throw in H as [_ ->]; left; split; [reflexivity | apply no_fetch_refl] |].
  apply lift_ok in Hi as [Hi ->].
  apply bind_throw in H as [H | (s & w0 & Hs & H)];
    [apply lift_throw in H as [_ ->]; left; split; [reflexivity | apply no_fetch_refl] |].
  apply lift_ok in Hs as [Hs ->].
  apply bind_throw in H as [H | (t & w0 & Ht & H)];
    [apply lift_throw in H as [_ ->]; left; split; [reflexivity | apply no_fetch_refl] |].
  apply lift_ok in Ht as [Ht ->].
  apply bind_throw in H as [H | ([] & w0 & Hlog & H)]; [discriminate H |].
  inversion Hlog; subst w0; clear Hlog.
  destruct (parse_items_spec i (logged_world (Console_log "Received order:" (A_value req_body)) w))
    as (w1 & Hspec & Hdb & Hticks & Hquiet).
  unfold logged_world in Hspec.
  apply bind_throw in H as [H | (parsed & w1' & Hparse & H)];
    [rewrite Hspec in H; discriminate H |].
  rewrite Hspec in Hparse. inversion Hparse; subst parsed w1'; clear Hparse.
  assert (Hquiet1 : no_fetch_between w w1).
  { eapply no_fetch_trans; [| exact Hquiet].
    apply (no_fetch_console (Console_log _ _)). reflexivity. }
  apply bind_throw in H as [H | (now1 & w1t & Hnow & H)]; [discriminate H |].
  inversion Hnow; subst now1 w1t; clear Hnow.
  apply bind_throw in H as [H | (key & w2 & Hins & H)].
  - apply insert_run_throw in H as [Hd Ht']. left. split.
    + rewrite Hd. exact Hdb.
    + eapply no_fetch_trans; [exact Hquiet1 |]. apply no_fetch_same_trace. exact Ht'.
  - apply bind_throw in H as [H | (now2 & w2t & Hnow & H)]; [discriminate H |].
    inversion Hnow; subst now2 w2t; clear Hnow.
    apply bind_throw in H as [H | ([] & w3 & Hprint & H)]; [| discriminate H].
    right. eexists _, _, _, key, _, w2. split; [exact Hins |]. split; [| exact H].
    simpl. rewrite Hdb. reflexivity.
Qed.

(** ** Valid payloads *)

Lemma get_object (fields : list (string * value)) (k : string) :
  get (VObj fields) k = Ok (field k (VObj fields)).
Proof. unfold field. simpl. destruct (lookup k fields); reflexivity. Qed.

Lemma or_else_text (v : value) (d : string) :
  optional_text v = true -> exists s, or_else v (VStr d) = VStr s.
Proof.
  destruct v; try discriminate; intros _; unfold or_else; simpl.
  - exists d. reflexivity.
  - exists d. reflexivity.
  - destruct (s =? "")%string; simpl; eexists; reflexivity.
Qed.

Lemma or_else_number (v : value) :
  optional_number v = true -> exists x, or_else v (VNum 0) = VNum x.
Proof.
  destruct v; try discriminate; intros _; unfold or_else; simpl.
  - eexists. reflexivity.
  - eexists. reflexivity.
  - destruct (negb (PrimFloat.eqb x 0 || is_nan x)); eexists; reflexivity.
Qed.

Lemma fallback_item_well_formed (s : string) : well_formed_items (fallback_item s) = true.
Proof. reflexivity. Qed.

Lemma valid_items_parsed (i : value) :
  valid_items i = true -> well_formed_items (parsed_items i) = true.
Proof.
  destruct i; try discriminate; simpl.
  - destruct (JSON_parse s); intros H; [exact H | apply fallback_item_well_formed].
  - intros H. exact H.
Qed.

Lemma result_map_ok {A B} (f : A -> result B) (l : list A) :
  (forall a, In a l -> exists b, f a = Ok b) ->
  exists bs, result_map f l = Ok bs.
Proof.
  induction l as [| a l IH]; intros H.
  - exists []. reflexivity.
  - destruct (H a (or_introl eq_refl)) as [b Hb].
    destruct IH as [bs Hbs]; [intros x Hx; apply H; right; exact Hx |].
    exists (b :: bs). simpl. rewrite Hb. simpl. rewrite Hbs. reflexivity.
Qed.

(** A line item always prints. *)
Lemma item_lines_ok (item : value) :
  is_line_item item = true -> exists ls, item_lines item = Ok ls.
Proof.
  destruct item as [| | | | | | fields]; try discriminate.
  unfold is_line_item, item_lines. simpl get.
  destruct (lookup "name" fields) as [[| | | | name | |] |]; try discriminate;
    try (destruct (lookup "quantity" fields) as [[| | | q | | |] |]; discriminate).
  destruct (lookup "quantity" fields) as [[| | | q | | |] |]; try discriminate.
  destruct (lookup "modifications" fields) as [[| | | | | mods |] |]; try discriminate.
  intros H. apply andb_true_iff in H as [_ Hmods].
  cbn [result_bind ToString truthy get String.eqb Ascii.eqb Bool.eqb].
  unfold greater_than_zero. cbn [ToNumber result_bind].
  destruct (PrimFloat.ltb 0 (float_of_Z (Z.of_nat (List.length mods)))).
  - unfold forEach.
    destruct (result_map_ok
                (fun mod_ => result_bind (ToString mod_) (fun m => Ok ["   - " ++ m])) mods)
      as [bs Hbs].
    + intros a Ha. rewrite forallb_forall in Hmods. specialize (Hmods a Ha).
      destruct a; try discriminate. eexists. reflexivity.
    + rewrite Hbs. eexists. reflexivity.
  - eexists. reflexivity.
Qed.

(** The ticket of an order whose fields have the types of the data model
    is always produced. *)
Lemma ticket_ok (order : value) (orderNumber time : string) (c p s : string)
      (l : list value) (x : number) :
  get order "customerName" = Ok (VStr c) ->
  get order "customerPhone" = Ok (VStr p) ->
  get order "items" = Ok (VArr l) -> forallb is_line_item l = true ->
  get order "specialInstructions" = Ok (VStr s) ->
  get order "total" = Ok (VNum x) ->
  exists t, ticket order orderNumber time = Ok t.
Proof.
  intros Hc Hp Hi Hl Hs Hx. unfold ticket.
  rewrite Hc, Hp, Hi, Hs, Hx. cbn [result_bind ToString].
  destruct (result_map_ok item_lines l) as [blocks Hblocks].
  { intros a Ha. apply item_lines_ok. rewrite forallb_forall in Hl. exact (Hl a Ha). }
  unfold forEach. rewrite Hblocks.
  destruct (truthy (VStr p)), (truthy (VStr s)); cbn [result_bind ToString total_toFixed];
    eexists; reflexivity.
Qed.

Lemma insert_run_run (env : environment) (args : list value) (w : world)
      (vs : list sqlval) (key : Z) (st : store) :
  bind_statement 7 args = Ok vs ->
  insert_row (sqlite env) (clock env (ticks w)) vs (database w) = Ok (key, st) ->
  insert_run env args w
  = (Ok key, {| database := st; trace := trace w; ticks := S (ticks w) |}).
Proof.
  intros Hvs Hrow. unfold insert_run, bind, lift, now. rewrite Hvs. cbn.
  rewrite Hrow. reflexivity.
Qed.

Lemma post_orders_try_run (env : environment) (req_body : value) (w w1 w2 w3 : world)
      (b c p i s t : value) (key : Z) :
  get req_body "businessId" = Ok b -> get req_body "customerName" = Ok c ->
  get req_body "customerPhone" = Ok p -> get req_body "items" = Ok i ->
  get req_body "specialInstructions" = Ok s -> get req_body "total" = Ok t ->
  parse_items i (logged_world (Console_log "Received order:" (A_value req_body)) w)
    = (Ok (parsed_items i), w1) ->
  insert_run env
    (insert_arguments (generate_orderNumber (clock env (ticks w1))) b c p (parsed_items i) s t)
    (ticked w1) = (Ok key, w2) ->
  printOrder env (or_else b (VStr "default"))
    (order_object key (generate_orderNumber (clock env (ticks w1))) b c p (parsed_items i) s t
       (clock env (ticks w2)))
    (ticked w2) = (Ok tt, w3) ->
  post_orders_try env req_body w
  = (Ok (created (order_object key (generate_orderNumber (clock env (ticks w1))) b c p
                    (parsed_items i) s t (clock env (ticks w2)))), w3).
Proof.
  intros Hb Hc Hp Hi Hs Ht Hparse Hins Hprint.
  unfold post_orders_try, bind, lift. rewrite Hb, Hc, Hp, Hi, Hs, Ht.
  unfold console_log, emit. unfold logged_world in Hparse. rewrite Hparse.
  unfold now at 1. unfold insert_arguments, ticked in Hins. rewrite Hins.
  unfold now. unfold order_object, ticked in Hprint. rewrite Hprint.
  reflexivity.
Qed.

Lemma formatKitchenTicket_ok (env : environment) (order : value) (w : world)
      (n c p s : string) (l : list value) (x : number) :
  get order "orderNumber" = Ok (VStr n) ->
  get order "customerName" = Ok (VStr c) ->
  get order "customerPhone" = Ok (VStr p) ->
  get order "items" = Ok (VArr l) -> forallb is_line_item l = true ->
  get order "specialInstructions" = Ok (VStr s) ->
  get order "total" = Ok (VNum x) ->
  exists t, formatKitchenTicket env order w = (Ok t, ticked w).
Proof.
  intros Hn Hc Hp Hi Hl Hs Hx.
  destruct (ticket_ok order n (toLocaleTimeString env (clock env (ticks w))) c p s l x
              Hc Hp Hi Hl Hs Hx) as [t Ht].
  exists t. unfold formatKitchenTicket, bind, lift, now. rewrite Hn. cbn [result_bind ToString].
  rewrite Ht. reflexivity.
Qed.

Lemma stringified_array (l : list value) : exists j, stringified (VArr l) = VStr j.
Proof. unfold stringified. simpl. eexists. reflexivity. Qed.

(** A valid payload is stored and answered with the order built from it. *)
Lemma post_orders_valid (env : environment) (req_body : value) (w : world) :
  valid_payload req_body = true ->
  exists w' r,
    post_orders env req_body w = (Ok (created (created_order env w req_body)), w') /\
    orders (database w') = (orders (database w) ++ [r])%list /\
    row_id r = next_id (database w) /\ status r = Some "new" /\
    well_formed_items (parsed_items (field "items" req_body)) = true.
Proof.
  destruct req_body as [| | | | | | fields]; try discriminate.
  unfold valid_payload. intros H.
  apply andb_true_iff in H as [H Hitems].
  apply andb_true_iff in H as [H Htotal].
  apply andb_true_iff in H as [H Hs].
  apply andb_true_iff in H as [H Hp].
  apply andb_true_iff in H as [Hb Hc].
  set (body := VObj fields) in *.
  pose proof (valid_items_parsed _ Hitems) as Hwf.
  destruct (parse_items_spec (field "items" body)
              (logged_world (Console_log "Received order:" (A_value body)) w))
    as (w1 & Hparse & Hdb1 & Hticks1 & _).
  simpl in Hdb1, Hticks1.
  destruct (or_else_text _ "default" Hb) as [b' Eb].
  destruct (or_else_text _ "Guest" Hc) as [c' Ec].
  destruct (or_else_text _ "" Hp) as [p' Ep].
  destruct (or_else_text _ "" Hs) as [s' Es].
  destruct (or_else_number _ Htotal) as [x Ex].
  destruct (parsed_items (field "items" body)) as [| | | | | l |] eqn:Eparsed;
    try discriminate Hwf.
  simpl in Hwf.
  destruct (stringified_array l) as [j Ej].
  set (orderNumber := generate_orderNumber (clock env (ticks w1))).
  assert (Hins : exists w2 r,
             insert_run env
               (insert_arguments orderNumber (field "businessId" body)
                  (field "customerName" body) (field "customerPhone" body) (VArr l)
                  (field "specialInstructions" body) (field "total" body))
               (ticked w1) = (Ok (next_id (database w)), w2)
             /\ orders (database w2) = (orders (database w) ++ [r])%list
             /\ row_id r = next_id (database w) /\ status r = Some "new"
             /\ ticks w2 = S (S (ticks w))).
  { eexists _, _. split.
    - apply insert_run_run with
        (vs := [SqlText b'; SqlText orderNumber; SqlText c'; SqlText p'; SqlText j;
                SqlText s'; if is_nan x then SqlNull else SqlReal x]).
      + unfold insert_arguments. rewrite Eb, Ec, Ep, Es, Ex, Ej. reflexivity.
      + simpl. rewrite Hdb1. reflexivity.
    - simpl. rewrite ?Hdb1, ?Hticks1. repeat split. }
  destruct Hins as (w2 & r & Hins & Hrows & Hid & Hstatus & Hticks2).
  set (order := order_object (next_id (database w)) orderNumber (field "businessId" body)
                  (field "customerName" body) (field "customerPhone" body) (VArr l)
                  (field "specialInstructions" body) (field "total" body)
                  (clock env (ticks w2))).
  assert (Hprint : exists w3, printOrder env (or_else (field "businessId" body) (VStr "default"))
                                order (ticked w2) = (Ok tt, w3)).
  { destruct (env_unset (PRINT_METHOD env)) eqn:Hunset.
    - eexists. apply printOrder_unset. exact Hunset.
    - destruct (formatKitchenTicket_ok env order (ticked w2) orderNumber c' p' s' l x)
        as [t Ht]; try (unfold order, order_object; simpl; congruence); try exact Hwf.
      eapply printOrder_formatted; [exact Hunset | exact Ht]. }
  destruct Hprint as [w3 Hprint].
  exists w3, r.
  assert (Hdb3 : database w3 = database w2)
    by (apply (frames_printOrder _ _ _ _ _ _ Hprint)).
  split; [| rewrite Hdb3; repeat split; assumption].
  unfold post_orders, try_catch.
  rewrite (post_orders_try_run env body w w1 w2 w3
             (field "businessId" body) (field "customerName" body)
             (field "customerPhone" body) (field "items" body)
             (field "specialInstructions" body) (field "total" body)
             (next_id (database w))); try apply get_object.
  - unfold created_order. rewrite Eparsed, Hticks1, Hticks2. reflexivity.
  - rewrite Eparsed. exact Hparse.
  - rewrite Eparsed. exact Hins.
  - rewrite Eparsed. exact Hprint.
Qed.

(** What a successful POST answers: the order object built from the fields
    of the payload, numbered from the first reading of the clock. *)
Lemma post_orders_created (env : environment) (req_body : value) (w w' : world)
      (r : response) :
  post_orders env req_body w = (Ok r, w') -> http_status r = 200 ->
  exists key b c p i s t created_at_ms,
    get req_body "items" = Ok i /\
    r = created (order_object key (generate_orderNumber (clock env (ticks w)))
                   b c p (parsed_items i) s t created_at_ms).
Proof.
  intros H Hs. apply post_orders_200 in H; [| exact Hs].
  apply post_orders_try_ok in H
    as (b & c & p & i & s & t & w1 & key & w2 & _ & _ & _ & Hi & _ & _ & Hparse & _ & _ & Hr).
  destruct (parse_items_spec i (logged_world (Console_log "Received order:" (A_value req_body)) w))
    as (w1' & Hspec & _ & Hticks & _).
  rewrite Hspec in Hparse. inversion Hparse; subst w1'. simpl in Hticks.
  rewrite Hticks in Hr.
  exists key, b, c, p, i, s, t, (clock env (ticks w2)). split; assumption.
Qed.

(** ** Ordering by [created_at] *)

Lemma string_compare_le_trans (a b c : string) :
  String.compare a b <> Gt -> String.compare b c <> Gt -> String.compare a c <> Gt.
Proof.
  revert b c. induction a as [| x a IH]; intros [| y b] [| z c]; simpl;
    try congruence.
  unfold Ascii.compare.
  destruct (N.compare_spec (N_of_ascii x) (N_of_ascii y)) as [Exy | Lxy | Gxy];
    destruct (N.compare_spec (N_of_ascii y) (N_of_ascii z)) as [Eyz | Lyz | Gyz];
    destruct (N.compare_spec (N_of_ascii x) (N_of_ascii z)) as [Exz | Lxz | Gxz];
    try congruence; try lia.
  apply IH.
Qed.

Lemma string_leb_trans (a b c : string) :
  (a <=? b)%string = true -> (b <=? c)%string = true -> (a <=? c)%string = true.
Proof.
  unfold String.leb. intros Hab Hbc.
  pose proof (string_compare_le_trans a b c) as H.
  destruct (String.compare a b); try discriminate;
    destruct (String.compare b c); try discriminate;
    destruct (String.compare a c); try reflexivity;
    exfalso; apply H; congruence.
Qed.

Lemma not_older_trans (a b c : row) : not_older a b -> not_older b c -> not_older a c.
Proof. unfold not_older. intros Hab Hbc. exact (string_leb_trans _ _ _ Hbc Hab). Qed.

Lemma insert_desc_perm (r : row) (l : list row) : Permutation (insert_desc r l) (r :: l).
Proof.
  induction l as [| x l IH]; simpl.
  - apply Permutation_refl.
  - destruct (created_at x <=? created_at r)%string.
    + apply Permutation_refl.
    + eapply perm_trans; [apply perm_skip; exact IH | apply perm_swap].
Qed.

Lemma order_by_perm (l : list row) : Permutation (order_by_created_at_desc l) l.
Proof.
  induction l as [| x l IH]; simpl.
  - apply perm_nil.
  - eapply perm_trans; [apply insert_desc_perm | apply perm_skip; exact IH].
Qed.

Lemma insert_desc_sorted (r : row) (l : list row) :
  StronglySorted not_older l -> StronglySorted not_older (insert_desc r l).
Proof.
  induction l as [| x l IH]; intros Hl; simpl.
  - constructor; constructor.
  - inversion Hl as [| ? ? Hrest Hx]; subst.
    destruct (created_at x <=? created_at r)%string eqn:E.
    + constructor; [exact Hl |].
      constructor; [exact E |].
      eapply Forall_impl; [| exact Hx].
      intros y Hy. eapply not_older_trans; [exact E | exact Hy].
    + constructor; [apply IH; exact Hrest |].
      eapply Permutation_Forall; [apply Permutation_sym, insert_desc_perm |].
      constructor; [| exact Hx].
      unfold not_older. destruct (String.leb_total (created_at x) (created_at r)) as [H | H];
        [congruence | exact H].
Qed.

Lemma order_by_sorted (l : list row) : StronglySorted not_older (order_by_created_at_desc l).
Proof.
  induction l as [| x l IH]; simpl.
  - constructor.
  - apply insert_desc_sorted. exact IH.
Qed.

Lemma in_firstn {A} (n : nat) (l : list A) (x : A) : In x (firstn n l) -> In x l.
Proof.
  revert l. induction n as [| n IH]; intros [| y l]; simpl; try tauto.
  intros [H | H]; [left; exact H | right; apply IH; exact H].
Qed.

Lemma firstn_sorted {A} (R : A -> A -> Prop) (n : nat) (l : list A) :
  StronglySorted R l -> StronglySorted R (firstn n l).
Proof.
  revert l. induction n as [| n IH]; intros l Hl; simpl.
  - constructor.
  - destruct l as [| x l]; [constructor |].
    inversion Hl as [| ? ? Hrest Hx]; subst.
    constructor; [apply IH; exact Hrest |].
    rewrite Forall_forall in *. intros y Hy. apply Hx.
    eapply in_firstn. exact Hy.
Qed.

Lemma filter_all {A} (f : A -> bool) (l : list A) :
  (forall a, f a = true) -> filter f l = l.
Proof.
  intros H. induction l as [| a l IH]; simpl; [reflexivity |].
  rewrite H, IH. reflexivity.
Qed.

(** ** The SELECT *)

Section Select.
Variable cv : conversions.

Lemma select_orders_in (by_business by_status : bool) (vs : list sqlval) (st : store)
      (r : row) :
  In r (select_orders cv by_business by_status vs st) -> In r (orders st).
Proof.
  unfold select_orders. intros H.
  apply in_firstn in H.
  apply (Permutation_in _ (order_by_perm _)) in H.
  apply filter_In in H. tauto.
Qed.

End Select.

(** ** GET /api/orders *)

Lemma spread_items (r : row) (v : value) :
  spread_with (row_object r) "items" v = listed r v.
Proof. reflexivity. Qed.

Lemma result_map_Forall2 {A B} (f : A -> result B) (l : list A) (bs : list B) :
  result_map f l = Ok bs -> Forall2 (fun a b => f a = Ok b) l bs.
Proof.
  revert bs. induction l as [| a l IH]; intros bs; simpl.
  - intros H. inversion H. constructor.
  - destruct (f a) as [b | e] eqn:E; simpl; [| discriminate].
    destruct (result_map f l) as [bs' | e]; simpl; [| discriminate].
    intros H. inversion H; subst. constructor; [exact E | apply IH; reflexivity].
Qed.

Lemma result_map_throw {A B} (f : A -> result B) (l : list A) (a : A) (e : exn) :
  In a l -> f a = Throw e -> exists e', result_map f l = Throw e'.
Proof.
  induction l as [| x l IH]; simpl; [tauto |].
  intros [-> | Hin] Ha.
  - rewrite Ha. eexists. reflexivity.
  - destruct (f x); simpl; [| eexists; reflexivity].
    destruct (IH Hin Ha) as [e' ->]. eexists. reflexivity.
Qed.

Lemma format_row_listed (r : row) (o : value) :
  format_row r = Ok o -> exists v, JSON_parse (items r) = Ok v /\ o = listed r v.
Proof.
  unfold format_row. destruct (JSON_parse (items r)) as [v | e]; simpl; [| discriminate].
  intros H. inversion H. exists v. split; reflexivity.
Qed.

(** Whatever the query, a response of GET lists rows of the table, each as
    the object of its columns with the items text parsed; the world is as
    before. *)
Lemma get_orders_ok (env : environment) (req_query : value) (w w' : world) (r : response) :
  get_orders env req_query w = (Ok r, w') ->
  exists rows os,
    r = {| http_status := 200; json := VArr os |} /\ w' = w /\
    Forall2 (fun row o => format_row row = Ok o) rows os /\
    (forall row, In row rows -> In row (orders (database w))).
Proof.
  unfold get_orders. intros H.
  apply bind_ok in H as (b & w0 & Hb & H). apply lift_ok in Hb as [Hb ->].
  apply bind_ok in H as (s & w0 & Hs & H). apply lift_ok in Hs as [Hs ->].
  apply bind_ok in H as (rows & w0 & Hrows & H).
  unfold select_all in Hrows.
  apply bind_ok in Hrows as (vs & w1 & Hvs & Hrows). apply lift_ok in Hvs as [Hvs ->].
  inversion Hrows; subst rows w0; clear Hrows.
  apply bind_ok in H as (os & w0 & Hos & H). apply lift_ok in Hos as [Hos ->].
  inversion H; subst; clear H.
  eexists _, os. repeat split.
  - apply result_map_Forall2. exact Hos.
  - intros row. apply select_orders_in.
Qed.

Lemma get_query_businessId (b s : option string) :
  get (query b s) "businessId" = Ok (match b with Some x => VStr x | None => VUndefined end).
Proof. destruct b, s; reflexivity. Qed.

Lemma get_query_status (b s : option string) :
  get (query b s) "status" = Ok (match s with Some x => VStr x | None => VUndefined end).
Proof. destruct b, s; reflexivity. Qed.

(** GET with text filters: the matching rows, newest first, the first
    hundred, each formatted; the first row that does not format makes the
    handler throw. *)
Lemma get_orders_query (env : environment) (b s : option string) (w : world) :
  get_orders env (query b s) w
  = (match result_map format_row
             (firstn 100 (order_by_created_at_desc (filter (matches b s) (orders (database w)))))
     with
     | Ok os => Ok {| http_status := 200; json := VArr os |}
     | Throw e => Throw e
     end, w).
Proof.
  unfold get_orders, bind, lift.
  rewrite get_query_businessId, get_query_status.
  assert (Hsel : forall by_b by_s vs,
             by_b = active b -> by_s = active s ->
             (vs = (if active b then [match b with Some x => SqlText x | None => SqlNull end]
                    else [])
                   ++ (if active s then [match s with Some x => SqlText x | None => SqlNull end]
                       else []))%list ->
             select_orders (sqlite env) by_b by_s vs (database w)
             = firstn 100 (order_by_created_at_desc
                             (filter (matches b s) (orders (database w))))).
  { intros by_b by_s vs -> -> ->. unfold select_orders. f_equal. f_equal.
    apply filter_ext. intros r. unfold matches, active, text_equals, text_column.
    destruct b as [x |], s as [y |]; simpl;
      try destruct (x =? "")%string; try destruct (y =? "")%string; simpl;
      try destruct (status r); try reflexivity;
      rewrite ?andb_true_r; reflexivity. }
  unfold select_all, bind, lift.
  destruct b as [x |], s as [y |]; simpl truthy;
    try destruct (x =? "")%string eqn:Ex; try destruct (y =? "")%string eqn:Ey;
    cbn [negb app bind_statement bind_arguments bind_one bind_value result_bind
         List.length Nat.add Nat.pred];
    (erewrite Hsel;
     [ | simpl; rewrite ?Ex, ?Ey; reflexivity
       | simpl; rewrite ?Ex, ?Ey; reflexivity
       | simpl; rewrite ?Ex, ?Ey; reflexivity ]);
    fold format_row;
    destruct (result_map format_row _); reflexivity.
Qed.

(** ** PATCH /api/orders/:id *)

Lemma patch_order_text (env : environment) (id : string) (req_body : value) (w : world)
      (s : string) :
  get req_body "status" = Ok (VStr s) ->
  patch_order env id req_body w
  = (Ok acknowledged,
     {| database := update_status (sqlite env) (SqlText s) (SqlText id) (database w);
        trace := trace w; ticks := ticks w |}).
Proof. intros H. unfold patch_order, bind, lift. rewrite H. reflexivity. Qed.

Lemma update_status_rows (cv : conversions) (s id : string) (st : store) :
  Forall2 (fun r r' => if identifies cv id r
                       then same_but_status r r' /\ status r' = Some s
                       else r' = r)
          (orders st) (orders (update_status cv (SqlText s) (SqlText id) st)).
Proof.
  unfold update_status. simpl.
  induction (orders st) as [| r l IH]; simpl; constructor; [| exact IH].
  unfold identifies, id_equals.
  destruct (integer_of_text cv id) as [z |]; [| reflexivity].
  destruct (z =? row_id r); [| reflexivity].
  unfold same_but_status. simpl. repeat split.
Qed.

Lemma update_status_nobody (cv : conversions) (s id : string) (st : store) :
  (forall r, In r (orders st) -> identifies cv id r = false) ->
  update_status cv (SqlText s) (SqlText id) st = st.
Proof.
  intros H. unfold update_status. destruct st as [rows counter]. simpl in *. f_equal.
  induction rows as [| r l IH]; simpl; [reflexivity |].
  rewrite IH by (intros x Hx; apply H; right; exact Hx).
  f_equal. specialize (H r (or_introl eq_refl)).
  unfold identifies in H. unfold id_equals.
  destruct (integer_of_text cv id) as [z |]; [| reflexivity].
  rewrite H. reflexivity.
Qed.

(** ** Concrete runs *)

Lemma single_item_parses :
  JSON_parse single_item_text = Ok (VObj [("name", VStr "Burger"); ("quantity", VNum 2)]).
Proof. vm_compute. reflexivity. Qed.

Lemma alice_is_valid : valid_payload alice = true.
Proof. vm_compute. reflexivity. Qed.

Lemma alice_posted :
  post_orders (sample_env None) alice empty_world = (Ok (created alice_order), alice_world).
Proof. vm_compute. reflexivity. Qed.

(** The rows POST stores need not hold JSON in [items]: the shifted
    payload is accepted, and the listing that follows throws. *)
Lemma shifted_post_breaks_the_listing :
  exists (order : value) (w' : world) (e : exn),
    post_orders (sample_env None) shifted empty_world = (Ok (created order), w') /\
    map items (orders (database w')) = [""] /\
    get_orders (sample_env None) (query None None) w' = (Throw e, w').
Proof. do 3 eexists. repeat split; vm_compute; reflexivity. Qed.

(** A print failure that is not a channel failure: the insert succeeded,
    the formatter threw. *)
Lemma post_orders_try_print_throw (env : environment) (req_body : value) (w w1 w2 w3 : world)
      (b c p i s t : value) (key : Z) (e : exn) :
  get req_body "businessId" = Ok b -> get req_body "customerName" = Ok c ->
  get req_body "customerPhone" = Ok p -> get req_body "items" = Ok i ->
  get req_body "specialInstructions" = Ok s -> get req_body "total" = Ok t ->
  parse_items i (logged_world (Console_log "Received order:" (A_value req_body)) w)
    = (Ok (parsed_items i), w1) ->
  insert_run env
    (insert_arguments (generate_orderNumber (clock env (ticks w1))) b c p (parsed_items i) s t)
    (ticked w1) = (Ok key, w2) ->
  printOrder env (or_else b (VStr "default"))
    (order_object key (generate_orderNumber (clock env (ticks w1))) b c p (parsed_items i) s t
       (clock env (ticks w2)))
    (ticked w2) = (Throw e, w3) ->
  post_orders env req_body w
  = (Ok (failed e), logged_world (Console_error "Error processing order:" (An_error e)) w3).
Proof.
  intros Hb Hc Hp Hi Hs Ht Hparse Hins Hprint.
  unfold post_orders, try_catch, post_orders_try, bind, lift.
  rewrite Hb, Hc, Hp, Hi, Hs, Ht.
  unfold console_log, emit. unfold logged_world in Hparse. rewrite Hparse.
  unfold now at 1. unfold insert_arguments, ticked in Hins. rewrite Hins.
  unfold now. unfold order_object, ticked in Hprint. rewrite Hprint.
  reflexivity.
Qed.

(** ** Numerals read back *)

Lemma length_chars (s : string) : List.length (chars s) = String.length s.
Proof. induction s as [| c s IH]; simpl; congruence. Qed.

Lemma length_append (a b : string) :
  String.length (a ++ b) = (String.length a + String.length b)%nat.
Proof. induction a as [| c a IH]; simpl; congruence. Qed.

Lemma length_repeat_zero (n : nat) : String.length (repeat_string n "0") = n.
Proof. induction n as [| n IH]; simpl; congruence. Qed.

Lemma length_pad_zeros (width : nat) (s : string) :
  (width <= String.length (pad_zeros width s))%nat.
Proof. unfold pad_zeros. rewrite length_append, length_repeat_zero. lia. Qed.

Lemma digits_lsf_value (fuel : nat) (n : Z) :
  0 <= n < 2 ^ Z.of_nat fuel ->
  lsf_value (digits_lsf fuel n) = n /\ Forall (fun d => 0 <= d < 10) (digits_lsf fuel n).
Proof.
  revert n. induction fuel as [| k IH]; intros n Hn.
  - simpl in *. split; [lia | constructor].
  - cbn [digits_lsf]. destruct (n <? 10) eqn:E.
    + apply Z.ltb_lt in E. simpl. split; [lia | repeat constructor; lia].
    + apply Z.ltb_ge in E.
      destruct (IH (n / 10)) as [Hv Hd].
      { split; [apply Z.div_pos; lia |].
        apply Z.div_lt_upper_bound; [lia |].
        rewrite Nat2Z.inj_succ, Z.pow_succ_r in Hn by lia. lia. }
      cbn [lsf_value]. rewrite Hv. split.
      * pose proof (Z.div_mod n 10). lia.
      * constructor; [apply Z.mod_pos_bound; lia | exact Hd].
Qed.

(** The bit length of a number is fuel enough for all its digits. *)
Lemma digit_fuel_enough (n : Z) : 0 <= n -> 0 <= n < 2 ^ Z.of_nat (digit_fuel n).
Proof.
  intros Hn. split; [exact Hn |]. unfold digit_fuel.
  rewrite Nat2Z.inj_succ, Z2Nat.id by apply Z.log2_nonneg.
  destruct (Z.eq_dec n 0) as [-> | Hpos]; [reflexivity |].
  apply Z.log2_spec. lia.
Qed.

Lemma digit_value_char (d : Z) : 0 <= d < 10 -> digit_value (digit_char d) = d.
Proof.
  intros Hd. unfold digit_value, digit_char, code, char_of_code.
  rewrite nat_ascii_embedding; lia.
Qed.

Lemma number_of_digits_snoc (l : list ascii) (c : ascii) :
  number_of_digits (l ++ [c]) = 10 * number_of_digits l + digit_value c.
Proof. unfold number_of_digits. rewrite fold_left_app. reflexivity. Qed.

Lemma number_of_digits_rev (ds : list Z) :
  Forall (fun d => 0 <= d < 10) ds ->
  number_of_digits (map digit_char (rev ds)) = lsf_value ds.
Proof.
  intros H. induction H as [| d ds Hd _ IH]; [reflexivity |].
  cbn [rev lsf_value]. rewrite map_app. cbn [map].
  rewrite number_of_digits_snoc, IH, digit_value_char by exact Hd. lia.
Qed.

(** Every items text of a table parses, as a check that runs. *)
Lemma items_parse_check (l : list row) :
  forallb (fun r => match JSON_parse (items r) with Ok _ => true | Throw _ => false end) l
  = true ->
  forall r, In r l -> exists v, JSON_parse (items r) = Ok v.
Proof.
  intros H r Hr. rewrite forallb_forall in H. specialize (H r Hr).
  destruct (JSON_parse (items r)) as [v | e]; [exists v; reflexivity | discriminate H].
Qed.

(** * The claims *)

(** ** C10: the order number *)

(** C10. Every created order is numbered [#] followed by the last six
    decimal digits of the millisecond timestamp [Date.now()] returned, seven
    characters in all, for every timestamp of six digits or more (any clock
    reading from 1970-01-01T00:01:40Z on); consequently two orders created in
    the same millisecond receive the same order number. *)
Theorem orderNumber_is_last_six_digits :
  forall (env : environment) (req_body : value) (w w' : world) (r : response),
    post_orders env req_body w = (Ok r, w') -> http_status r = 200 ->
    100000 <= clock env (ticks w) ->
    field "orderNumber" (field "order" (json r))
    = VStr ("#" ++ six_digits (clock env (ticks w)))
    /\ String.length ("#" ++ six_digits (clock env (ticks w))) = 7%nat
    /\ forall (env2 : environment) (req_body2 : value) (w2 w2' : world) (r2 : response),
         post_orders env2 req_body2 w2 = (Ok r2, w2') -> http_status r2 = 200 ->
         clock env2 (ticks w2) = clock env (ticks w) ->
         field "orderNumber" (field "order" (json r2))
         = field "orderNumber" (field "order" (json r)).
Proof.
  intros env req_body w w' r Hrun Hok Hsix.
  assert (Hnumber : forall env0 body0 w0 w0' r0,
             post_orders env0 body0 w0 = (Ok r0, w0') -> http_status r0 = 200 ->
             field "orderNumber" (field "order" (json r0))
             = VStr (generate_orderNumber (clock env0 (ticks w0)))).
  { intros env0 body0 w0 w0' r0 H0 Hs0.
    destruct (post_orders_created env0 body0 w0 w0' r0 H0 Hs0)
      as (key & b & c & p & i & s & t & ms & _ & ->).
    reflexivity. }
  split; [| split].
  - rewrite (Hnumber _ _ _ _ _ Hrun Hok), generate_orderNumber_six by exact Hsix.
    reflexivity.
  - reflexivity.
  - intros env2 body2 w2 w2' r2 Hrun2 Hok2 Hsame.
    rewrite (Hnumber _ _ _ _ _ Hrun Hok), (Hnumber _ _ _ _ _ Hrun2 Hok2), Hsame.
    reflexivity.
Qed.

Lemma orderNumber_is_last_six_digits_witness :
  exists (r : response) (w' : world),
    post_orders (sample_env None) alice empty_world = (Ok r, w')
    /\ field "orderNumber" (field "order" (json r)) = VStr "#000123".
Proof.
  exists (created alice_order), alice_world. split.
  - exact alice_posted.
  - exact (proj1 (orderNumber_is_last_six_digits (sample_env None) alice empty_world
                    alice_world (created alice_order) alice_posted eq_refl
                    ltac:(vm_compute; discriminate))).
Defined.

(** ** C9: no print method, no network *)

(** C9. When [PRINT_METHOD] is unset (absent or empty) the handler answers
    every create request, makes no network call while doing so, and a
    request whose insert succeeded (the table gained its row) is answered
    with success, [printOrder] having logged that no print method is
    configured and returned; a request answered with a failure left the
    table as it was. *)
Theorem unset_print_method_no_network :
  forall (env : environment) (req_body : value) (w : world),
    env_unset (PRINT_METHOD env) = true ->
    exists (r : response) (w' : world),
      post_orders env req_body w = (Ok r, w') /\
      no_fetch_between w w' /\
      ((exists e, r = failed e /\ database w' = database w)
       \/ (exists order row earlier,
             r = created order /\
             orders (database w') = (orders (database w) ++ [row])%list /\
             trace w' = Console_log "No print method configured" Nothing :: earlier)).
Proof.
  intros env req_body w Hunset.
  destruct (post_orders_try env req_body w) as [[r | e] w0] eqn:Htry.
  - exists r, w0.
    assert (Hrun : post_orders env req_body w = (Ok r, w0))
      by (unfold post_orders, try_catch; rewrite Htry; reflexivity).
    split; [exact Hrun |].
    apply post_orders_try_ok in Htry
      as (b & c & p & i & s & t & w1 & key & w2 & _ & _ & _ & _ & _ & _
          & Hparse & Hins & Hprint & ->).
    rewrite printOrder_unset in Hprint by exact Hunset.
    inversion Hprint; subst w0; clear Hprint.
    apply insert_run_ok in Hins as (vs & st & _ & Hrow & ->).
    apply insert_row_ok in Hrow as (_ & _ & row & Hrows & _).
    destruct (parse_items_spec i
                (logged_world (Console_log "Received order:" (A_value req_body)) w))
      as (w1' & Hspec & Hdb & _ & Hquiet).
    rewrite Hspec in Hparse. inversion Hparse; subst w1'; clear Hparse.
    simpl in Hdb. split.
    + eapply no_fetch_trans;
        [apply (no_fetch_console (Console_log "Received order:" (A_value req_body)));
         reflexivity |].
      eapply no_fetch_trans; [exact Hquiet |].
      eexists [_]. split; reflexivity.
    + right. eexists _, row, _. split; [reflexivity |]. split; [| reflexivity].
      simpl in *. rewrite Hrows, Hdb. reflexivity.
  - eexists (failed e), _.
    split; [unfold post_orders, try_catch; rewrite Htry; reflexivity |].
    apply post_orders_try_throw in Htry
      as [[Hdb Hquiet] | (b & order & args & key & w1 & w2 & _ & _ & Hprint)].
    + split.
      * eapply no_fetch_trans; [exact Hquiet |].
        apply (no_fetch_console (Console_error _ _)). reflexivity.
      * left. exists e. split; [reflexivity | exact Hdb].
    + apply printOrder_throw in Hprint as [Hset _]. congruence.
Qed.

Lemma unset_print_method_no_network_witness :
  exists (r : response) (w' : world),
    post_orders (sample_env None) alice empty_world = (Ok r, w') /\
    no_fetch_between empty_world w' /\
    ((exists e, r = failed e /\ database w' = database empty_world)
     \/ (exists order row earlier,
           r = created order /\
           orders (database w') = (orders (database empty_world) ++ [row])%list /\
           trace w' = Console_log "No print method configured" Nothing :: earlier)).
Proof.
  exact (unset_print_method_no_network (sample_env None) alice empty_world eq_refl).
Defined.

(** ** C2: the items of the returned order *)

(** C2. The handler returns the items of a string as [JSON.parse] reads
    them and checks nothing of the result: only a string that is not JSON
    becomes the single line item named by the whole string, with quantity 1
    and no modifications.  So a string that is the JSON text of anything but
    a sequence of line items (a number, [null], one item object) is
    answered with that value as [items], which is no sequence. *)
Theorem string_items_are_returned_as_parsed :
  forall (env : environment) (req_body : value) (w w' : world) (s : string) (r : response),
    get req_body "items" = Ok (VStr s) ->
    post_orders env req_body w = (Ok r, w') -> http_status r = 200 ->
    exists order : value,
      r = created order /\
      field "items" order
      = match JSON_parse s with
        | Ok v => v
        | Throw _ =>
            VArr [VObj [("name", VStr s); ("quantity", VNum 1); ("modifications", VArr [])]]
        end.
Proof.
  intros env req_body w w' s r Hitems Hrun Hok.
  destruct (post_orders_created env req_body w w' r Hrun Hok)
    as (key & b & c & p & i & s0 & t & ms & Hi & ->).
  rewrite Hitems in Hi. inversion Hi; subst i.
  eexists. split; [reflexivity |].
  unfold order_object, field. cbn [get lookup String.eqb Ascii.eqb Bool.eqb parsed_items].
  destruct (JSON_parse s); reflexivity.
Qed.

Lemma string_items_are_returned_as_parsed_witness :
  exists order : value,
    fst (post_orders (sample_env None)
           (VObj [("customerName", VStr "Alice"); ("items", VStr "5"); ("total", VNum 15.5)])
           empty_world)
    = Ok (created order) /\
    field "items" order = VNum 5 /\
    well_formed_items (field "items" order) = false.
Proof.
  destruct (string_items_are_returned_as_parsed (sample_env None)
              (VObj [("customerName", VStr "Alice"); ("items", VStr "5"); ("total", VNum 15.5)])
              empty_world
              (snd (post_orders (sample_env None)
                      (VObj [("customerName", VStr "Alice"); ("items", VStr "5");
                             ("total", VNum 15.5)])
                      empty_world))
              "5"
              (created (created_order (sample_env None) empty_world
                          (VObj [("customerName", VStr "Alice"); ("items", VStr "5");
                                 ("total", VNum 15.5)]))))
    as (order & Heq & Hitems).
  - reflexivity.
  - vm_compute. reflexivity.
  - reflexivity.
  - assert (Hfive : JSON_parse "5" = Ok (VNum 5)) by (vm_compute; reflexivity).
    rewrite Hfive in Hitems.
    exists order. split; [rewrite <- Heq; vm_compute; reflexivity |].
    split; [exact Hitems | rewrite Hitems; reflexivity].
Defined.

(** ** C5: the end-to-end example *)

(** C5, as stated, fails: the order in the response to the example
    payload has no [status] at all. *)
Lemma example_response_has_no_status : ~ example_as_stated (sample_env None) empty_world.
Proof.
  intros (order & w' & Hrun & _ & Hstatus & _).
  rewrite alice_posted in Hrun. inversion Hrun; subst order.
  vm_compute in Hstatus. discriminate Hstatus.
Qed.

(** C5, amended. The example payload is answered, on every server and in
    every state, with an order whose customerName is Alice, whose first
    item has quantity 2, whose total is 15.5 and whose orderNumber is the
    string generated from the clock; the order carries no [status] field:
    the status [new] is that of the row stored with it. *)
Theorem example_response :
  forall (env : environment) (w : world),
    exists (order : value) (w' : world) (stored : row),
      post_orders env alice w = (Ok (created order), w') /\
      field "customerName" order = VStr "Alice" /\
      result_bind (get (field "items" order) "0") (fun item => get item "quantity")
        = Ok (VNum 2) /\
      field "total" order = VNum 15.5 /\
      field "orderNumber" order = VStr (generate_orderNumber (clock env (ticks w))) /\
      get order "status" = Ok VUndefined /\
      keys order = ["id"; "orderNumber"; "businessId"; "customerName"; "customerPhone";
                    "items"; "specialInstructions"; "total"; "createdAt"] /\
      orders (database w') = (orders (database w) ++ [stored])%list /\
      status stored = Some "new".
Proof.
  intros env w.
  destruct (post_orders_valid env alice w alice_is_valid)
    as (w' & stored & Hrun & Hrows & _ & Hstatus & _).
  exists (created_order env w alice), w', stored.
  repeat split; try assumption; reflexivity.
Qed.

(** ** C1: print failures and the response *)

(** C1, where the code departs from it.  With any print method configured,
    a payload whose [items] is the JSON text of one item object (not of an
    array) is stored, and then answered with a failure: the ticket
    formatter runs before the [try] of [printOrder], so what it throws
    reaches the handler's [catch]. *)
Theorem formatter_failure_reaches_the_client :
  forall (env : environment) (w : world),
    env_unset (PRINT_METHOD env) = false ->
    exists (w' : world) (stored : row),
      post_orders env (VObj [("items", VStr single_item_text)]) w
      = (Ok (failed (TypeError "order.items.forEach is not a function")), w') /\
      orders (database w') = (orders (database w) ++ [stored])%list /\
      items stored = single_item_text.
Proof.
  intros env w Hset.
  set (req_body := VObj [("items", VStr single_item_text)]).
  set (item := VObj [("name", VStr "Burger"); ("quantity", VNum 2)]).
  assert (Hparsed : parsed_items (VStr single_item_text) = item)
    by (unfold parsed_items; rewrite single_item_parses; reflexivity).
  destruct (parse_items_spec (VStr single_item_text)
              (logged_world (Console_log "Received order:" (A_value req_body)) w))
    as (w1 & Hparse & Hdb1 & Hticks1 & _).
  simpl in Hdb1, Hticks1.
  set (orderNumber := generate_orderNumber (clock env (ticks w1))).
  set (stored := {| row_id := next_id (database w); business_id := "default";
                    order_number := orderNumber; customer_name := Some "Guest";
                    customer_phone := Some ""; items := single_item_text;
                    special_instructions := Some ""; total := SqlReal 0;
                    status := Some "new";
                    created_at := CURRENT_TIMESTAMP (clock env (S (ticks w1))) |}).
  set (w2 := {| database := {| orders := (orders (database w) ++ [stored])%list;
                               sequence := next_id (database w) |};
                trace := trace w1; ticks := S (S (ticks w1)) |}).
  assert (Hins : insert_run env
                   (insert_arguments orderNumber VUndefined VUndefined VUndefined
                      (parsed_items (VStr single_item_text)) VUndefined VUndefined)
                   (ticked w1) = (Ok (next_id (database w)), w2)).
  { rewrite Hparsed.
    rewrite (insert_run_run env _ (ticked w1)
               [SqlText "default"; SqlText orderNumber; SqlText "Guest"; SqlText "";
                SqlText single_item_text; SqlText ""; SqlReal 0]
               (next_id (database w))
               {| orders := (orders (database w) ++ [stored])%list;
                  sequence := next_id (database w) |}).
    - reflexivity.
    - vm_compute. reflexivity.
    - simpl. rewrite Hdb1. reflexivity. }
  assert (Hprint : exists w3,
             printOrder env (or_else VUndefined (VStr "default"))
               (order_object (next_id (database w)) orderNumber VUndefined VUndefined
                  VUndefined (parsed_items (VStr single_item_text)) VUndefined VUndefined
                  (clock env (ticks w2)))
               (ticked w2)
             = (Throw (TypeError "order.items.forEach is not a function"), w3)
             /\ database w3 = database w2).
  { rewrite Hparsed. eexists. unfold printOrder. rewrite Hset. split; reflexivity. }
  destruct Hprint as (w3 & Hprint & Hdb3).
  exists (logged_world (Console_error "Error processing order:"
                          (An_error (TypeError "order.items.forEach is not a function"))) w3),
         stored.
  split; [| simpl; rewrite Hdb3; split; reflexivity].
  apply (post_orders_try_print_throw env req_body w w1 w2 w3
           VUndefined VUndefined VUndefined (VStr single_item_text) VUndefined VUndefined
           (next_id (database w))); try reflexivity; assumption.
Qed.

Lemma formatter_failure_reaches_the_client_witness :
  exists (w' : world) (stored : row),
    post_orders (sample_env (Some "webhook")) (VObj [("items", VStr single_item_text)])
      empty_world
    = (Ok (failed (TypeError "order.items.forEach is not a function")), w') /\
    orders (database w') = (orders (database empty_world) ++ [stored])%list /\
    items stored = single_item_text.
Proof.
  exact (formatter_failure_reaches_the_client (sample_env (Some "webhook")) empty_world eq_refl).
Defined.

(** ** C3: a stored items text that is not JSON *)

(** C3, where the code departs from it.  When one of the rows a query
    selects holds an items text that is not JSON, [JSON.parse] throws inside
    the handler of GET, nothing catches it, and no list is returned. *)
Theorem malformed_items_crash_the_listing :
  forall (env : environment) (b s : option string) (w : world) (r : row) (e : exn),
    In r (firstn 100 (order_by_created_at_desc (filter (matches b s) (orders (database w))))) ->
    JSON_parse (items r) = Throw e ->
    exists e' : exn, get_orders env (query b s) w = (Throw e', w).
Proof.
  intros env b s w r e Hin Hparse.
  rewrite get_orders_query.
  destruct (result_map_throw format_row _ r e Hin) as [e' ->].
  - unfold format_row. rewrite Hparse. reflexivity.
  - exists e'. reflexivity.
Qed.

Lemma malformed_items_crash_the_listing_witness :
  exists e' : exn,
    get_orders (sample_env None) (query None None)
      {| database := {| orders := [bad_row]; sequence := 1 |}; trace := []; ticks := 0 |}
    = (Throw e',
       {| database := {| orders := [bad_row]; sequence := 1 |}; trace := []; ticks := 0 |}).
Proof.
  exact (malformed_items_crash_the_listing (sample_env None) None None
           {| database := {| orders := [bad_row]; sequence := 1 |}; trace := []; ticks := 0 |}
           bad_row (not_valid_json "2 burgers") (or_introl eq_refl) eq_refl).
Defined.

(** ** C4: the ticket and the clock *)

(** C4, as stated, fails: the second line of the ticket carries the time
    of the call, so the same order formatted a second later gives another
    string. *)
Lemma ticket_changes_with_the_clock :
  ~ ticket_ignores_the_clock (sample_env (Some "webhook")) alice_order.
Proof.
  intros H. specialize (H empty_world (ticked empty_world)).
  vm_compute in H. discriminate H.
Qed.

(** C4, amended. The ticket is a function of the order and of the time of
    day the clock shows when the formatter reads it: two calls on the same
    order that read the same time text return the same result, whatever the
    database holds and whatever was logged or sent before. *)
Theorem ticket_determined_by_order_and_time :
  forall (env : environment) (order : value) (w1 w2 : world),
    toLocaleTimeString env (clock env (ticks w1))
    = toLocaleTimeString env (clock env (ticks w2)) ->
    fst (formatKitchenTicket env order w1) = fst (formatKitchenTicket env order w2).
Proof.
  intros env order w1 w2 Htime.
  unfold formatKitchenTicket, bind, lift, now.
  destruct (result_bind (get order "orderNumber") ToString) as [n | e]; [| reflexivity].
  rewrite Htime. reflexivity.
Qed.

Lemma ticket_determined_by_order_and_time_witness :
  fst (formatKitchenTicket (sample_env (Some "webhook")) alice_order empty_world)
  = fst (formatKitchenTicket (sample_env (Some "webhook")) alice_order
           {| database := database alice_world; trace := trace alice_world; ticks := Z.to_nat 86400 |}).
Proof.
  apply ticket_determined_by_order_and_time. vm_compute. reflexivity.
Defined.

(** ** C6: the fields of a listed order *)

(** C6, as stated, fails: the order stored for the example payload is
    listed without a [businessId] field (the column is [business_id]). *)
Lemma listing_uses_column_names :
  ~ listing_as_stated (sample_env None) (query None None) alice_world.
Proof.
  intros H.
  destruct (get_orders (sample_env None) (query None None) alice_world)
    as [[r | e] w'] eqn:Hrun; vm_compute in Hrun; [| discriminate Hrun].
  inversion Hrun; subst r w'; clear Hrun.
  specialize (H _ _ _ _ eq_refl eq_refl (or_introl eq_refl) "businessId" (or_introl eq_refl)).
  vm_compute in H. intuition discriminate.
Qed.

(** C6, amended. Every element of the sequence GET returns is the object
    of one stored row: its fields are the columns of the table under the
    column names [id], [business_id], [order_number], [customer_name],
    [customer_phone], [items], [special_instructions], [total], [status],
    [created_at], in that order, each with the row's value, and [items] is
    the row's items text parsed. *)
Theorem listing_fields :
  forall (env : environment) (req_query : value) (w w' : world) (r : response),
    get_orders env req_query w = (Ok r, w') ->
    exists (rows : list row) (os : list value),
      json r = VArr os /\
      Forall2 (fun row o => exists v, JSON_parse (items row) = Ok v /\ o = listed row v)
              rows os /\
      (forall row, In row rows -> In row (orders (database w))) /\
      Forall (fun o => keys o = column_names) os.
Proof.
  intros env req_query w w' r Hrun.
  destruct (get_orders_ok env req_query w w' r Hrun) as (rows & os & -> & _ & Hall & Hin).
  exists rows, os. split; [reflexivity |].
  assert (Hlisted : Forall2 (fun row o => exists v, JSON_parse (items row) = Ok v
                                                    /\ o = listed row v) rows os).
  { eapply Forall2_impl; [| exact Hall]. intros row o. apply format_row_listed. }
  split; [exact Hlisted |]. split; [exact Hin |].
  clear Hall Hin Hrun. induction Hlisted as [| row o rows os (v & _ & ->) _ IH]; constructor.
  - reflexivity.
  - exact IH.
Qed.

Lemma listing_fields_witness :
  exists (rows : list row) (os : list value),
    json {| http_status := 200;
            json := VArr [listed (hd bad_row (orders (database alice_world)))
                            (field "items" alice_order)] |} = VArr os /\
    Forall2 (fun row o => exists v, JSON_parse (items row) = Ok v /\ o = listed row v)
            rows os /\
    (forall row, In row rows -> In row (orders (database alice_world))) /\
    Forall (fun o => keys o = column_names) os.
Proof.
  apply (listing_fields (sample_env None) (query None None) alice_world alice_world).
  vm_compute. reflexivity.
Defined.

(** ** C7: the listing is capped, ordered and filtered *)




(** ** C8: the status update *)

(** C8. A PATCH that supplies a status string is always acknowledged with
    [{success: true}], without any check that the id exists: every row the
    id identifies keeps all its fields but [status], which becomes the
    supplied string; every other row is unchanged; and when the id
    identifies no row the whole database is unchanged.  Nothing is logged. *)
Theorem status_update_is_unconditional :
  forall (env : environment) (id : string) (req_body : value) (w : world) (s : string),
    get req_body "status" = Ok (VStr s) ->
    exists w' : world,
      patch_order env id req_body w = (Ok acknowledged, w') /\
      trace w' = trace w /\
      Forall2 (fun r r' => if identifies (sqlite env) id r
                           then same_but_status r r' /\ status r' = Some s
                           else r' = r)
              (orders (database w)) (orders (database w')) /\
      ((forall r, In r (orders (database w)) -> identifies (sqlite env) id r = false) ->
       database w' = database w).
Proof.
  intros env id req_body w s Hstatus.
  eexists. split; [apply patch_order_text; exact Hstatus |].
  split; [reflexivity |]. split.
  - apply update_status_rows.
  - intros Hnobody. apply update_status_nobody. exact Hnobody.
Qed.

Lemma status_update_is_unconditional_witness :
  exists w' : world,
    patch_order (sample_env None) "999" (VObj [("status", VStr "completed")]) alice_world
    = (Ok acknowledged, w') /\
    trace w' = trace alice_world /\
    Forall2 (fun r r' => if identifies sample_conversions "999" r
                         then same_but_status r r' /\ status r' = Some "completed"
                         else r' = r)
            (orders (database alice_world)) (orders (database w')) /\
    ((forall r, In r (orders (database alice_world)) ->
                identifies sample_conversions "999" r = false) ->
     database w' = database alice_world).
Proof.
  exact (status_update_is_unconditional (sample_env None) "999"
           (VObj [("status", VStr "completed")]) alice_world "completed" eq_refl).
Defined.

(** * Further properties *)

(** X1. A valid create payload is always stored under the next key with
    status [new] and answered with success and the order built from it,
    whatever the print method is and whatever the network does. *)
Theorem valid_payload_is_stored_and_answered :
  forall (env : environment) (req_body : value) (w : world),
    valid_payload req_body = true ->
    exists (w' : world) (stored : row),
      post_orders env req_body w = (Ok (created (created_order env w req_body)), w') /\
      orders (database w') = (orders (database w) ++ [stored])%list /\
      row_id stored = next_id (database w) /\
      status stored = Some "new".
Proof.
  intros env req_body w Hvalid.
  destruct (post_orders_valid env req_body w Hvalid) as (w' & r & Hrun & Hrows & Hid & Hst & _).
  exists w', r. repeat split; assumption.
Qed.

Lemma valid_payload_is_stored_and_answered_witness :
  exists (w' : world) (stored : row),
    post_orders (sample_env (Some "printnode")) alice empty_world
    = (Ok (created (created_order (sample_env (Some "printnode")) empty_world alice)), w') /\
    orders (database w') = (orders (database empty_world) ++ [stored])%list /\
    row_id stored = next_id (database empty_world) /\
    status stored = Some "new".
Proof.
  exact (valid_payload_is_stored_and_answered (sample_env (Some "printnode")) alice
           empty_world alice_is_valid).
Defined.

(** X2. Once the ticket is formatted, [printOrder] returns normally
    whatever the selected channel does (a missing configuration, a
    rejected [fetch], a response that cannot be read): the failure stays
    inside its [try], and the table is not touched. *)
Theorem channel_failures_are_contained :
  forall (env : environment) (businessId order : value) (w w1 : world) (t : string),
    env_unset (PRINT_METHOD env) = false ->
    formatKitchenTicket env order w = (Ok t, w1) ->
    exists w2 : world,
      printOrder env businessId order w = (Ok tt, w2) /\ database w2 = database w.
Proof.
  intros env businessId order w w1 t Hset Hfmt.
  destruct (printOrder_formatted env businessId order w w1 t Hset Hfmt) as [w2 Hprint].
  exists w2. split; [exact Hprint |].
  exact (frames_printOrder env businessId order w _ w2 Hprint).
Qed.

Lemma channel_failures_are_contained_witness :
  exists w2 : world,
    printOrder (sample_env (Some "webhook")) (VStr "default") alice_order empty_world
    = (Ok tt, w2) /\ database w2 = database empty_world.
Proof.
  eapply (channel_failures_are_contained (sample_env (Some "webhook")) (VStr "default")
            alice_order empty_world _ _ eq_refl).
  vm_compute. reflexivity.
Defined.

(** X3. The handler of POST always answers, with status 200 or 500: no
    exception leaves it. *)
Theorem post_orders_always_answers :
  forall (env : environment) (req_body : value) (w : world),
    exists (r : response) (w' : world),
      post_orders env req_body w = (Ok r, w') /\
      (http_status r = 200 \/ http_status r = 500).
Proof.
  intros env req_body w. unfold post_orders, try_catch.
  destruct (post_orders_try env req_body w) as [[r | e] w0] eqn:Htry.
  - exists r, w0. split; [reflexivity |]. left.
    apply post_orders_try_ok in Htry
      as (b & c & p & i & s & t & w1 & key & w2 & _ & _ & _ & _ & _ & _ & _ & _ & _ & ->).
    reflexivity.
  - eexists _, _. split; [reflexivity |]. right. reflexivity.
Qed.

(** X4. [toFixed(2)] of a finite number below [1e21] in magnitude prints a
    sign, at least one character, a point and exactly two characters; the
    total line of the ticket is [TOTAL: $] followed by that. *)
Theorem total_has_two_decimals :
  forall (x : number) (neg : bool) (m : positive) (e : Z),
    Prim2SF x = S754_finite neg m e ->
    (10 ^ 21 * snd (exact_fraction m e) <=? fst (exact_fraction m e)) = false ->
    exists whole frac : string,
      toFixed2 x = (if neg then "-" else "") ++ whole ++ "." ++ frac /\
      String.length frac = 2%nat /\ (1 <= String.length whole)%nat.
Proof.
  intros x neg m e Hx Hsmall. unfold toFixed2. rewrite Hx.
  destruct (exact_fraction m e) as [num den]. cbn [fst snd] in Hsmall. rewrite Hsmall.
  set (ds := chars (pad_zeros 3 (decimal ((2 * 100 * num + den) / (2 * den))))).
  assert (Hk : (3 <= List.length ds)%nat)
    by (unfold ds; rewrite length_chars; apply length_pad_zeros).
  eexists _, _. split; [reflexivity |].
  rewrite !length_text, length_skipn, length_firstn. lia.
Qed.

Lemma total_has_two_decimals_witness :
  exists whole frac : string,
    toFixed2 7.5%float = "" ++ whole ++ "." ++ frac /\
    String.length frac = 2%nat /\ (1 <= String.length whole)%nat.
Proof.
  apply (total_has_two_decimals 7.5%float false 8444249301319680 (-50));
    vm_compute; reflexivity.
Defined.

(** X5. Printing never changes the orders table, whatever it logs or
    sends and however it ends. *)
Theorem printing_leaves_the_table_alone :
  forall (env : environment) (businessId order : value) (w : world),
    database (snd (printOrder env businessId order w)) = database w.
Proof.
  intros env businessId order w.
  destruct (printOrder env businessId order w) as [r w'] eqn:Hprint.
  exact (frames_printOrder env businessId order w r w' Hprint).
Qed.

(** X6. [Date.now().toString()] is modelled by [decimal]: reading the
    numeral of a natural number back gives the number, so the fuel of the
    digit loop always suffices. *)
Theorem decimal_numeral_reads_back :
  forall n : Z, 0 <= n -> number_of_digits (chars (decimal n)) = n.
Proof.
  intros n Hn. unfold decimal, digits_of. rewrite chars_text.
  destruct (digits_lsf_value (digit_fuel n) n (digit_fuel_enough n Hn)) as [Hv Hd].
  rewrite number_of_digits_rev by exact Hd. exact Hv.
Qed.

Lemma decimal_numeral_reads_back_witness :
  number_of_digits (chars (decimal 1700000000123)) = 1700000000123.
Proof. apply decimal_numeral_reads_back. lia. Defined.

(** * Lemmas for the further properties *)

Ltac count := unfold calls in *; simpl; lia.

Lemma sends_weaken {A} (n k : nat) (m : M A) : (n <= k)%nat -> sends n m -> sends k m.
Proof.
  intros Hle H w r w' Hrun. destruct (H w r w' Hrun) as (added & Ht & Hc).
  exists added. split; [exact Ht | count].
Qed.

Lemma sends_ret {A} (a : A) : sends 0 (ret a).
Proof. intros w r w' H. inversion H. exists []. split; [reflexivity | count]. Qed.

Lemma sends_throw {A} (e : exn) : sends 0 (@throw A e).
Proof. intros w r w' H. inversion H. exists []. split; [reflexivity | count]. Qed.

Lemma sends_lift {A} (x : result A) : sends 0 (lift x).
Proof. intros w r w' H. inversion H. exists []. split; [reflexivity | count]. Qed.

Lemma sends_now (env : environment) : sends 0 (now env).
Proof. intros w r w' H. inversion H. exists []. split; [reflexivity | count]. Qed.

Lemma sends_console_log (msg : string) (x : logged) : sends 0 (console_log msg x).
Proof. intros w r w' H. inversion H. exists [Console_log msg x]. split; [reflexivity | count]. Qed.

Lemma sends_console_error (msg : string) (x : logged) : sends 0 (console_error msg x).
Proof.
  intros w r w' H. inversion H. exists [Console_error msg x]. split; [reflexivity | count].
Qed.

Lemma calls_app (a b : list event) : calls (a ++ b) = (calls a + calls b)%nat.
Proof. unfold calls. rewrite filter_app, length_app. reflexivity. Qed.

Lemma sends_bind {A B} (n k : nat) (m : M A) (f : A -> M B) :
  sends n m -> (forall a, sends k (f a)) -> sends (n + k) (bind m f).
Proof.
  intros Hm Hf w r w'. unfold bind.
  destruct (m w) as [[a | e] w1] eqn:E; intros H.
  - destruct (Hm _ _ _ E) as (x & Hx & Cx). destruct (Hf a _ _ _ H) as (y & Hy & Cy).
    exists (y ++ x)%list. split; [rewrite Hy, Hx, app_assoc; reflexivity |].
    rewrite calls_app. count.
  - inversion H; subst. destruct (Hm _ _ _ E) as (x & Hx & Cx).
    exists x. split; [exact Hx | count].
Qed.

Lemma sends_try_catch {A} (n k : nat) (m : M A) (h : exn -> M A) :
  sends n m -> (forall e, sends k (h e)) -> sends (n + k) (try_catch m h).
Proof.
  intros Hm Hh w r w'. unfold try_catch.
  destruct (m w) as [[a | e] w1] eqn:E; intros H.
  - inversion H; subst. destruct (Hm _ _ _ E) as (x & Hx & Cx).
    exists x. split; [exact Hx | count].
  - destruct (Hm _ _ _ E) as (x & Hx & Cx). destruct (Hh e _ _ _ H) as (y & Hy & Cy).
    exists (y ++ x)%list. split; [rewrite Hy, Hx, app_assoc; reflexivity |].
    rewrite calls_app. count.
Qed.

Lemma sends_quiet_bind {A B} (n : nat) (m : M A) (f : A -> M B) :
  sends 0 m -> (forall a, sends n (f a)) -> sends n (bind m f).
Proof. intros Hm Hf. exact (sends_bind 0 n m f Hm Hf). Qed.

Lemma sends_bind_quiet {A B} (n : nat) (m : M A) (f : A -> M B) :
  sends n m -> (forall a, sends 0 (f a)) -> sends n (bind m f).
Proof.
  intros Hm Hf. apply (sends_weaken (n + 0)); [lia |]. exact (sends_bind n 0 m f Hm Hf).
Qed.

Lemma sends_try_quiet {A} (n : nat) (m : M A) (h : exn -> M A) :
  sends n m -> (forall e, sends 0 (h e)) -> sends n (try_catch m h).
Proof.
  intros Hm Hh. apply (sends_weaken (n + 0)); [lia |]. exact (sends_try_catch n 0 m h Hm Hh).
Qed.

Lemma sends_fetch (env : environment) (url : value) (init : request) :
  sends 1 (fetch env url init).
Proof.
  intros w r w'. unfold fetch, bind, emit.
  destruct (network env url init); intros H; inversion H; subst;
    exists [Fetch url init]; split; try reflexivity; count.
Qed.

Create HintDb sent.
#[local] Hint Resolve sends_ret sends_throw sends_lift sends_now sends_console_log
  sends_console_error sends_fetch : sent.
#[local] Hint Extern 1 (sends _ (bind _ _)) => apply sends_quiet_bind; [| intro] : sent.
#[local] Hint Extern 3 (sends _ (bind _ _)) => apply sends_bind_quiet; [| intro] : sent.
#[local] Hint Extern 1 (sends _ (try_catch _ _)) => apply sends_try_quiet; [| intro] : sent.
#[local] Hint Extern 2 (sends _ (if ?b then _ else _)) => destruct b : sent.
#[local] Hint Extern 4 (sends 1 _) => apply (sends_weaken 0 1); [lia |] : sent.

Lemma sends_formatKitchenTicket (env : environment) (order : value) :
  sends 0 (formatKitchenTicket env order).
Proof. unfold formatKitchenTicket. auto with sent. Qed.

Lemma sends_printViaPrintNode (env : environment) (businessId : value) (content : string) :
  sends 1 (printViaPrintNode env businessId content).
Proof. unfold printViaPrintNode. auto 30 with sent. Qed.

Lemma sends_printViaWebhook (env : environment) (businessId : value) (content : string) :
  sends 1 (printViaWebhook env businessId content).
Proof. unfold printViaWebhook. auto 30 with sent. Qed.

Lemma sends_printViaCloudPRNT (businessId : value) (content : string) :
  sends 0 (printViaCloudPRNT businessId content).
Proof. unfold printViaCloudPRNT. auto with sent. Qed.
#[local] Hint Resolve sends_formatKitchenTicket sends_printViaPrintNode sends_printViaWebhook
  sends_printViaCloudPRNT : sent.

Lemma sends_printOrder (env : environment) (businessId order : value) :
  sends 1 (printOrder env businessId order).
Proof. unfold printOrder. auto 30 with sent. Qed.

Lemma frames_parse_items (items : value) : frames (parse_items items).
Proof.
  intros w r w' H.
  destruct (parse_items_spec items w) as (w1 & Hspec & Hdb & _).
  rewrite Hspec in H. inversion H; subst. exact Hdb.
Qed.

Lemma stores_frames {A} (env : environment) (m : M A) : frames m -> stores env m.
Proof. intros H w r w' Hrun. left. exact (H w r w' Hrun). Qed.

Lemma stores_quiet_bind {A B} (env : environment) (m : M A) (k : A -> M B) :
  frames m -> (forall a, stores env (k a)) -> stores env (bind m k).
Proof.
  intros Hm Hk w r w'. unfold bind.
  destruct (m w) as [[a | e] w1] eqn:E; intros H.
  - rewrite <- (Hm _ _ _ E). exact (Hk a _ _ _ H).
  - inversion H; subst. left. exact (Hm _ _ _ E).
Qed.

Lemma stores_bind_quiet {A B} (env : environment) (m : M A) (k : A -> M B) :
  stores env m -> (forall a, frames (k a)) -> stores env (bind m k).
Proof.
  intros Hm Hk w r w'. unfold bind.
  destruct (m w) as [[a | e] w1] eqn:E; intros H.
  - rewrite (Hk a _ _ _ H). exact (Hm _ _ _ E).
  - inversion H; subst. exact (Hm _ _ _ E).
Qed.

Lemma stores_try_catch {A} (env : environment) (m : M A) (h : exn -> M A) :
  stores env m -> (forall e, frames (h e)) -> stores env (try_catch m h).
Proof.
  intros Hm Hh w r w'. unfold try_catch.
  destruct (m w) as [[a | e] w1] eqn:E; intros H.
  - inversion H; subst. exact (Hm _ _ _ E).
  - rewrite (Hh e _ _ _ H). exact (Hm _ _ _ E).
Qed.

Lemma stores_insert_run (env : environment) (args : list value) :
  stores env (insert_run env args).
Proof.
  intros w [key | e] w' H.
  - apply insert_run_ok in H as (vs & st & _ & Hrow & ->). right.
    exists (clock env (ticks w)), vs, key. exact Hrow.
  - apply insert_run_throw in H as [Hdb _]. left. exact Hdb.
Qed.

#[local] Hint Resolve frames_parse_items frames_printOrder : frame.

Lemma stores_post_orders (env : environment) (req_body : value) :
  stores env (post_orders env req_body).
Proof.
  unfold post_orders. apply stores_try_catch.
  - unfold post_orders_try.
    do 9 (apply stores_quiet_bind; [auto with frame | intro]).
    apply stores_bind_quiet; [apply stores_insert_run | intro].
    auto 10 with frame.
  - intro e. unfold post_orders_catch. auto with frame.
Qed.

Lemma get_orders_world (env : environment) (req_query : value) (w : world) :
  snd (get_orders env req_query w) = w.
Proof.
  unfold get_orders, select_all, bind, lift.
  destruct (get req_query "businessId") as [b | e]; [| reflexivity].
  destruct (get req_query "status") as [s | e]; [| reflexivity].
  destruct (bind_statement _ _) as [vs | e]; [| reflexivity].
  destruct (result_map _ _) as [os | e]; reflexivity.
Qed.

Lemma patch_order_world (env : environment) (id : string) (req_body : value) (w : world) :
  snd (patch_order env id req_body w) = w \/
  exists s k,
    snd (patch_order env id req_body w)
    = {| database := update_status (sqlite env) s k (database w);
         trace := trace w; ticks := ticks w |}.
Proof.
  unfold patch_order, update_run, bind, lift.
  destruct (get req_body "status") as [s | e]; [| left; reflexivity].
  destruct (bind_statement 2 [s; VStr id]) as [vs | e]; [| left; reflexivity].
  destruct vs as [| x [| k [| ? ?]]]; try (left; reflexivity).
  right. exists x, k. reflexivity.
Qed.

(** ** What every request keeps *)

Lemma same_but_status_refl (r : row) : same_but_status r r.
Proof. unfold same_but_status. repeat split. Qed.

Lemma same_but_status_trans (a b c : row) :
  same_but_status a b -> same_but_status b c -> same_but_status a c.
Proof. unfold same_but_status. intuition congruence. Qed.

Lemma Forall2_same_refl (l : list row) : Forall2 same_but_status l l.
Proof. induction l; constructor; [apply same_but_status_refl | assumption]. Qed.

Lemma Forall2_same_trans (a b c : list row) :
  Forall2 same_but_status a b -> Forall2 same_but_status b c -> Forall2 same_but_status a c.
Proof.
  intros Hab. revert c. induction Hab as [| x y a b Hxy _ IH]; intros c Hbc.
  - inversion Hbc. constructor.
  - inversion Hbc as [| ? z ? c' Hyz Hrest]; subst.
    constructor; [exact (same_but_status_trans _ _ _ Hxy Hyz) | apply IH; exact Hrest].
Qed.

Lemma kept_refl (st : store) : kept st st.
Proof.
  exists (orders st), []. split; [rewrite app_nil_r; reflexivity | apply Forall2_same_refl].
Qed.

Lemma kept_trans (a b c : store) : kept a b -> kept b c -> kept a c.
Proof.
  intros (u1 & a1 & Hb & H1) (u2 & a2 & Hc & H2).
  rewrite Hb in H2. apply Forall2_app_inv_l in H2 as (u2a & u2b & Ha & _ & ->).
  exists u2a, (u2b ++ a2)%list. split.
  - rewrite Hc, app_assoc. reflexivity.
  - exact (Forall2_same_trans _ _ _ H1 Ha).
Qed.

Lemma kept_insert_row (cv : conversions) (t : Z) (vs : list sqlval) (st st' : store) (key : Z) :
  insert_row cv t vs st = Ok (key, st') -> kept st st'.
Proof.
  intros H. apply insert_row_ok in H as (_ & _ & r & Hrows & _).
  exists (orders st), [r]. split; [exact Hrows | apply Forall2_same_refl].
Qed.

Lemma kept_update_status (cv : conversions) (s k : sqlval) (st : store) :
  kept st (update_status cv s k st).
Proof.
  exists (orders (update_status cv s k st)), []. split; [rewrite app_nil_r; reflexivity |].
  unfold update_status. simpl.
  induction (orders st) as [| r l IH]; simpl; constructor; [| exact IH].
  destruct (id_equals cv (row_id r) k); [| apply same_but_status_refl].
  unfold same_but_status. simpl. repeat split.
Qed.

Lemma serve_kept (env : environment) (c : call) (w : world) :
  kept (database w) (database (snd (serve env c w))).
Proof.
  destruct c as [req_body | req_query | id req_body]; simpl.
  - destruct (post_orders env req_body w) as [r w'] eqn:H. cbn [snd].
    destruct (stores_post_orders env req_body w r w' H) as [-> | (t & vs & key & Hrow)].
    + apply kept_refl.
    + exact (kept_insert_row _ _ _ _ _ _ Hrow).
  - rewrite get_orders_world. apply kept_refl.
  - destruct (patch_order_world env id req_body w) as [-> | (s & k & ->)].
    + apply kept_refl.
    + apply kept_update_status.
Qed.

Lemma serve_all_cons (env : environment) (c : call) (cs : list call) (w : world) :
  serve_all env (c :: cs) w = serve_all env cs (snd (serve env c w)).
Proof. reflexivity. Qed.

Lemma max_key_bounds (s : Z) (rows : list row) :
  s <= fold_right Z.max s (map row_id rows) /\
  Forall (fun r => row_id r <= fold_right Z.max s (map row_id rows)) rows.
Proof.
  induction rows as [| r l [IHs IHl]]; simpl.
  - split; [lia | constructor].
  - split; [lia |]. constructor; [lia |].
    eapply Forall_impl; [| exact IHl]. intros x Hx. simpl in Hx. lia.
Qed.

Lemma sorted_snoc (l : list Z) (x : Z) :
  StronglySorted Z.lt l -> Forall (fun y => y < x) l -> StronglySorted Z.lt (l ++ [x]).
Proof.
  intros Hs Hall. induction Hs as [| y l Hs IH Hy]; simpl.
  - repeat constructor.
  - inversion Hall; subst. constructor; [apply IH; assumption |].
    apply Forall_app. split; [exact Hy | repeat constructor; assumption].
Qed.

Lemma keys_ascend_insert_row (cv : conversions) (t : Z) (vs : list sqlval) (st st' : store)
      (key : Z) :
  insert_row cv t vs st = Ok (key, st') -> keys_ascend st -> keys_ascend st'.
Proof.
  intros H [Hsorted Hbound].
  apply insert_row_ok in H as (Hkey & Hseq & r & Hrows & Hid & _).
  destruct (max_key_bounds (sequence st) (orders st)) as [Hs Hl].
  unfold next_id in Hkey. unfold keys_ascend. rewrite Hrows, Hseq, map_app. simpl. split.
  - apply sorted_snoc; [exact Hsorted |].
    rewrite Forall_map. eapply Forall_impl; [| exact Hl]. intros x Hx. simpl in Hx. lia.
  - apply Forall_app. split.
    + eapply Forall_impl; [| exact Hl]. intros x Hx. simpl in Hx. lia.
    + repeat constructor. lia.
Qed.

Lemma keys_ascend_update_status (cv : conversions) (s k : sqlval) (st : store) :
  keys_ascend st -> keys_ascend (update_status cv s k st).
Proof.
  intros [Hsorted Hbound]. unfold keys_ascend, update_status. simpl.
  assert (Hids : forall l : list row,
             map row_id (map (fun r : row =>
               if id_equals cv (row_id r) k
               then {| row_id := row_id r; business_id := business_id r;
                       order_number := order_number r; customer_name := customer_name r;
                       customer_phone := customer_phone r; items := items r;
                       special_instructions := special_instructions r; total := total r;
                       status := text_column cv s; created_at := created_at r |}
               else r) l) = map row_id l).
  { intros l. rewrite map_map. apply map_ext. intros r.
    destruct (id_equals cv (row_id r) k); reflexivity. }
  split.
  - rewrite Hids. exact Hsorted.
  - rewrite Forall_map. eapply Forall_impl; [| exact Hbound].
    intros r Hr. simpl in Hr. destruct (id_equals cv (row_id r) k); simpl; exact Hr.
Qed.

Lemma serve_keys_ascend (env : environment) (c : call) (w : world) :
  keys_ascend (database w) -> keys_ascend (database (snd (serve env c w))).
Proof.
  intros Hinv. destruct c as [req_body | req_query | id req_body]; simpl.
  - destruct (post_orders env req_body w) as [r w'] eqn:H. cbn [snd].
    destruct (stores_post_orders env req_body w r w' H) as [-> | (t & vs & key & Hrow)].
    + exact Hinv.
    + exact (keys_ascend_insert_row _ _ _ _ _ _ Hrow Hinv).
  - rewrite get_orders_world. exact Hinv.
  - destruct (patch_order_world env id req_body w) as [-> | (s & k & ->)].
    + exact Hinv.
    + apply keys_ascend_update_status. exact Hinv.
Qed.

Lemma sorted_lt_NoDup (l : list Z) : StronglySorted Z.lt l -> NoDup l.
Proof.
  intros H. induction H as [| x l _ IH Hx]; constructor; [| exact IH].
  intros Hin. rewrite Forall_forall in Hx. specialize (Hx x Hin). lia.
Qed.

(** ** Network calls of a request *)

Lemma sends_parse_items (items : value) : sends 0 (parse_items items).
Proof. unfold parse_items. destruct items; auto with sent. Qed.

Lemma sends_insert_run (env : environment) (args : list value) : sends 0 (insert_run env args).
Proof.
  intros w r w' H. exists []. split; [| count]. destruct r as [key | e].
  - apply insert_run_ok in H as (vs & st & _ & _ & ->). reflexivity.
  - apply insert_run_throw in H as [_ Ht]. exact Ht.
Qed.
#[local] Hint Resolve sends_parse_items sends_insert_run sends_printOrder : sent.

Lemma sends_post_orders (env : environment) (req_body : value) :
  sends 1 (post_orders env req_body).
Proof. unfold post_orders, post_orders_try, post_orders_catch. auto 40 with sent. Qed.

Lemma calls_quiet (added : list event) :
  forallb (fun e => negb (is_fetch e)) added = true -> calls added = 0%nat.
Proof.
  unfold calls. induction added as [| e l IH]; simpl; [reflexivity |].
  destruct (is_fetch e); simpl; [discriminate | exact IH].
Qed.

Lemma no_fetch_calls (w w' : world) (added : list event) :
  no_fetch_between w w' -> trace w' = (added ++ trace w)%list -> calls added = 0%nat.
Proof.
  intros (a & Ha & Hq) Ht. rewrite Ha in Ht. apply app_inv_tail in Ht. subst a.
  apply calls_quiet. exact Hq.
Qed.

Lemma snoc_differs {A} (l : list A) (x : A) : (l ++ [x])%list <> l.
Proof.
  intros H. apply (f_equal (@List.length A)) in H. rewrite length_app in H. simpl in H. lia.
Qed.

Lemma post_orders_unchanged_quiet (env : environment) (req_body : value) (w w' : world)
      (r : response) :
  post_orders env req_body w = (Ok r, w') ->
  orders (database w') = orders (database w) ->
  no_fetch_between w w' /\ http_status r = 500.
Proof.
  unfold post_orders, try_catch.
  destruct (post_orders_try env req_body w) as [[r0 | e] w0] eqn:Htry; intros H Hsame.
  - exfalso. inversion H; subst r0 w0; clear H.
    apply post_orders_try_ok in Htry
      as (b & c & p & i & s & t & w1 & key & w2 & _ & _ & _ & _ & _ & _
          & Hparse & Hins & Hprint & _).
    apply frames_printOrder in Hprint. simpl in Hprint.
    apply insert_run_ok in Hins as (vs & st & _ & Hrow & ->).
    apply insert_row_ok in Hrow as (_ & _ & row & Hrows & _).
    apply frames_parse_items in Hparse. simpl in *.
    rewrite Hprint, Hrows, Hparse in Hsame. exact (snoc_differs _ _ Hsame).
  - unfold post_orders_catch, bind, console_error, emit, ret in H.
    inversion H; subst r w'; clear H. split; [| reflexivity].
    apply post_orders_try_throw in Htry
      as [[Hdb Hquiet] | (b & order & args & key & w1 & w2 & Hins & Hsame1 & Hprint)].
    + eapply no_fetch_trans; [exact Hquiet |].
      apply (no_fetch_console (Console_error _ _)). reflexivity.
    + exfalso. apply frames_printOrder in Hprint. simpl in Hprint, Hsame.
      apply insert_run_ok in Hins as (vs & st & _ & Hrow & ->).
      apply insert_row_ok in Hrow as (_ & _ & row & Hrows & _). simpl in *.
      rewrite Hprint, Hrows, Hsame1 in Hsame. exact (snoc_differs _ _ Hsame).
Qed.

Lemma sends_printOrder_offline (env : environment) (businessId order : value) :
  PRINT_METHOD env <> Some "printnode" -> PRINT_METHOD env <> Some "webhook" ->
  sends 0 (printOrder env businessId order).
Proof.
  intros Hp Hw. unfold printOrder.
  destruct (env_unset (PRINT_METHOD env)) eqn:Hunset; [auto with sent |].
  assert (Hname : env_or (PRINT_METHOD env) "" <> "printnode"
                  /\ env_or (PRINT_METHOD env) "" <> "webhook").
  { unfold env_or, env_unset in *. destruct (PRINT_METHOD env) as [m |]; [| discriminate].
    rewrite Hunset. split; congruence. }
  destruct Hname as [Hn1 Hn2].
  apply String.eqb_neq in Hn1, Hn2. rewrite Hn1, Hn2.
  apply sends_quiet_bind; [auto with sent | intro t].
  apply sends_try_quiet; [| intro; auto with sent].
  destruct (env_or (PRINT_METHOD env) "" =? "cloudprnt")%string; auto with sent.
Qed.

(** ** Order numbers *)

Lemma last_six_of_mod (t : Z) : last_six (t mod 1000000) = last_six t.
Proof.
  unfold last_six. cbn [map].
  change (10 ^ 0) with 1. change (10 ^ 1) with 10. change (10 ^ 2) with 100.
  change (10 ^ 3) with 1000. change (10 ^ 4) with 10000. change (10 ^ 5) with 100000.
  assert (H : forall k, In k [1; 10; 100; 1000; 10000; 100000] ->
                         (t mod 1000000 / k) mod 10 = (t / k) mod 10).
  { intros k Hk. simpl in Hk.
    repeat destruct Hk as [<- | Hk]; try contradiction; Z.div_mod_to_equations; lia. }
  rewrite !H by (simpl; tauto). reflexivity.
Qed.

Lemma last_six_value (t : Z) :
  0 <= t -> lsf_value (rev (last_six t)) = t mod 1000000.
Proof.
  intros Ht. unfold last_six. cbn [map rev app lsf_value].
  change (10 ^ 0) with 1. change (10 ^ 1) with 10. change (10 ^ 2) with 100.
  change (10 ^ 3) with 1000. change (10 ^ 4) with 10000. change (10 ^ 5) with 100000.
  Z.div_mod_to_equations. lia.
Qed.

Lemma last_six_digits (t : Z) : Forall (fun d => 0 <= d < 10) (last_six t).
Proof.
  unfold last_six. cbn [map]. repeat constructor; apply Z.mod_pos_bound; lia.
Qed.

Lemma digit_chars_inj (a b : list Z) :
  Forall (fun d => 0 <= d < 10) a -> Forall (fun d => 0 <= d < 10) b ->
  map digit_char a = map digit_char b -> a = b.
Proof.
  intros Ha. revert b. induction Ha as [| x a Hx _ IH]; intros b Hb H.
  - destruct b; [reflexivity | discriminate].
  - destruct b as [| y b]; [discriminate |]. inversion Hb; subst. simpl in H.
    inversion H as [[Hxy Hrest]]. f_equal.
    + rewrite <- (digit_value_char x), <- (digit_value_char y) by assumption.
      rewrite Hxy. reflexivity.
    + apply IH; assumption.
Qed.

(** ** PATCH after PATCH *)

Lemma update_status_overwrites (cv : conversions) (s1 s2 k : sqlval) (st : store) :
  update_status cv s2 k (update_status cv s1 k st) = update_status cv s2 k st.
Proof.
  unfold update_status. simpl. f_equal. rewrite map_map. apply map_ext. intros r.
  destruct (id_equals cv (row_id r) k) eqn:E; simpl; rewrite E; reflexivity.
Qed.

Lemma result_bind_ok {A B} (r : result A) (k : A -> result B) (b : B) :
  result_bind r k = Ok b -> exists a, r = Ok a /\ k a = Ok b.
Proof. destruct r as [a | e]; simpl; [intros H; exists a; split; [reflexivity | exact H] | discriminate]. Qed.

Lemma ticket_needs (order : value) (orderNumber time t : string) :
  ticket order orderNumber time = Ok t ->
  exists l x,
    get order "items" = Ok (VArr l) /\ get order "total" = Ok (VNum x) /\
    Forall (fun item => item <> VUndefined /\ item <> VNull) l.
Proof.
  unfold ticket. intros H.
  apply result_bind_ok in H as (customerName & _ & H).
  apply result_bind_ok in H as (name & _ & H).
  apply result_bind_ok in H as (customerPhone & _ & H).
  apply result_bind_ok in H as (phone & _ & H).
  apply result_bind_ok in H as (its & Hitems & H).
  apply result_bind_ok in H as (item_block & Hblock & H).
  apply result_bind_ok in H as (specialInstructions & _ & H).
  apply result_bind_ok in H as (instructions & _ & H).
  apply result_bind_ok in H as (total & Htotal & H).
  apply result_bind_ok in H as (amount & Hamount & _).
  destruct its as [| | | | | l |]; try discriminate Hblock.
  destruct total as [| | | x | | |]; try discriminate Hamount.
  exists l, x. split; [exact Hitems |]. split; [exact Htotal |].
  unfold forEach in Hblock. apply result_bind_ok in Hblock as (blocks & Hmap & _).
  apply result_map_Forall2 in Hmap. clear - Hmap.
  induction Hmap as [| item b l bs Hitem _ IH]; constructor; [| exact IH].
  unfold item_lines in Hitem. split; intros ->; discriminate Hitem.
Qed.

Lemma printOrder_ok_formatted (env : environment) (businessId order : value) (w w' : world) :
  env_unset (PRINT_METHOD env) = false ->
  printOrder env businessId order w = (Ok tt, w') ->
  exists n t, result_bind (get order "orderNumber") ToString = Ok n /\
              ticket order n (toLocaleTimeString env (clock env (ticks w))) = Ok t.
Proof.
  intros Hset H. unfold printOrder in H. rewrite Hset in H.
  apply bind_ok in H as (t & w1 & Hfmt & _).
  unfold formatKitchenTicket in Hfmt.
  apply bind_ok in Hfmt as (n & w0 & Hn & Hfmt). apply lift_ok in Hn as [Hn ->].
  apply bind_ok in Hfmt as (time & w0 & Hnow & Hfmt). inversion Hnow; subst time w0; clear Hnow.
  apply lift_ok in Hfmt as [Hfmt _]. exists n, t. split; assumption.
Qed.

(** ** The channels *)

Lemma parseInt_ok (v : value) (s : string) : ToString v = Ok s -> exists n, parseInt v = Ok n.
Proof.
  intros H. unfold parseInt. rewrite H. cbn [result_bind].
  repeat match goal with
         | |- context [match ?x with _ => _ end] => destruct x
         end; eexists; reflexivity.
Qed.

(** [printOrder] once the ticket is formatted: the channel named by
    [PRINT_METHOD], inside the [try]. *)
Lemma printOrder_with_method (env : environment) (businessId order : value) (w w1 : world)
      (t m : string) :
  PRINT_METHOD env = Some m -> m <> "" ->
  formatKitchenTicket env order w = (Ok t, w1) ->
  printOrder env businessId order w
  = try_catch
      (if (m =? "printnode")%string then printViaPrintNode env businessId t
       else if (m =? "cloudprnt")%string then printViaCloudPRNT businessId t
       else if (m =? "webhook")%string then printViaWebhook env businessId t
       else ret tt)
      (fun error => console_error "Print error:" (An_error error)) w1.
Proof.
  intros Hmethod Hm Hfmt. apply String.eqb_neq in Hm.
  unfold printOrder. rewrite Hmethod. cbn [env_unset env_or]. rewrite Hm.
  unfold bind at 1. rewrite Hfmt. reflexivity.
Qed.

(** The PrintNode channel with its configuration, inside the [try]. *)
Lemma printViaPrintNode_caught (env : environment) (businessId : value) (w1 : world)
      (t key b ps : string) (ids p : value) (n : number) :
  PRINTNODE_API_KEY env = Some key -> key <> "" ->
  JSON_parse (env_or (PRINTER_IDS env) "{}") = Ok ids ->
  ToString businessId = Ok b -> get ids b = Ok p -> truthy p = true ->
  ToString p = Ok ps -> parseInt p = Ok n ->
  try_catch (printViaPrintNode env businessId t)
    (fun error => console_error "Print error:" (An_error error)) w1
  = (Ok tt,
     {| database := database w1;
        trace := printnode_report (network env printnode_url (printnode_request key n t))
                 :: Fetch printnode_url (printnode_request key n t)
                 :: Console_log ("Printing to PrintNode printer " ++ ps
                                 ++ " for business " ++ b) Nothing
                 :: trace w1;
        ticks := ticks w1 |}).
Proof.
  intros Hkey Hne Hids Hb Hp Htruthy Hps Hn. apply String.eqb_neq in Hne.
  unfold try_catch, printViaPrintNode. rewrite Hkey. cbn [env_unset env_or]. rewrite Hne.
  unfold bind, lift. rewrite Hids, Hb, Hp, Htruthy, Hps, Hn. cbn [negb].
  unfold console_log, console_error, emit, fetch, bind, emit, ret, throw.
  fold printnode_url. fold (printnode_request key n t).
  destruct (network env printnode_url (printnode_request key n t)) as [e | [|] [txt | e]];
    reflexivity.
Qed.

(** The webhook channel with a URL for the business, inside the [try]. *)
Lemma printViaWebhook_caught (env : environment) (businessId : value) (w1 : world)
      (t b : string) (urls url : value) :
  JSON_parse (env_or (PRINT_WEBHOOKS env) "{}") = Ok urls ->
  ToString businessId = Ok b -> get urls b = Ok url ->
  try_catch (printViaWebhook env businessId t)
    (fun error => console_error "Print error:" (An_error error)) w1
  = (Ok tt,
     if truthy url
     then {| database := database w1;
             trace := (webhook_report (network env url (webhook_request businessId t))
                       ++ Fetch url (webhook_request businessId t) :: trace w1)%list;
             ticks := ticks w1 |}
     else w1).
Proof.
  intros Hurls Hb Hurl. unfold try_catch, printViaWebhook, bind, lift.
  rewrite Hurls, Hb, Hurl. destruct (truthy url); [| reflexivity].
  unfold fetch, bind, emit, ret, throw. fold (webhook_request businessId t).
  destruct (network env url (webhook_request businessId t)) as [e | ok txt]; reflexivity.
Qed.

Lemma Object_keys_ok (v : value) (k : string) (x : value) :
  get v k = Ok x -> exists ks, Object_keys v = Ok ks.
Proof. destruct v; simpl; try discriminate; intros _; eexists; reflexivity. Qed.

Lemma code_bounds (c : ascii) : 0 <= code c < 256.
Proof. unfold code. pose proof (nat_ascii_bounded c). lia. Qed.

Lemma code_char_of_code (z : Z) : 0 <= z < 256 -> code (char_of_code z) = z.
Proof. intros H. unfold code, char_of_code. rewrite nat_ascii_embedding; lia. Qed.

Lemma char_of_code_code (c : ascii) : char_of_code (code c) = c.
Proof. unfold code, char_of_code. rewrite Nat2Z.id. apply ascii_nat_embedding. Qed.

Lemma base64_value_char (n : Z) : 0 <= n < 64 -> base64_value (base64_char n) = Some n.
Proof.
  intros Hn. unfold base64_char.
  destruct (n <? 26) eqn:E1; [| destruct (n <? 52) eqn:E2; [| destruct (n <? 62) eqn:E3]].
  - apply Z.ltb_lt in E1. unfold base64_value. rewrite code_char_of_code by lia.
    replace ((65 <=? 65 + n) && (65 + n <=? 90)) with true
      by (symmetry; apply andb_true_iff; split; apply Z.leb_le; lia).
    f_equal. lia.
  - apply Z.ltb_ge in E1. apply Z.ltb_lt in E2.
    unfold base64_value. rewrite code_char_of_code by lia.
    replace ((65 <=? 97 + n - 26) && (97 + n - 26 <=? 90)) with false
      by (symmetry; apply andb_false_iff; right; apply Z.leb_gt; lia).
    replace ((97 <=? 97 + n - 26) && (97 + n - 26 <=? 122)) with true
      by (symmetry; apply andb_true_iff; split; apply Z.leb_le; lia).
    f_equal. lia.
  - apply Z.ltb_ge in E2. apply Z.ltb_lt in E3.
    unfold base64_value. rewrite code_char_of_code by lia.
    replace ((65 <=? 48 + n - 52) && (48 + n - 52 <=? 90)) with false
      by (symmetry; apply andb_false_iff; left; apply Z.leb_gt; lia).
    replace ((97 <=? 48 + n - 52) && (48 + n - 52 <=? 122)) with false
      by (symmetry; apply andb_false_iff; left; apply Z.leb_gt; lia).
    replace ((48 <=? 48 + n - 52) && (48 + n - 52 <=? 57)) with true
      by (symmetry; apply andb_true_iff; split; apply Z.leb_le; lia).
    f_equal. lia.
  - apply Z.ltb_ge in E3. assert (Hcases : n = 62 \/ n = 63) by lia.
    destruct Hcases as [-> | ->]; reflexivity.
Qed.

Lemma base64_value_pad : base64_value "="%char = None.
Proof. reflexivity. Qed.

Lemma base64_groups_decode (fuel : nat) (bytes : list Z) :
  (List.length bytes < fuel)%nat -> Forall (fun b => 0 <= b < 256) bytes ->
  base64_decode_groups (base64_groups fuel bytes) = Some bytes.
Proof.
  revert bytes. induction fuel as [| f IH]; intros bytes Hlen Hall; [lia |].
  destruct bytes as [| a [| b [| c rest]]]; cbn [base64_groups].
  - reflexivity.
  - inversion Hall as [| ? ? Ha _]; subst.
    cbv beta in *. cbn [base64_decode_groups].
    rewrite !base64_value_char by (Z.div_mod_to_equations; lia).
    rewrite base64_value_pad. change (code "="%char) with 61. cbn [Z.eqb Pos.eqb andb].
    f_equal. f_equal. Z.div_mod_to_equations; lia.
  - inversion Hall as [| ? ? Ha Hall1]; subst. inversion Hall1 as [| ? ? Hb _]; subst.
    cbv beta in *. cbn [base64_decode_groups].
    rewrite !base64_value_char by (Z.div_mod_to_equations; lia).
    rewrite base64_value_pad. change (code "="%char) with 61. cbn [Z.eqb Pos.eqb andb].
    f_equal. f_equal; [| f_equal]; Z.div_mod_to_equations; lia.
  - inversion Hall as [| ? ? Ha Hall1]; subst. inversion Hall1 as [| ? ? Hb Hall2]; subst.
    inversion Hall2 as [| ? ? Hc Hrest]; subst.
    cbv beta in *. cbn [base64_decode_groups].
    rewrite !base64_value_char by (Z.div_mod_to_equations; lia).
    rewrite IH by (simpl in Hlen; try lia; assumption).
    f_equal. f_equal; [| f_equal; [| f_equal]]; Z.div_mod_to_equations; lia.
Qed.

Lemma chars_append (a b : string) : chars (a ++ b) = (chars a ++ chars b)%list.
Proof. induction a as [| c a IH]; simpl; [reflexivity | rewrite IH; reflexivity]. Qed.

Lemma quote_chars (s : string) :
  chars (quote s) = (dquote :: flat_map escape_char (chars s) ++ [dquote])%list.
Proof. unfold quote. rewrite chars_text. reflexivity. Qed.

Lemma escape_step (c : ascii) (f : nat) (acc rest : list ascii) :
  json_string (S f) acc (escape_char c ++ rest) = json_string f (c :: acc) rest.
Proof.
  destruct c as [[] [] [] [] [] [] [] []]; reflexivity.
Qed.

Lemma json_string_quoted (cs : list ascii) (f : nat) (acc rest : list ascii) :
  (List.length cs < f)%nat ->
  json_string f acc (flat_map escape_char cs ++ dquote :: rest)
  = Some (text (rev acc ++ cs), rest).
Proof.
  revert f acc. induction cs as [| c cs IH]; intros f acc Hf.
  - destruct f as [| f]; [simpl in Hf; lia |]. simpl. rewrite app_nil_r. reflexivity.
  - destruct f as [| f]; [simpl in Hf; lia |].
    cbn [flat_map]. rewrite <- app_assoc, escape_step.
    rewrite IH by (simpl in Hf; lia).
    cbn [rev]. rewrite <- app_assoc. reflexivity.
Qed.

Lemma length_flat_map_escape (cs : list ascii) :
  (List.length cs <= List.length (flat_map escape_char cs))%nat.
Proof.
  induction cs as [| c cs IH]; simpl; [lia |].
  rewrite length_app.
  assert (1 <= List.length (escape_char c))%nat
    by (destruct c as [[] [] [] [] [] [] [] []]; vm_compute; lia).
  lia.
Qed.

(** A string value at the front of a text. *)
Lemma json_value_string (s : string) (f : nat) (rest : list ascii) :
  json_value (S f) (chars (quote s) ++ rest) = Some (VStr s, rest).
Proof.
  rewrite quote_chars. cbn [app]. rewrite <- app_assoc. cbn [app].
  change (json_value (S f) (dquote :: flat_map escape_char (chars s) ++ dquote :: rest))
    with (match json_string (S (List.length (flat_map escape_char (chars s) ++ dquote :: rest)))
                  [] (flat_map escape_char (chars s) ++ dquote :: rest) with
          | Some (s', r') => Some (VStr s', r')
          | None => None
          end).
  rewrite json_string_quoted.
  - cbn [rev app]. rewrite text_chars. reflexivity.
  - rewrite length_app. pose proof (length_flat_map_escape (chars s)). simpl. lia.
Qed.

(** ** Number tokens *)

Lemma exponent_match {T} (cs : list ascii) (X Y : T) :
  match cs with
  | ("e" | "E")%char :: _ => X
  | _ => Y
  end = if starts_exponent cs then X else Y.
Proof.
  destruct cs as [| c r]; [reflexivity |].
  destruct c as [[] [] [] [] [] [] [] []]; reflexivity.
Qed.

Lemma take_exponent_eq (cs : list ascii) :
  take_exponent cs
  = match cs with
    | [] => None
    | c :: rest =>
        if starts_exponent cs then
          let '(neg, rest1) :=
            match rest with
            | [] => (false, rest)
            | s :: r => if Ascii.eqb s "+" then (false, r)
                        else if Ascii.eqb s "-" then (true, r) else (false, rest)
            end in
          match take_digits rest1 with
          | ([], _) => None
          | (ds, r) => Some (if neg then - number_of_digits ds else number_of_digits ds, r)
          end
        else None
    end.
Proof.
  destruct cs as [| c rest]; [reflexivity |].
  destruct c as [[] [] [] [] [] [] [] []]; try reflexivity;
    (destruct rest as [| s r]; [reflexivity |];
     destruct s as [[] [] [] [] [] [] [] []]; reflexivity).
Qed.

Lemma finish_number_eq (neg : bool) (ip cs : list ascii) :
  finish_number neg ip cs
  = let after (fp cs : list ascii) :=
      let mantissa := number_of_digits (ip ++ fp)%list in
      let shift := - Z.of_nat (List.length fp) in
      if starts_exponent cs then
        match take_exponent cs with
        | Some (e, r) => Some (float_of_decimal neg mantissa (e + shift), r)
        | None => None
        end
      else Some (float_of_decimal neg mantissa shift, cs) in
    match cs with
    | [] => after [] cs
    | c :: rest =>
        if Ascii.eqb c "." then
          match take_digits rest with
          | ([], _) => None
          | (fp, r) => after fp r
          end
        else after [] cs
    end.
Proof.
  unfold finish_number. cbv zeta.
  destruct cs as [| c rest]; [reflexivity |].
  destruct c as [[] [] [] [] [] [] [] []]; try reflexivity.
  cbn [Ascii.eqb Bool.eqb andb].
  destruct (take_digits rest) as [[| d fp] r]; [reflexivity |].
  apply exponent_match.
Qed.

Lemma json_number_eq (cs : list ascii) :
  json_number cs
  = let '(neg, cs1) :=
      match cs with
      | [] => (false, cs)
      | c :: r => if Ascii.eqb c "-" then (true, r) else (false, cs)
      end in
    match cs1 with
    | [] => None
    | c :: r =>
        if Ascii.eqb c "0" then finish_number neg ["0"%char] r
        else match take_digits cs1 with
             | ([], _) => None
             | (ip, r) => finish_number neg ip r
             end
    end.
Proof.
  unfold json_number.
  assert (Hunsigned : forall neg cs1,
             match cs1 with
             | "0"%char :: r => finish_number neg ["0"%char] r
             | _ => match take_digits cs1 with
                    | ([], _) => None
                    | (ip, r) => finish_number neg ip r
                    end
             end
             = match cs1 with
               | [] => None
               | c :: r =>
                   if Ascii.eqb c "0" then finish_number neg ["0"%char] r
                   else match take_digits cs1 with
                        | ([], _) => None
                        | (ip, r) => finish_number neg ip r
                        end
               end).
  { intros neg cs1. destruct cs1 as [| c r]; [reflexivity |].
    destruct c as [[] [] [] [] [] [] [] []]; reflexivity. }
  destruct cs as [| c r]; [reflexivity |].
  destruct c as [[] [] [] [] [] [] [] []]; first [reflexivity | apply Hunsigned].
Qed.

Lemma closes_digit (rest : list ascii) :
  closes rest = true -> match rest with c :: _ => is_digit c = false | [] => True end.
Proof.
  destruct rest as [| c r]; simpl; [trivial |].
  destruct (is_digit c); simpl; [discriminate | reflexivity].
Qed.

Lemma closes_exponent (rest : list ascii) : closes rest = true -> starts_exponent rest = false.
Proof.
  destruct rest as [| c r]; simpl; [reflexivity |].
  destruct (is_digit c), (Ascii.eqb c "."), (Ascii.eqb c "e"), (Ascii.eqb c "E");
    simpl; congruence.
Qed.

Lemma closes_point (c : ascii) (r : list ascii) : closes (c :: r) = true -> Ascii.eqb c "." = false.
Proof.
  simpl. destruct (is_digit c), (Ascii.eqb c "."); simpl; congruence.
Qed.

Lemma stops_closes (rest : list ascii) : stops rest -> closes rest = true.
Proof.
  destruct rest as [| c r]; simpl; [reflexivity |].
  intros [-> | [-> | ->]]; reflexivity.
Qed.

Lemma take_digits_app_nil (cs ds rest : list ascii) :
  take_digits cs = (ds, []) ->
  match rest with c :: _ => is_digit c = false | [] => True end ->
  take_digits (cs ++ rest) = (ds, rest).
Proof.
  revert ds. induction cs as [| c cs IH]; intros ds H Hrest.
  - inversion H; subst. destruct rest as [| c r]; [reflexivity |].
    simpl. rewrite Hrest. reflexivity.
  - simpl in *. destruct (is_digit c); [| discriminate H].
    destruct (take_digits cs) as [ds' r'] eqn:E. inversion H; subst.
    rewrite (IH ds' eq_refl Hrest). reflexivity.
Qed.

Lemma take_digits_app_cons (cs ds r rest : list ascii) (c : ascii) :
  take_digits cs = (ds, c :: r) -> take_digits (cs ++ rest) = (ds, (c :: r) ++ rest)%list.
Proof.
  revert ds. induction cs as [| c0 cs IH]; intros ds H.
  - discriminate H.
  - simpl in *. destruct (is_digit c0) eqn:Ed.
    + destruct (take_digits cs) as [ds' r'] eqn:E. inversion H; subst.
      rewrite (IH ds' eq_refl). reflexivity.
    + inversion H; subst. reflexivity.
Qed.

Lemma take_digits_app (cs ds r rest : list ascii) :
  take_digits cs = (ds, r) ->
  match rest with c :: _ => is_digit c = false | [] => True end ->
  take_digits (cs ++ rest) = (ds, r ++ rest)%list.
Proof.
  intros H Hrest. destruct r as [| c r].
  - exact (take_digits_app_nil _ _ _ H Hrest).
  - exact (take_digits_app_cons _ _ _ _ _ H).
Qed.

Lemma take_exponent_app (cs rest : list ascii) (e : Z) :
  take_exponent cs = Some (e, []) -> closes rest = true ->
  take_exponent (cs ++ rest) = Some (e, rest).
Proof.
  intros H Hrest. apply closes_digit in Hrest.
  rewrite take_exponent_eq in *. destruct cs as [| c tl]; [discriminate H |].
  cbn [app]. change (starts_exponent (c :: tl ++ rest)) with (starts_exponent (c :: tl)).
  destruct (starts_exponent (c :: tl)); [| discriminate H].
  destruct tl as [| s r]; [discriminate H |].
  cbn [app].
  destruct (Ascii.eqb s "+"); [| destruct (Ascii.eqb s "-")].
  - destruct (take_digits r) as [[| d ds] r'] eqn:E; [discriminate H |].
    inversion H; subst. rewrite (take_digits_app_nil _ _ _ E Hrest). reflexivity.
  - destruct (take_digits r) as [[| d ds] r'] eqn:E; [discriminate H |].
    inversion H; subst. rewrite (take_digits_app_nil _ _ _ E Hrest). reflexivity.
  - destruct (take_digits (s :: r)) as [[| d ds] r'] eqn:E; [discriminate H |].
    inversion H; subst.
    change (s :: r ++ rest)%list with ((s :: r) ++ rest)%list.
    rewrite (take_digits_app_nil _ _ _ E Hrest). reflexivity.
Qed.

Lemma starts_exponent_app (c : ascii) (r rest : list ascii) :
  starts_exponent ((c :: r) ++ rest) = starts_exponent (c :: r).
Proof. reflexivity. Qed.

Lemma finish_number_app (neg : bool) (ip cs rest : list ascii) (x : number) :
  finish_number neg ip cs = Some (x, []) -> closes rest = true ->
  finish_number neg ip (cs ++ rest) = Some (x, rest).
Proof.
  intros H Hrest. rewrite finish_number_eq in *. cbv zeta in *.
  destruct cs as [| c tl].
  - cbn [app starts_exponent] in *. inversion H; subst.
    destruct rest as [| c r]; [reflexivity |].
    rewrite (closes_point _ _ Hrest), (closes_exponent _ Hrest). reflexivity.
  - cbn [app]. destruct (Ascii.eqb c ".").
    + destruct (take_digits tl) as [[| d fp] r] eqn:E; [discriminate H |].
      rewrite (take_digits_app _ _ _ rest E (closes_digit _ Hrest)).
      destruct r as [| c' r'].
      * cbn [starts_exponent app] in *. inversion H; subst.
        rewrite (closes_exponent _ Hrest). reflexivity.
      * rewrite starts_exponent_app. destruct (starts_exponent (c' :: r')).
        -- destruct (take_exponent (c' :: r')) as [[e r''] |] eqn:Ex; [| discriminate H].
           inversion H; subst. rewrite (take_exponent_app _ _ _ Ex Hrest). reflexivity.
        -- discriminate H.
    + change (c :: tl ++ rest)%list with ((c :: tl) ++ rest)%list.
      rewrite starts_exponent_app. destruct (starts_exponent (c :: tl)).
      * destruct (take_exponent (c :: tl)) as [[e r''] |] eqn:Ex; [| discriminate H].
        inversion H; subst. rewrite (take_exponent_app _ _ _ Ex Hrest). reflexivity.
      * discriminate H.
Qed.

Lemma json_number_app (cs rest : list ascii) (x : number) :
  json_number cs = Some (x, []) -> closes rest = true ->
  json_number (cs ++ rest) = Some (x, rest).
Proof.
  intros H Hrest. rewrite json_number_eq in *.
  assert (Hunsigned : forall neg cs1,
             match cs1 with
             | [] => None
             | c :: r =>
                 if Ascii.eqb c "0" then finish_number neg ["0"%char] r
                 else match take_digits cs1 with
                      | ([], _) => None
                      | (ip, r) => finish_number neg ip r
                      end
             end = Some (x, []) ->
             match (cs1 ++ rest)%list with
             | [] => None
             | c :: r =>
                 if Ascii.eqb c "0" then finish_number neg ["0"%char] r
                 else match take_digits (cs1 ++ rest) with
                      | ([], _) => None
                      | (ip, r) => finish_number neg ip r
                      end
             end = Some (x, rest)).
  { intros neg cs1 H1. destruct cs1 as [| c1 r1]; [discriminate H1 |].
    cbn [app]. destruct (Ascii.eqb c1 "0").
    - exact (finish_number_app _ _ _ _ _ H1 Hrest).
    - destruct (take_digits (c1 :: r1)) as [[| d ip] r'] eqn:E; [discriminate H1 |].
      change (c1 :: r1 ++ rest)%list with ((c1 :: r1) ++ rest)%list.
      rewrite (take_digits_app _ _ _ rest E (closes_digit _ Hrest)).
      exact (finish_number_app _ _ _ _ _ H1 Hrest). }
  destruct cs as [| c r]; [discriminate H |].
  cbn [app]. destruct (Ascii.eqb c "-").
  - exact (Hunsigned true r H).
  - exact (Hunsigned false (c :: r) H).
Qed.

Lemma json_number_first (c : ascii) (r : list ascii) (x : number) (r' : list ascii) :
  json_number (c :: r) = Some (x, r') -> Ascii.eqb c "-" = true \/ is_digit c = true.
Proof.
  rewrite json_number_eq. destruct (Ascii.eqb c "-") eqn:Em; [left; reflexivity |].
  intros H. right. destruct (Ascii.eqb c "0") eqn:E0.
  - apply Ascii.eqb_eq in E0. subst. reflexivity.
  - cbn [take_digits] in H. destruct (is_digit c); [reflexivity | discriminate H].
Qed.

(** A number token at the front of a text is read as a number value. *)
Lemma json_value_number (f : nat) (cs : list ascii) (x : number) (r : list ascii) :
  json_number cs = Some (x, r) -> json_value (S f) cs = Some (VNum x, r).
Proof.
  intros H. destruct cs as [| c r0]; [discriminate H |].
  pose proof (json_number_first _ _ _ _ H) as Hc.
  destruct c as [[] [] [] [] [] [] [] []];
    try (exfalso; destruct Hc as [Hc | Hc]; discriminate Hc);
    match goal with
    | |- json_value _ ?t = _ =>
        change (json_value (S f) t)
          with (match json_number t with
                | Some (x, r') => Some (VNum x, r')
                | None => None
                end)
    end; rewrite H; reflexivity.
Qed.

(** ** Values *)

Lemma value_induction (P : value -> Prop) :
  P VUndefined -> P VNull -> (forall b, P (VBool b)) -> (forall x, P (VNum x)) ->
  (forall s, P (VStr s)) ->
  (forall l, Forall P l -> P (VArr l)) ->
  (forall fields, Forall (fun kv => P (snd kv)) fields -> P (VObj fields)) ->
  forall v, P v.
Proof.
  intros Hu Hn Hb Hx Hs Ha Ho. fix IH 1. intros v.
  destruct v as [| | b | x | s | l | fields].
  - exact Hu.
  - exact Hn.
  - apply Hb.
  - apply Hx.
  - apply Hs.
  - apply Ha. induction l as [| a l IHl]; constructor; [apply IH | exact IHl].
  - apply Ho. induction fields as [| [k a] l IHl]; constructor; [apply IH | exact IHl].
Qed.

Lemma stringify_shaped (v : value) :
  json_shaped v = true -> JSON_stringify v = Some (element_text v).
Proof. destruct v; try discriminate; intros _; reflexivity. Qed.

Lemma element_text_array (l : list value) :
  element_text (VArr l) = "[" ++ join "," (map element_text l) ++ "]".
Proof. reflexivity. Qed.

Lemma element_text_object (fields : list (string * value)) :
  forallb (fun kv => json_shaped (snd kv)) fields = true ->
  element_text (VObj fields) = "{" ++ join "," (map member_text fields) ++ "}".
Proof.
  intros H. unfold element_text. cbn [JSON_stringify]. do 3 f_equal.
  induction fields as [| [k v] l IH]; [reflexivity |].
  cbn [forallb snd] in H. apply andb_true_iff in H as [Hv Hl].
  cbn [flat_map map snd fst]. rewrite (stringify_shaped v Hv), IH by exact Hl. reflexivity.
Qed.

Lemma reads_back_number (x : number) :
  reads_back x = true ->
  element_text (VNum x) = Number_toString x /\
  json_number (chars (Number_toString x)) = Some (x, []).
Proof.
  unfold reads_back. intros H. apply andb_true_iff in H as [Hfin H].
  split; [unfold element_text; cbn [JSON_stringify]; rewrite Hfin; reflexivity |].
  destruct (json_number (chars (Number_toString x))) as [[y [| c r]] |]; try discriminate H.
  apply FloatAxioms.Leibniz.eqb_spec in H. subst. reflexivity.
Qed.

Lemma opens_number (c : ascii) :
  Ascii.eqb c "-" = true \/ is_digit c = true -> opens c = true.
Proof.
  intros H. destruct c as [[] [] [] [] [] [] [] []]; try reflexivity;
    exfalso; destruct H as [H | H]; discriminate H.
Qed.

(** Every printed value starts with a character that opens a value. *)
Lemma element_text_opens (v : value) :
  json_shaped v = true ->
  exists c cs, chars (element_text v) = c :: cs /\ opens c = true.
Proof.
  destruct v as [| | [|] | x | s | l | fields]; try discriminate; intros H.
  - eexists _, _. split; reflexivity.
  - eexists _, _. split; reflexivity.
  - eexists _, _. split; reflexivity.
  - destruct (reads_back_number x H) as [-> Hnum].
    destruct (chars (Number_toString x)) as [| c cs]; [discriminate Hnum |].
    exists c, cs. split; [reflexivity |].
    apply opens_number. exact (json_number_first _ _ _ _ Hnum).
  - eexists _, _. split; [unfold element_text; cbn [JSON_stringify]; apply quote_chars |].
    reflexivity.
  - eexists _, _. rewrite element_text_array. split; reflexivity.
  - cbn [json_shaped] in H. apply andb_true_iff in H as [_ H].
    eexists _, _. rewrite element_text_object by exact H. split; reflexivity.
Qed.

Lemma open_array (f : nat) (c : ascii) (cs : list ascii) :
  opens c = true -> json_value (S f) ("["%char :: c :: cs) = json_elements f [] (c :: cs).
Proof.
  intros H. destruct c as [[] [] [] [] [] [] [] []]; try discriminate H; reflexivity.
Qed.

Lemma json_elements_step (g : nat) (acc : list value) (cs : list ascii) :
  json_elements (S g) acc cs
  = match json_value g cs with
    | Some (v, r) =>
        match skip_ws r with
        | ","%char :: r' => json_elements g (v :: acc) r'
        | "]"%char :: r' => Some (VArr (rev (v :: acc)), r')
        | _ => None
        end
    | None => None
    end.
Proof. reflexivity. Qed.

Lemma json_members_step (g : nat) (acc : list (string * value)) (r : list ascii) :
  json_members (S g) acc (dquote :: r)
  = match json_string (S (List.length r)) [] r with
    | Some (k, r1) =>
        match skip_ws r1 with
        | ":"%char :: r2 =>
            match json_value g r2 with
            | Some (v, r3) =>
                match skip_ws r3 with
                | ","%char :: r4 => json_members g (obj_set k v acc) r4
                | "}"%char :: r4 => Some (VObj (obj_set k v acc), r4)
                | _ => None
                end
            | None => None
            end
        | _ => None
        end
    | None => None
    end.
Proof. reflexivity. Qed.

Lemma length_join_cons (x y : string) (l : list string) :
  String.length (join "," (x :: y :: l))
  = (String.length x + 1 + String.length (join "," (y :: l)))%nat.
Proof.
  change (join "," (x :: y :: l)) with (x ++ "," ++ join "," (y :: l)).
  rewrite !length_append. simpl. lia.
Qed.

Lemma chars_join_cons (x y : string) (l : list string) :
  chars (join "," (x :: y :: l)) = (chars x ++ ","%char :: chars (join "," (y :: l)))%list.
Proof.
  change (join "," (x :: y :: l)) with (x ++ "," ++ join "," (y :: l)).
  rewrite !chars_append. reflexivity.
Qed.

(** The elements of a printed array, read back one after the other. *)
Lemma json_elements_printed (l : list value) :
  (forall v, In v l ->
     forall f rest, (String.length (element_text v) <= f)%nat -> stops rest ->
       json_value f (chars (element_text v) ++ rest) = Some (v, rest)) ->
  l <> [] ->
  forall g acc rest,
    (String.length (join "," (map element_text l)) < g)%nat ->
    json_elements g acc (chars (join "," (map element_text l)) ++ "]"%char :: rest)
    = Some (VArr (rev acc ++ l), rest).
Proof.
  induction l as [| v l IH]; intros Hall Hne g acc rest Hg; [contradiction |].
  destruct g as [| g]; [lia |]. rewrite json_elements_step.
  destruct l as [| v2 l].
  - cbn [map join] in *.
    rewrite (Hall v (or_introl eq_refl) g ("]"%char :: rest)); [| lia | simpl; tauto].
    cbn [skip_ws json_ws]. reflexivity.
  - cbn [map] in *. rewrite length_join_cons in Hg. rewrite chars_join_cons, <- app_assoc.
    cbn [app].
    rewrite (Hall v (or_introl eq_refl) g); [| lia | simpl; tauto].
    change (skip_ws (","%char :: (chars (join "," (element_text v2 :: map element_text l))
                                  ++ "]"%char :: rest)%list))
      with (","%char :: (chars (join "," (element_text v2 :: map element_text l))
                         ++ "]"%char :: rest)%list).
    cbv iota. rewrite IH.
    + cbn [rev]. rewrite <- app_assoc. reflexivity.
    + intros x Hx. apply Hall. right. exact Hx.
    + discriminate.
    + cbn [map]. lia.
Qed.

(** *** Own keys *)

Lemma own_key_order_prefix (a b : list string) :
  own_key_order (a ++ b) = true -> own_key_order a = true.
Proof.
  induction a as [| k a IH]; [reflexivity |].
  cbn [app own_key_order]. intros H.
  apply andb_true_iff in H as [H Hrest]. apply andb_true_iff in H as [Hfresh Hord].
  rewrite existsb_app, negb_orb in Hfresh. apply andb_true_iff in Hfresh as [Hfresh _].
  rewrite forallb_app in Hord. apply andb_true_iff in Hord as [Hord _].
  rewrite Hfresh, Hord, (IH Hrest). reflexivity.
Qed.

Lemma lookup_fresh (k : string) (v : value) (acc : list (string * value)) :
  own_key_order (map fst (acc ++ [(k, v)])) = true -> lookup k acc = None.
Proof.
  induction acc as [| [k' v'] acc IH]; [reflexivity |].
  cbn [app map fst own_key_order lookup]. intros H.
  apply andb_true_iff in H as [H Hrest]. apply andb_true_iff in H as [Hfresh _].
  rewrite map_app, existsb_app, negb_orb in Hfresh.
  apply andb_true_iff in Hfresh as [_ Hfresh]. cbn in Hfresh.
  rewrite orb_false_r in Hfresh. apply negb_true_iff in Hfresh.
  rewrite String.eqb_sym, Hfresh. apply IH. exact Hrest.
Qed.

Lemma insert_index_last (i : Z) (k : string) (v : value) (acc : list (string * value)) :
  array_index k = Some i -> own_key_order (map fst (acc ++ [(k, v)])) = true ->
  insert_index i k v acc = (acc ++ [(k, v)])%list.
Proof.
  intros Hk. induction acc as [| [k' v'] acc IH]; [reflexivity |].
  cbn [app map fst own_key_order insert_index]. intros H.
  apply andb_true_iff in H as [H Hrest]. apply andb_true_iff in H as [_ Hord].
  rewrite map_app, forallb_app in Hord. apply andb_true_iff in Hord as [_ Hord].
  cbn in Hord. rewrite Hk, andb_true_r in Hord.
  destruct (array_index k') as [j |]; [| discriminate Hord].
  rewrite Hord, (IH Hrest). reflexivity.
Qed.

(** A new key that respects the own-key order goes last. *)
Lemma obj_set_last (k : string) (v : value) (acc : list (string * value)) :
  own_key_order (map fst (acc ++ [(k, v)])) = true ->
  obj_set k v acc = (acc ++ [(k, v)])%list.
Proof.
  intros H. unfold obj_set. rewrite (lookup_fresh k v acc H).
  destruct (array_index k) as [i |] eqn:E; [| reflexivity].
  exact (insert_index_last i k v acc E H).
Qed.

Lemma length_quote_chars (s : string) (rest : list ascii) :
  (List.length (chars s) < S (List.length (flat_map escape_char (chars s) ++ rest)))%nat.
Proof. rewrite length_app. pose proof (length_flat_map_escape (chars s)). lia. Qed.

(** The members of a printed object, read back one after the other. *)
Lemma json_members_printed (fields : list (string * value)) :
  (forall kv, In kv fields ->
     forall f rest, (String.length (element_text (snd kv)) <= f)%nat -> stops rest ->
       json_value f (chars (element_text (snd kv)) ++ rest) = Some (snd kv, rest)) ->
  fields <> [] ->
  forall g acc rest,
    own_key_order (map fst (acc ++ fields)) = true ->
    (String.length (join "," (map member_text fields)) < g)%nat ->
    json_members g acc (chars (join "," (map member_text fields)) ++ "}"%char :: rest)
    = Some (VObj (acc ++ fields), rest).
Proof.
  induction fields as [| [k v] l IH]; intros Hall Hne g acc rest Hkeys Hg; [contradiction |].
  destruct g as [| g]; [lia |].
  assert (Hset : obj_set k v acc = (acc ++ [(k, v)])%list).
  { apply obj_set_last. replace (acc ++ (k, v) :: l)%list with ((acc ++ [(k, v)]) ++ l)%list in Hkeys
      by (rewrite <- app_assoc; reflexivity).
    rewrite map_app in Hkeys. exact (own_key_order_prefix _ _ Hkeys). }
  assert (Hmember : forall more,
             (chars (member_text (k, v)) ++ more)%list
             = (dquote :: flat_map escape_char (chars k)
                  ++ dquote :: ":"%char :: chars (element_text v) ++ more)%list).
  { intros more. unfold member_text. cbn [fst snd].
    rewrite chars_append, quote_chars, chars_append. cbn [app chars list_ascii_of_string].
    rewrite <- !app_assoc. reflexivity. }
  assert (Hv : forall f rest,
             (String.length (element_text v) <= f)%nat -> stops rest ->
             json_value f (chars (element_text v) ++ rest) = Some (v, rest))
    by exact (Hall (k, v) (or_introl eq_refl)).
  destruct l as [| kv2 l].
  - cbn [map join] in *. rewrite Hmember, json_members_step.
    rewrite json_string_quoted by apply length_quote_chars.
    cbn [rev app]. rewrite text_chars.
    change (skip_ws (":"%char :: (chars (element_text v) ++ "}"%char :: rest)%list))
      with (":"%char :: (chars (element_text v) ++ "}"%char :: rest)%list).
    cbv iota.
    rewrite (Hv g ("}"%char :: rest));
      [| unfold member_text in Hg; cbn [fst snd] in Hg; rewrite !length_append in Hg; lia
       | simpl; tauto].
    cbn [skip_ws json_ws snd]. rewrite Hset. reflexivity.
  - cbn [map] in *. rewrite length_join_cons in Hg. rewrite chars_join_cons, <- app_assoc.
    rewrite Hmember, json_members_step.
    rewrite json_string_quoted by apply length_quote_chars.
    cbn [rev app]. rewrite text_chars.
    match goal with
    | |- context [skip_ws (":"%char :: ?t)] =>
        change (skip_ws (":"%char :: t)) with (":"%char :: t)
    end.
    cbv iota.
    rewrite (Hv g);
      [| unfold member_text in Hg; cbn [fst snd] in Hg; rewrite !length_append in Hg; lia
       | simpl; tauto].
    match goal with
    | |- context [skip_ws (","%char :: ?t)] =>
        change (skip_ws (","%char :: t)) with (","%char :: t)
    end.
    cbv iota. cbn [snd]. rewrite Hset.
    rewrite IH.
    + rewrite <- app_assoc. reflexivity.
    + intros x Hx. apply Hall. right. exact Hx.
    + discriminate.
    + rewrite <- app_assoc. exact Hkeys.
    + cbn [map]. lia.
Qed.

Lemma chars_join_first (x : string) (l : list string) (c : ascii) (cs : list ascii) :
  chars x = c :: cs -> exists cs', chars (join "," (x :: l)) = c :: cs'.
Proof.
  intros H. destruct l as [| y l].
  - exists cs. exact H.
  - rewrite chars_join_cons, H. eexists. reflexivity.
Qed.

Lemma open_object (f : nat) (cs : list ascii) :
  json_value (S f) ("{"%char :: dquote :: cs) = json_members f [] (dquote :: cs).
Proof. reflexivity. Qed.

(** A printed value at the front of a text is read back as the value. *)
Lemma json_value_printed (v : value) :
  json_shaped v = true ->
  forall f rest, (String.length (element_text v) <= f)%nat -> stops rest ->
    json_value f (chars (element_text v) ++ rest) = Some (v, rest).
Proof.
  induction v as [| | b | x | s | l IH | fields IH] using value_induction;
    intros Hshape f rest Hf Hrest.
  - discriminate Hshape.
  - destruct f as [| f]; [simpl in Hf; lia | reflexivity].
  - destruct f as [| f]; [destruct b; simpl in Hf; lia | destruct b; reflexivity].
  - destruct (reads_back_number x Hshape) as [Htext Hnum]. rewrite Htext in *.
    destruct f as [| f].
    { destruct (Number_toString x); [discriminate Hnum | simpl in Hf; lia]. }
    apply json_value_number. apply json_number_app; [exact Hnum | apply stops_closes; exact Hrest].
  - destruct f as [| f]; [simpl in Hf; lia |]. apply json_value_string.
  - cbn [json_shaped] in Hshape. rewrite element_text_array in *.
    rewrite length_append in Hf. cbn [String.length] in Hf.
    destruct f as [| f]; [lia |].
    rewrite chars_append, chars_append. cbn [chars list_ascii_of_string app].
    rewrite <- app_assoc. cbn [app].
    destruct l as [| v1 l]; [reflexivity |].
    assert (Hall : forall v, In v (v1 :: l) ->
               forall f rest, (String.length (element_text v) <= f)%nat -> stops rest ->
                 json_value f (chars (element_text v) ++ rest) = Some (v, rest)).
    { intros v Hv. rewrite Forall_forall in IH. apply (IH v Hv).
      rewrite forallb_forall in Hshape. exact (Hshape v Hv). }
    cbn [forallb] in Hshape. apply andb_true_iff in Hshape as [H1 _].
    destruct (element_text_opens v1 H1) as (c & cs & Hc & Hopen).
    destruct (chars_join_first _ (map element_text l) c cs Hc) as [cs' Hjoin].
    cbn [map]. rewrite Hjoin. cbn [app]. rewrite (open_array f c _ Hopen).
    change (c :: (cs' ++ "]"%char :: rest)%list) with ((c :: cs') ++ "]"%char :: rest)%list.
    rewrite <- Hjoin.
    change (element_text v1 :: map element_text l) with (map element_text (v1 :: l)).
    rewrite (json_elements_printed (v1 :: l) Hall); [reflexivity | discriminate |].
    rewrite length_append in Hf. cbn [String.length] in Hf. lia.
  - cbn [json_shaped] in Hshape. apply andb_true_iff in Hshape as [Hkeys Hshape].
    rewrite element_text_object in * by exact Hshape.
    rewrite length_append in Hf. cbn [String.length] in Hf.
    destruct f as [| f]; [lia |].
    rewrite chars_append, chars_append. cbn [chars list_ascii_of_string app].
    rewrite <- app_assoc. cbn [app].
    destruct fields as [| [k1 v1] l]; [reflexivity |].
    assert (Hall : forall kv, In kv ((k1, v1) :: l) ->
               forall f rest, (String.length (element_text (snd kv)) <= f)%nat -> stops rest ->
                 json_value f (chars (element_text (snd kv)) ++ rest) = Some (snd kv, rest)).
    { intros kv Hkv. rewrite Forall_forall in IH. apply (IH kv Hkv).
      rewrite forallb_forall in Hshape. exact (Hshape kv Hkv). }
    assert (Hjoin : exists cs', chars (join "," (map member_text ((k1, v1) :: l))) = dquote :: cs').
    { cbn [map]. apply (chars_join_first _ _ dquote (flat_map escape_char (chars k1) ++ dquote
                         :: chars (":" ++ element_text v1))%list).
      unfold member_text. cbn [fst snd]. rewrite chars_append, quote_chars.
      cbn [app]. rewrite <- app_assoc. reflexivity. }
    destruct Hjoin as [cs' Hjoin]. rewrite Hjoin. cbn [app]. rewrite open_object.
    change (dquote :: (cs' ++ "}"%char :: rest)%list) with ((dquote :: cs') ++ "}"%char :: rest)%list.
    rewrite <- Hjoin.
    rewrite (json_members_printed ((k1, v1) :: l) Hall); [reflexivity | discriminate | exact Hkeys |].
    rewrite length_append in Hf. cbn [String.length] in Hf. lia.
Qed.

Lemma element_text_parses (v : value) :
  json_shaped v = true -> JSON_parse (element_text v) = Ok v.
Proof.
  intros Hshape. unfold JSON_parse.
  pose proof (json_value_printed v Hshape (2 * List.length (chars (element_text v)) + 2) []) as H.
  rewrite app_nil_r in H. rewrite H; [reflexivity | rewrite length_chars; lia | exact I].
Qed.

Lemma all_from_spec (n : nat) (z : Z) (p : Z -> bool) :
  all_from n z p = true -> forall i, z <= i < z + Z.of_nat n -> p i = true.
Proof.
  revert z. induction n as [| n IH]; intros z H i Hi; [lia |].
  cbn [all_from] in H. apply andb_true_iff in H as [Hz Hrest].
  destruct (Z.eq_dec i z) as [-> | Hne]; [exact Hz |].
  apply (IH (z + 1) Hrest). lia.
Qed.

Lemma small_numbers_read_back :
  all_from (Z.to_nat 1000) 0 (fun n => reads_back (float_of_Z n)) = true.
Proof. vm_cast_no_check (eq_refl true). Qed.

Lemma or_else_text_or (v : value) (d : string) :
  optional_text v = true -> or_else v (VStr d) = VStr (text_or v d).
Proof.
  intros H. unfold text_or. destruct (or_else_text v d H) as [s ->]. reflexivity.
Qed.

Lemma or_else_number_finite (v : value) :
  optional_number v = true -> exists x, or_else v (VNum 0) = VNum x /\ is_nan x = false.
Proof.
  destruct v; try discriminate; intros _; unfold or_else; cbn [truthy].
  - exists 0%float. split; reflexivity.
  - exists 0%float. split; reflexivity.
  - destruct (is_nan x) eqn:E.
    + rewrite orb_true_r. exists 0%float. split; reflexivity.
    + rewrite orb_false_r. destruct (PrimFloat.eqb x 0); cbn [negb].
      * exists 0%float. split; reflexivity.
      * exists x. split; [reflexivity | exact E].
Qed.

(** The row a valid payload is stored as. *)
Lemma post_orders_stored_row (env : environment) (req_body : value) (w w' : world)
      (r : response) :
  valid_payload req_body = true ->
  post_orders env req_body w = (Ok r, w') ->
  exists stored,
    orders (database w') = (orders (database w) ++ [stored])%list /\
    row_id stored = next_id (database w) /\
    business_id stored = text_or (field "businessId" req_body) "default" /\
    order_number stored = generate_orderNumber (clock env (ticks w)) /\
    customer_name stored = Some (text_or (field "customerName" req_body) "Guest") /\
    customer_phone stored = Some (text_or (field "customerPhone" req_body) "") /\
    items stored = element_text (parsed_items (field "items" req_body)) /\
    special_instructions stored = Some (text_or (field "specialInstructions" req_body) "") /\
    sql_value (total stored) = or_else (field "total" req_body) (VNum 0) /\
    status stored = Some "new" /\
    created_at stored = CURRENT_TIMESTAMP (clock env (S (ticks w))).
Proof.
  intros Hvalid Hrun.
  destruct (post_orders_valid env req_body w Hvalid) as (w0 & r0 & Hrun0 & _ & _ & _ & Hwf).
  rewrite Hrun in Hrun0. inversion Hrun0; subst r w0; clear Hrun0.
  apply post_orders_200 in Hrun; [| reflexivity].
  apply post_orders_try_ok in Hrun
    as (b & c & p & i & s & t & w1 & key & w2 & Hb & Hc & Hp & Hi & Hs & Ht
        & Hparse & Hins & Hprint & _).
  destruct req_body as [| | | | | | fields]; try discriminate Hvalid.
  rewrite get_object in Hb, Hc, Hp, Hi, Hs, Ht.
  inversion Hb; subst b. inversion Hc; subst c. inversion Hp; subst p.
  inversion Hi; subst i. inversion Hs; subst s. inversion Ht; subst t.
  clear Hb Hc Hp Hi Hs Ht.
  set (body := VObj fields) in *.
  unfold valid_payload in Hvalid. fold body in Hvalid.
  apply andb_true_iff in Hvalid as [H Hitems].
  apply andb_true_iff in H as [H Htotal].
  apply andb_true_iff in H as [H Hs].
  apply andb_true_iff in H as [H Hp].
  apply andb_true_iff in H as [Hb Hc].
  destruct (parse_items_spec (field "items" body)
              (logged_world (Console_log "Received order:" (A_value body)) w))
    as (w1' & Hspec & Hdb1 & Hticks1 & _).
  rewrite Hspec in Hparse. inversion Hparse; subst w1'; clear Hparse Hspec.
  simpl in Hdb1, Hticks1.
  apply frames_printOrder in Hprint. simpl in Hprint.
  apply insert_run_ok in Hins as (vs & st & Hvs & Hrow & ->).
  simpl in Hprint, Hrow. rewrite Hprint. rewrite Hticks1, Hdb1 in Hrow.
  unfold insert_arguments in Hvs. rewrite Hticks1 in Hvs.
  rewrite (or_else_text_or _ _ Hb), (or_else_text_or _ _ Hc), (or_else_text_or _ _ Hp),
    (or_else_text_or _ _ Hs) in Hvs.
  destruct (or_else_number_finite _ Htotal) as (x & Ex & Hnan). rewrite Ex in Hvs.
  destruct (parsed_items (field "items" body)) as [| | | | | l |] eqn:Eparsed;
    try discriminate Hwf.
  assert (Hj : stringified (VArr l) = VStr (element_text (VArr l))) by reflexivity.
  rewrite Hj in Hvs.
  cbn [bind_statement bind_arguments bind_one bind_value result_bind Nat.pred app] in Hvs.
  rewrite Hnan in Hvs. inversion Hvs; subst vs; clear Hvs.
  cbn [insert_row text_column not_null result_bind real_column] in Hrow.
  inversion Hrow; subst st key; clear Hrow.
  eexists. cbn [orders row_id business_id order_number customer_name customer_phone items
                special_instructions status created_at total sql_value].
  rewrite Ex. repeat split.
Qed.

Lemma Forall2_In_l {A B} (R : A -> B -> Prop) (l : list A) (l' : list B) (a : A) :
  Forall2 R l l' -> In a l -> exists b, In b l' /\ R a b.
Proof.
  intros H. induction H as [| x y l l' Hxy _ IH]; intros Hin; [contradiction |].
  destruct Hin as [-> | Hin].
  - exists y. split; [left; reflexivity | exact Hxy].
  - destruct (IH Hin) as (b & Hb & Hab). exists b. split; [right; exact Hb | exact Hab].
Qed.

(** The listing of a table whose items texts are all JSON. *)
Lemma get_orders_listable (env : environment) (b s : option string) (w : world) :
  listable (database w) ->
  exists os,
    get_orders env (query b s) w = (Ok {| http_status := 200; json := VArr os |}, w) /\
    Forall2 (fun row o => format_row row = Ok o)
      (firstn 100 (order_by_created_at_desc (filter (matches b s) (orders (database w))))) os.
Proof.
  intros Hjson.
  set (rows := firstn 100 (order_by_created_at_desc
                             (filter (matches b s) (orders (database w))))).
  destruct (result_map_ok format_row rows) as [os Hos].
  { intros r Hr. unfold rows in Hr. apply in_firstn in Hr.
    apply (Permutation_in _ (order_by_perm _)) in Hr. apply filter_In in Hr as [Hr _].
    destruct (Hjson r Hr) as [v Hv]. unfold format_row. rewrite Hv. eexists. reflexivity. }
  exists os. split.
  - rewrite get_orders_query. fold rows. rewrite Hos. reflexivity.
  - apply result_map_Forall2. exact Hos.
Qed.

Lemma listable_posted (env : environment) (req_body : value) (w : world) :
  valid_payload req_body = true ->
  json_shaped (parsed_items (field "items" req_body)) = true ->
  listable (database w) -> listable (database (snd (post_orders env req_body w))).
Proof.
  intros Hvalid Hshape Hlist.
  destruct (post_orders_total env req_body w) as (r & w' & Hrun). rewrite Hrun. cbn [snd].
  destruct (post_orders_stored_row env req_body w w' r Hvalid Hrun)
    as (stored & Hrows & _ & _ & _ & _ & _ & Hitems & _).
  intros x Hx. rewrite Hrows in Hx. apply in_app_or in Hx as [Hx | [<- | []]].
  - exact (Hlist x Hx).
  - rewrite Hitems. eexists. apply element_text_parses. exact Hshape.
Qed.

Lemma listable_update_status (cv : conversions) (s k : sqlval) (st : store) :
  listable st -> listable (update_status cv s k st).
Proof.
  intros Hlist x Hx. unfold update_status in Hx. simpl in Hx.
  apply in_map_iff in Hx as (r & <- & Hr).
  destruct (Hlist r Hr) as [v Hv]. exists v.
  destruct (id_equals cv (row_id r) k); exact Hv.
Qed.

Lemma serve_listable (env : environment) (c : call) (w : world) :
  well_formed_call c -> listable (database w) -> listable (database (snd (serve env c w))).
Proof.
  intros Hc Hlist. destruct c as [req_body | req_query | id req_body]; simpl.
  - destruct Hc as [Hvalid Hshape]. apply listable_posted; assumption.
  - rewrite get_orders_world. exact Hlist.
  - destruct (patch_order_world env id req_body w) as [-> | (s & k & ->)].
    + exact Hlist.
    + apply listable_update_status. exact Hlist.
Qed.

(** ** Missing fields *)

Lemma get_defined (v : value) (k k' : string) (x : value) :
  get v k = Ok x -> exists y, get v k' = Ok y.
Proof.
  destruct v; try discriminate; intros _; unfold get;
    repeat match goal with
           | |- context [match ?t with _ => _ end] => destruct t
           | |- context [if ?t then _ else _] => destruct t
           end; eexists; reflexivity.
Qed.

Lemma field_get (v : value) (k : string) (x : value) : get v k = Ok x -> field k v = x.
Proof. intros H. unfold field. rewrite H. reflexivity. Qed.

(** The insert with [NULL] for the items: the constraint of the column
    refuses it. *)
Lemma insert_run_without_items (env : environment) (w : world) (b n c p s : string)
      (x : number) :
  insert_run env [VStr b; VStr n; VStr c; VStr p; VUndefined; VStr s; VNum x] w
  = (Throw (SqliteError "NOT NULL constraint failed: orders.items"), ticked w).
Proof.
  unfold insert_run, bind, lift, now.
  cbn [bind_statement bind_arguments bind_one bind_value bind_array result_bind Nat.pred app].
  cbn [insert_row text_column not_null result_bind database ticks trace]. reflexivity.
Qed.

Lemma update_status_rows_null (cv : conversions) (id : string) (st : store) :
  Forall2 (fun r r' => if identifies cv id r
                       then same_but_status r r' /\ status r' = None
                       else r' = r)
          (orders st) (orders (update_status cv SqlNull (SqlText id) st)).
Proof.
  unfold update_status. simpl.
  induction (orders st) as [| r l IH]; simpl; constructor; [| exact IH].
  unfold identifies, id_equals.
  destruct (integer_of_text cv id) as [z |]; [| reflexivity].
  destruct (z =? row_id r); [| reflexivity].
  unfold same_but_status. simpl. repeat split.
Qed.

(** ** A status update, then the listing *)

Lemma length_filter_le {A} (f : A -> bool) (l : list A) :
  (List.length (filter f l) <= List.length l)%nat.
Proof. induction l as [| a l IH]; simpl; [lia |]. destruct (f a); simpl; lia. Qed.

Lemma four_digits_pad : all_from (Z.to_nat 10000) 0
                          (fun n => (pad_zeros 4 (decimal n) =? four_digits n)%string) = true.
Proof. vm_cast_no_check (eq_refl true). Qed.

Lemma two_digits_pad : all_from (Z.to_nat 100) 0
                         (fun n => (two n =? two_digits n)%string) = true.
Proof. vm_compute. reflexivity. Qed.

Lemma pad_four (n : Z) : 0 <= n <= 9999 -> pad_zeros 4 (decimal n) = four_digits n.
Proof.
  intros H. apply String.eqb_eq.
  apply (all_from_spec _ _ _ four_digits_pad n). rewrite Z2Nat.id; lia.
Qed.

Lemma pad_two (n : Z) : 0 <= n <= 99 -> two n = two_digits n.
Proof.
  intros H. apply String.eqb_eq.
  apply (all_from_spec _ _ _ two_digits_pad n). rewrite Z2Nat.id; lia.
Qed.

(** *** The calendar, one era of 400 years at a time *)

Lemma civil_from_days_era (days : Z) :
  civil_from_days days
  = let '(y, m, d) := civil_from_days ((days + 719468) mod 146097 - 719468) in
    (y + 400 * ((days + 719468) / 146097), m, d).
Proof.
  unfold civil_from_days. cbv zeta.
  set (z := days + 719468). set (era := z / 146097). set (doe := z mod 146097).
  assert (Hdoe : 0 <= doe < 146097) by (apply Z.mod_pos_bound; lia).
  replace (doe - 719468 + 719468) with doe by lia.
  rewrite (Z.div_small doe 146097) by exact Hdoe.
  replace (doe - 0 * 146097) with doe by lia.
  replace (z - era * 146097) with doe by (unfold doe, era; rewrite Z.mod_eq; lia).
  f_equal. f_equal. lia.
Qed.

Lemma era_ascends : ascending (Z.to_nat 146097) 0 300 = true.
Proof. vm_cast_no_check (eq_refl true). Qed.

Lemma ascending_spec (n : nat) (doe prev : Z) :
  ascending n doe prev = true ->
  prev <= 4000229 /\
  forall i, doe <= i < doe + Z.of_nat n ->
    prev < era_key i <= 4000229 /\
    forall j, i < j < doe + Z.of_nat n -> era_key i < era_key j.
Proof.
  revert doe prev. induction n as [| n IH]; intros doe prev H.
  - cbn [ascending] in H. apply Z.leb_le in H. split; [exact H | intros i Hi; lia].
  - cbn [ascending] in H. apply andb_true_iff in H as [Hprev Hrest].
    apply Z.ltb_lt in Hprev. destruct (IH _ _ Hrest) as [Hmax Hall].
    split; [lia |]. intros i Hi.
    destruct (Z.eq_dec i doe) as [-> | Hne].
    + split; [lia |]. intros j Hj. destruct (Hall j) as [Hj1 _]; lia.
    + destruct (Hall i) as [Hi1 Hi2]; [lia |]. split; [lia |].
      intros j Hj. apply Hi2. lia.
Qed.

Lemma era_key_facts (doe : Z) :
  0 <= doe < 146097 ->
  exists y m d,
    civil_from_days (doe - 719468) = (y, m, d) /\
    0 <= y /\ 1 <= m <= 12 /\ 1 <= d <= 31 /\
    era_key doe = y * 10000 + m * 100 + d /\ 301 <= era_key doe <= 4000229.
Proof.
  intros Hdoe. destruct (ascending_spec _ _ _ era_ascends) as [_ Hall].
  destruct (Hall doe) as [Hkey _]; [rewrite Z2Nat.id; lia |].
  unfold era_key in *. destruct (civil_from_days (doe - 719468)) as [[y m] d].
  exists y, m, d. split; [reflexivity |].
  destruct ((0 <=? y) && (1 <=? m) && (m <=? 12) && (1 <=? d) && (d <=? 31)) eqn:E; [| lia].
  repeat (apply andb_true_iff in E as [E ?]).
  repeat match goal with
         | H : (_ <=? _) = true |- _ => apply Z.leb_le in H
         end.
  repeat split; lia.
Qed.

Lemma era_key_mono (i j : Z) : 0 <= i -> i < j -> j < 146097 -> era_key i < era_key j.
Proof.
  intros Hi Hij Hj. destruct (ascending_spec _ _ _ era_ascends) as [_ Hall].
  destruct (Hall i) as [_ Hmono]; [rewrite Z2Nat.id; lia |].
  apply Hmono. rewrite Z2Nat.id; lia.
Qed.

(** A date is the date of its day of the era, 400 years for each era on. *)
Lemma date_number_era (days : Z) :
  date_number days
  = era_key ((days + 719468) mod 146097) + 4000000 * ((days + 719468) / 146097).
Proof.
  unfold date_number. rewrite civil_from_days_era.
  destruct (era_key_facts ((days + 719468) mod 146097)) as (y & m & d & -> & _ & _ & _ & -> & _);
    [apply Z.mod_pos_bound; lia |].
  lia.
Qed.

Lemma civil_from_days_bounds (days : Z) :
  exists y m d, civil_from_days days = (y, m, d) /\ 1 <= m <= 12 /\ 1 <= d <= 31.
Proof.
  rewrite civil_from_days_era.
  destruct (era_key_facts ((days + 719468) mod 146097)) as (y & m & d & -> & _ & Hm & Hd & _);
    [apply Z.mod_pos_bound; lia |].
  eexists _, m, d. split; [reflexivity |]. split; assumption.
Qed.

(** Later days have later dates. *)
Lemma date_number_mono (a b : Z) : a < b -> date_number a < date_number b.
Proof.
  intros Hab. rewrite !date_number_era.
  set (za := a + 719468). set (zb := b + 719468).
  assert (Hz : za < zb) by (unfold za, zb; lia).
  pose proof (Z.mod_pos_bound za 146097 ltac:(lia)) as Ha.
  pose proof (Z.mod_pos_bound zb 146097 ltac:(lia)) as Hb.
  destruct (era_key_facts (za mod 146097) Ha) as (_ & _ & _ & _ & _ & _ & _ & _ & Hka).
  destruct (era_key_facts (zb mod 146097) Hb) as (_ & _ & _ & _ & _ & _ & _ & _ & Hkb).
  assert (Hera : za / 146097 <= zb / 146097) by (apply Z.div_le_mono; lia).
  destruct (Z.eq_dec (za / 146097) (zb / 146097)) as [Heq | Hne].
  - rewrite Heq.
    assert (Hmod : za mod 146097 < zb mod 146097).
    { rewrite !Z.mod_eq by lia. rewrite Heq. lia. }
    pose proof (era_key_mono _ _ (proj1 Ha) Hmod (proj2 Hb)). lia.
  - lia.
Qed.

(** *** Comparing fixed-width numerals *)

Lemma compare_digit (a b : Z) (s t : string) :
  0 <= a <= 9 -> 0 <= b <= 9 ->
  String.compare (String (digit_char a) s) (String (digit_char b) t)
  = match a ?= b with
    | Eq => String.compare s t
    | Lt => Lt
    | Gt => Gt
    end.
Proof.
  intros Ha Hb.
  assert (Ea : a = 0 \/ a = 1 \/ a = 2 \/ a = 3 \/ a = 4 \/ a = 5 \/ a = 6 \/ a = 7
               \/ a = 8 \/ a = 9) by lia.
  assert (Eb : b = 0 \/ b = 1 \/ b = 2 \/ b = 3 \/ b = 4 \/ b = 5 \/ b = 6 \/ b = 7
               \/ b = 8 \/ b = 9) by lia.
  clear Ha Hb.
  repeat destruct Ea as [-> | Ea]; try subst a;
    repeat destruct Eb as [-> | Eb]; try subst b; reflexivity.
Qed.

Lemma compare_two (a b : Z) (s t : string) :
  0 <= a <= 99 -> 0 <= b <= 99 ->
  String.compare (two_digits a ++ s) (two_digits b ++ t)
  = match a ?= b with
    | Eq => String.compare s t
    | Lt => Lt
    | Gt => Gt
    end.
Proof.
  intros Ha Hb. unfold two_digits. cbn [text string_of_list_ascii append].
  rewrite !compare_digit by (Z.div_mod_to_equations; lia).
  destruct (Z.compare_spec (a / 10) (b / 10)) as [E1 | L1 | G1].
  - destruct (Z.compare_spec (a mod 10) (b mod 10)) as [E2 | L2 | G2];
      destruct (Z.compare_spec a b) as [E | L | G]; try reflexivity;
      exfalso; Z.div_mod_to_equations; lia.
  - destruct (Z.compare_spec a b) as [E | L | G]; try reflexivity;
      exfalso; Z.div_mod_to_equations; lia.
  - destruct (Z.compare_spec a b) as [E | L | G]; try reflexivity;
      exfalso; Z.div_mod_to_equations; lia.
Qed.

Lemma compare_four (a b : Z) (s t : string) :
  0 <= a <= 9999 -> 0 <= b <= 9999 ->
  String.compare (four_digits a ++ s) (four_digits b ++ t)
  = match a ?= b with
    | Eq => String.compare s t
    | Lt => Lt
    | Gt => Gt
    end.
Proof.
  intros Ha Hb.
  assert (Hsplit : forall (n : Z) (r : string),
             four_digits n ++ r = two_digits (n / 100) ++ two_digits (n mod 100) ++ r).
  { intros n r. unfold four_digits, two_digits. cbn [text string_of_list_ascii append].
    replace (n / 100 / 10) with (n / 1000) by (Z.div_mod_to_equations; lia).
    replace (n mod 100 / 10) with (n / 10 mod 10) by (Z.div_mod_to_equations; lia).
    replace (n mod 100 mod 10) with (n mod 10) by (Z.div_mod_to_equations; lia).
    reflexivity. }
  rewrite !Hsplit.
  rewrite !compare_two by (Z.div_mod_to_equations; lia).
  destruct (Z.compare_spec (a / 100) (b / 100)) as [E1 | L1 | G1].
  - destruct (Z.compare_spec (a mod 100) (b mod 100)) as [E2 | L2 | G2];
      destruct (Z.compare_spec a b) as [E | L | G]; try reflexivity;
      exfalso; Z.div_mod_to_equations; lia.
  - destruct (Z.compare_spec a b) as [E | L | G]; try reflexivity;
      exfalso; Z.div_mod_to_equations; lia.
  - destruct (Z.compare_spec a b) as [E | L | G]; try reflexivity;
      exfalso; Z.div_mod_to_equations; lia.
Qed.

Lemma compare_separator (c : ascii) (s t : string) :
  String.compare (String c s) (String c t) = String.compare s t.
Proof.
  cbn [String.compare]. unfold Ascii.compare. rewrite N.compare_refl. reflexivity.
Qed.

(** *** The text of a time stamp *)

Lemma append_assoc (a b c : string) : (a ++ b) ++ c = a ++ (b ++ c).
Proof. induction a as [| x a IH]; simpl; [reflexivity | rewrite IH; reflexivity]. Qed.

Lemma append_empty (a : string) : a ++ "" = a.
Proof. induction a as [| x a IH]; simpl; [reflexivity | rewrite IH; reflexivity]. Qed.

Lemma date_number_ends :
  date_number 0 = 19700101 /\ date_number 2932896 = 99991231.
Proof. split; vm_compute; reflexivity. Qed.

Lemma date_number_le (a b : Z) : a <= b -> date_number a <= date_number b.
Proof.
  intros H. destruct (Z.eq_dec a b) as [-> | Hne]; [lia |].
  pose proof (date_number_mono a b ltac:(lia)). lia.
Qed.

Lemma stamp_fields (ms : Z) :
  0 <= ms <= last_four_digit_year ->
  exists y m d h mi s,
    CURRENT_TIMESTAMP ms = stamp y m d h mi s /\
    0 <= y <= 9999 /\ 0 <= m <= 99 /\ 0 <= d <= 99 /\ 0 <= h <= 99 /\ 0 <= mi <= 99 /\
    0 <= s <= 99 /\
    stamp_number ms = ((((y * 100 + m) * 100 + d) * 100 + h) * 100 + mi) * 100 + s.
Proof.
  unfold last_four_digit_year. intros Hms.
  set (days := ms / 86400000).
  assert (Hdays : 0 <= days <= 2932896) by (unfold days; Z.div_mod_to_equations; lia).
  destruct (civil_from_days_bounds days) as (y & m & d & Hciv & Hm & Hd).
  assert (Hy : 0 <= y <= 9999).
  { pose proof (date_number_le 0 days (proj1 Hdays)) as Hlo.
    pose proof (date_number_le days 2932896 (proj2 Hdays)) as Hhi.
    destruct date_number_ends as [E0 E1]. rewrite E0 in Hlo. rewrite E1 in Hhi.
    unfold date_number in Hlo, Hhi. rewrite Hciv in Hlo, Hhi. lia. }
  set (sod := ms mod 86400000 / 1000).
  assert (Hsod : 0 <= sod <= 86399) by (unfold sod; Z.div_mod_to_equations; lia).
  exists y, m, d, (sod / 3600), (sod / 60 mod 60), (sod mod 60).
  split; [| repeat split; try lia; try (Z.div_mod_to_equations; lia)].
  - unfold CURRENT_TIMESTAMP, date_text, time_text. fold days. fold sod. rewrite Hciv.
    replace ((0 <=? y) && (y <=? 9999)) with true
      by (symmetry; apply andb_true_iff; split; apply Z.leb_le; lia).
    rewrite pad_four by lia.
    rewrite !pad_two by (try lia; Z.div_mod_to_equations; lia).
    unfold stamp. rewrite !append_assoc. cbn [append]. rewrite append_empty. reflexivity.
  - unfold stamp_number, date_number. fold days. fold sod. rewrite Hciv. lia.
Qed.

Lemma compare_pair (a1 b1 a2 b2 : Z) :
  0 <= b1 <= 99 -> 0 <= b2 <= 99 ->
  (a1 * 100 + b1 ?= a2 * 100 + b2)
  = match a1 ?= a2 with
    | Eq => b1 ?= b2
    | Lt => Lt
    | Gt => Gt
    end.
Proof.
  intros H1 H2. destruct (Z.compare_spec a1 a2) as [-> | L | G].
  - destruct (Z.compare_spec b1 b2) as [-> | L | G];
      [apply Z.compare_eq_iff | apply Z.compare_lt_iff | apply Z.compare_gt_iff]; lia.
  - apply Z.compare_lt_iff. lia.
  - apply Z.compare_gt_iff. lia.
Qed.

Lemma stamp_compare (y1 m1 d1 h1 i1 s1 y2 m2 d2 h2 i2 s2 : Z) :
  0 <= y1 <= 9999 -> 0 <= m1 <= 99 -> 0 <= d1 <= 99 -> 0 <= h1 <= 99 -> 0 <= i1 <= 99 ->
  0 <= s1 <= 99 ->
  0 <= y2 <= 9999 -> 0 <= m2 <= 99 -> 0 <= d2 <= 99 -> 0 <= h2 <= 99 -> 0 <= i2 <= 99 ->
  0 <= s2 <= 99 ->
  String.compare (stamp y1 m1 d1 h1 i1 s1) (stamp y2 m2 d2 h2 i2 s2)
  = (((((y1 * 100 + m1) * 100 + d1) * 100 + h1) * 100 + i1) * 100 + s1
     ?= ((((y2 * 100 + m2) * 100 + d2) * 100 + h2) * 100 + i2) * 100 + s2).
Proof.
  intros. unfold stamp.
  rewrite compare_four by assumption. rewrite compare_separator.
  rewrite compare_two by assumption. rewrite compare_separator.
  rewrite compare_two by assumption. rewrite compare_separator.
  rewrite compare_two by assumption. rewrite compare_separator.
  rewrite compare_two by assumption. rewrite compare_separator.
  rewrite compare_two by assumption. cbn [String.compare].
  rewrite !compare_pair by assumption.
  destruct (y1 ?= y2), (m1 ?= m2), (d1 ?= d2), (h1 ?= h2), (i1 ?= i2), (s1 ?= s2); reflexivity.
Qed.

Lemma seconds_of_day (ms : Z) :
  ms / 86400000 = ms / 1000 / 86400 /\ ms mod 86400000 / 1000 = (ms / 1000) mod 86400.
Proof. split; Z.div_mod_to_equations; lia. Qed.

(** The stamp number grows with the second. *)
Lemma stamp_number_mono (a b : Z) :
  a / 1000 < b / 1000 -> stamp_number a < stamp_number b.
Proof.
  intros H. unfold stamp_number.
  destruct (seconds_of_day a) as [-> ->]. destruct (seconds_of_day b) as [-> ->].
  set (sa := a / 1000) in *. set (sb := b / 1000) in *.
  assert (Hda : sa / 86400 <= sb / 86400) by (apply Z.div_le_mono; lia).
  destruct (Z.eq_dec (sa / 86400) (sb / 86400)) as [Heq | Hne].
  - rewrite Heq. Z.div_mod_to_equations. lia.
  - pose proof (date_number_mono (sa / 86400) (sb / 86400) ltac:(lia)).
    Z.div_mod_to_equations. lia.
Qed.

Lemma stamp_number_same (a b : Z) : a / 1000 = b / 1000 -> stamp_number a = stamp_number b.
Proof.
  intros H. unfold stamp_number.
  destruct (seconds_of_day a) as [-> ->]. destruct (seconds_of_day b) as [-> ->].
  rewrite H. reflexivity.
Qed.

(** Two time stamps compare as their stamp numbers. *)
Lemma current_timestamp_compare (t1 t2 : Z) :
  0 <= t1 <= last_four_digit_year -> 0 <= t2 <= last_four_digit_year ->
  String.compare (CURRENT_TIMESTAMP t1) (CURRENT_TIMESTAMP t2)
  = (stamp_number t1 ?= stamp_number t2).
Proof.
  intros H1 H2.
  destruct (stamp_fields t1 H1)
    as (y1 & m1 & d1 & h1 & i1 & s1 & E1 & Hy1 & Hm1 & Hd1 & Hh1 & Hi1 & Hs1 & N1).
  destruct (stamp_fields t2 H2)
    as (y2 & m2 & d2 & h2 & i2 & s2 & E2 & Hy2 & Hm2 & Hd2 & Hh2 & Hi2 & Hs2 & N2).
  rewrite E1, E2, stamp_compare by assumption. rewrite <- N1, <- N2. reflexivity.
Qed.

(** The [created_at] of every row is the text of its clock reading, as a
    check that runs. *)
Lemma stamps_check (t : row -> Z) (l : list row) :
  forallb (fun r => (0 <=? t r) && (t r <=? last_four_digit_year)
                    && (created_at r =? CURRENT_TIMESTAMP (t r))%string) l = true ->
  forall r, In r l ->
    0 <= t r <= last_four_digit_year /\ created_at r = CURRENT_TIMESTAMP (t r).
Proof.
  intros H r Hr. rewrite forallb_forall in H. specialize (H r Hr).
  apply andb_true_iff in H as [H Hstamp]. apply andb_true_iff in H as [Hlow Hhigh].
  apply Z.leb_le in Hlow, Hhigh. apply String.eqb_eq in Hstamp.
  split; [split; assumption | exact Hstamp].
Qed.

Lemma sorted_impl_in {A} (R R' : A -> A -> Prop) (l : list A) :
  (forall a b, In a l -> In b l -> R a b -> R' a b) ->
  StronglySorted R l -> StronglySorted R' l.
Proof.
  intros Himpl Hs. induction Hs as [| x l Hs IH Hx]; constructor.
  - apply IH. intros a b Ha Hb. apply Himpl; right; assumption.
  - rewrite Forall_forall in *. intros y Hy.
    apply Himpl; [left; reflexivity | right; exact Hy | apply Hx; exact Hy].
Qed.

(** *** A status update and the order of the listing *)

Lemma update_status_rows_with (cv : conversions) (s k : sqlval) (st : store) :
  orders (update_status cv s k st) = map (with_status cv s k) (orders st).
Proof. reflexivity. Qed.

Lemma with_status_created_at (cv : conversions) (s k : sqlval) (r : row) :
  created_at (with_status cv s k r) = created_at r.
Proof. unfold with_status. destruct (id_equals cv (row_id r) k); reflexivity. Qed.

Lemma insert_desc_map (f : row -> row) (r : row) (l : list row) :
  (forall x, created_at (f x) = created_at x) ->
  insert_desc (f r) (map f l) = map f (insert_desc r l).
Proof.
  intros Hf. induction l as [| x l IH]; [reflexivity |].
  cbn [map insert_desc]. rewrite !Hf.
  destruct (created_at x <=? created_at r)%string; [reflexivity |].
  cbn [map]. rewrite IH. reflexivity.
Qed.

Lemma order_by_map (f : row -> row) (l : list row) :
  (forall x, created_at (f x) = created_at x) ->
  order_by_created_at_desc (map f l) = map f (order_by_created_at_desc l).
Proof.
  intros Hf. induction l as [| x l IH]; [reflexivity |].
  cbn [map order_by_created_at_desc fold_right].
  change (fold_right insert_desc [] (map f l)) with (order_by_created_at_desc (map f l)).
  rewrite IH. apply insert_desc_map. exact Hf.
Qed.

Lemma listed_same_order (cv : conversions) (s k : sqlval) (r : row) (v : value) :
  same_listed_order (listed r v) (listed (with_status cv s k r) v).
Proof.
  intros key Hkey. unfold with_status.
  destruct (id_equals cv (row_id r) k); [| reflexivity].
  unfold listed, field. cbn [get lookup row_id business_id order_number customer_name
                             customer_phone items special_instructions total created_at].
  repeat match goal with
         | |- context [(key =? ?x)%string] =>
             destruct (String.eqb_spec key x); [first [reflexivity | contradiction] |]
         end.
  reflexivity.
Qed.

Lemma filter_quiet (added : list event) : calls added = 0%nat -> filter is_fetch added = [].
Proof. unfold calls. intros H. apply length_zero_iff_nil. exact H. Qed.

(** A valid order with a print method: the handler reaches [printOrder]
    with the returned order, having called the network not at all, and the
    ticket formats. *)
Lemma post_orders_valid_reaches_printOrder (env : environment) (req_body : value) (w : world) :
  valid_payload req_body = true -> env_unset (PRINT_METHOD env) = false ->
  exists (w2 w' : world) (t : string) (quiet : list event),
    post_orders env req_body w = (Ok (created (created_order env w req_body)), w') /\
    printOrder env (business_of req_body) (created_order env w req_body) w2 = (Ok tt, w') /\
    ticket_of_request env w req_body = Ok t /\
    formatKitchenTicket env (created_order env w req_body) w2 = (Ok t, ticked w2) /\
    trace w2 = (quiet ++ trace w)%list /\ filter is_fetch quiet = [].
Proof.
  intros Hvalid Hset.
  destruct (post_orders_valid env req_body w Hvalid) as (w' & r & Hpost & _).
  pose proof (post_orders_200 _ _ _ _ _ Hpost eq_refl) as Htry.
  apply post_orders_try_ok in Htry
    as (b & c & p & i & s & t & w1 & key & w2 & Hb & Hc & Hp & Hi & Hs & Ht & Hparse & Hins
        & Hprint & Hr).
  destruct req_body as [| | | | | | fields]; try discriminate Hvalid.
  rewrite get_object in Hb, Hc, Hp, Hi, Hs, Ht.
  inversion Hb; subst b; clear Hb. inversion Hc; subst c; clear Hc.
  inversion Hp; subst p; clear Hp. inversion Hi; subst i; clear Hi.
  inversion Hs; subst s; clear Hs. inversion Ht; subst t; clear Ht.
  set (body := VObj fields) in *.
  destruct (parse_items_spec (field "items" body)
              (logged_world (Console_log "Received order:" (A_value body)) w))
    as (w1' & Hspec & _ & Hticks1 & _).
  rewrite Hspec in Hparse. inversion Hparse; subst w1'; clear Hparse.
  cbn [logged_world ticks] in Hticks1.
  destruct (sends_parse_items _ _ _ _ Hspec) as (a1 & Htrace1 & Hcalls1).
  cbn [logged_world trace] in Htrace1.
  apply insert_run_ok in Hins as (vs & st & _ & _ & Hw2).
  assert (Hticks2 : ticks w2 = S (S (ticks w)))
    by (rewrite Hw2; cbn [ticks ticked]; rewrite Hticks1; reflexivity).
  assert (Htrace2 : trace w2 = trace w1) by (rewrite Hw2; reflexivity).
  assert (Horder : order_object key (generate_orderNumber (clock env (ticks w1)))
                     (field "businessId" body) (field "customerName" body)
                     (field "customerPhone" body) (parsed_items (field "items" body))
                     (field "specialInstructions" body) (field "total" body)
                     (clock env (ticks w2))
                   = created_order env w body).
  { unfold created in Hr. congruence. }
  rewrite Horder in Hprint.
  destruct (printOrder_ok_formatted _ _ _ _ _ Hset Hprint) as (n & tk & Hn & Hticket).
  assert (Hnumber : n = generate_orderNumber (clock env (ticks w))).
  { unfold created_order, order_object in Hn. cbn in Hn. inversion Hn. reflexivity. }
  subst n. pose proof Hticket as Hrun. cbn [ticked ticks] in Hticket.
  rewrite Hticks2 in Hticket.
  exists (ticked w2), w', tk, (a1 ++ [Console_log "Received order:" (A_value body)])%list.
  split; [exact Hpost |]. split; [exact Hprint |]. split; [exact Hticket |]. split.
  - unfold formatKitchenTicket, bind, lift, now. rewrite Hn, Hrun. reflexivity.
  - split.
    + cbn [ticked trace]. rewrite Htrace2, Htrace1, <- app_assoc. reflexivity.
    + rewrite filter_app. cbn. rewrite filter_quiet by lia. reflexivity.
Qed.

(** * Further properties, continued *)

(** X7. Whatever requests are served, in whatever order and with whatever
    contents, no row is ever deleted or moved: the table afterwards starts
    with the rows it had, each the same but for its status, followed by the
    rows created since. *)
Theorem rows_are_never_deleted :
  forall (env : environment) (cs : list call) (w : world),
    kept (database w) (database (serve_all env cs w)).
Proof.
  intros env cs. induction cs as [| c cs IH]; intros w.
  - apply kept_refl.
  - rewrite serve_all_cons. eapply kept_trans; [apply serve_kept | apply IH].
Qed.

(** X8. The keys of the table grow along it and stay below the
    AUTOINCREMENT counter, whatever requests are served: no two rows ever
    share an [id], and a new row gets a key above every key in use. *)
Theorem keys_stay_unique :
  forall (env : environment) (cs : list call) (w : world),
    keys_ascend (database w) ->
    keys_ascend (database (serve_all env cs w)) /\
    NoDup (map row_id (orders (database (serve_all env cs w)))).
Proof.
  intros env cs. induction cs as [| c cs IH]; intros w Hinv.
  - split; [exact Hinv | apply sorted_lt_NoDup; exact (proj1 Hinv)].
  - rewrite serve_all_cons. apply IH. apply serve_keys_ascend. exact Hinv.
Qed.

Lemma keys_stay_unique_witness :
  keys_ascend (database (serve_all (sample_env None) sample_calls empty_world)) /\
  NoDup (map row_id (orders (database (serve_all (sample_env None) sample_calls empty_world)))).
Proof. apply keys_stay_unique. split; constructor. Defined.

(** X9. Answering a create request, the server calls the network at most
    once (a print job is never retried), and not at all when the table did
    not gain a row: printing only follows a successful insert. *)
Theorem post_calls_the_network_at_most_once :
  forall (env : environment) (req_body : value) (w w' : world) (r : response),
    post_orders env req_body w = (Ok r, w') ->
    exists added : list event,
      trace w' = (added ++ trace w)%list /\ (calls added <= 1)%nat /\
      (orders (database w') = orders (database w) -> calls added = 0%nat).
Proof.
  intros env req_body w w' r H.
  destruct (sends_post_orders env req_body w _ w' H) as (added & Ht & Hc).
  exists added. split; [exact Ht |]. split; [exact Hc |].
  intros Hsame. destruct (post_orders_unchanged_quiet _ _ _ _ _ H Hsame) as [Hq _].
  exact (no_fetch_calls _ _ _ Hq Ht).
Qed.

Lemma post_calls_the_network_at_most_once_witness :
  exists added : list event,
    trace alice_world = (added ++ trace empty_world)%list /\ (calls added <= 1)%nat /\
    (orders (database alice_world) = orders (database empty_world) -> calls added = 0%nat).
Proof.
  exact (post_calls_the_network_at_most_once (sample_env None) alice empty_world alice_world
           (created alice_order) alice_posted).
Defined.

(** X10. Only the channels [printnode] and [webhook] use the network: with
    [PRINT_METHOD] unset, [cloudprnt] or any other name, no create request
    makes a network call. *)
Theorem only_two_channels_use_the_network :
  forall (env : environment) (req_body : value) (w : world),
    PRINT_METHOD env <> Some "printnode" -> PRINT_METHOD env <> Some "webhook" ->
    no_fetch_between w (snd (post_orders env req_body w)).
Proof.
  intros env req_body w Hp Hw.
  assert (Hsends : sends 0 (post_orders env req_body)).
  { pose proof (sends_printOrder_offline env) as Hprint.
    unfold post_orders, post_orders_try, post_orders_catch.
    apply sends_try_quiet; [| intro; auto with sent].
    do 11 (apply sends_quiet_bind; [auto with sent | intro]).
    apply sends_quiet_bind; [apply Hprint; assumption | intro]. auto with sent. }
  destruct (post_orders env req_body w) as [r w'] eqn:H.
  destruct (Hsends w r w' H) as (added & Ht & Hc). simpl.
  exists added. split; [exact Ht |].
  unfold calls in Hc. clear - Hc.
  induction added as [| e l IH]; simpl in *; [reflexivity |].
  destruct (is_fetch e); simpl in *; [lia | apply IH; exact Hc].
Qed.

Lemma only_two_channels_use_the_network_witness :
  no_fetch_between empty_world (snd (post_orders (sample_env (Some "cloudprnt")) alice empty_world)).
Proof.
  apply only_two_channels_use_the_network; simpl; discriminate.
Defined.

(** X11. Two clock readings (of six digits or more) give the same order
    number exactly when they are equal modulo [10^6] milliseconds: order
    numbers are distinct within any window of 1000 seconds and repeat from
    one window to the next. *)
Theorem order_numbers_repeat_every_million_milliseconds :
  forall t1 t2 : Z,
    100000 <= t1 -> 100000 <= t2 ->
    (generate_orderNumber t1 = generate_orderNumber t2 <-> t1 mod 1000000 = t2 mod 1000000).
Proof.
  intros t1 t2 H1 H2. rewrite !generate_orderNumber_six by assumption. split.
  - intros H.
    assert (Htext : six_digits t1 = six_digits t2) by (cbn [append] in H; congruence).
    unfold six_digits in Htext. apply (f_equal chars) in Htext. rewrite !chars_text in Htext.
    apply digit_chars_inj in Htext; try apply last_six_digits.
    rewrite <- !last_six_value by lia. rewrite Htext. reflexivity.
  - intros H. unfold six_digits.
    rewrite <- (last_six_of_mod t1), <- (last_six_of_mod t2), H. reflexivity.
Qed.

Lemma order_numbers_repeat_every_million_milliseconds_witness :
  generate_orderNumber 1700000000123 = generate_orderNumber 1700001000123
  <-> 1700000000123 mod 1000000 = 1700001000123 mod 1000000.
Proof. apply order_numbers_repeat_every_million_milliseconds; lia. Defined.

(** X12. Of two status updates of the same id, the later one wins: the
    server answers and ends up exactly as if the first had never been made.
    In particular repeating an update changes nothing. *)
Theorem later_status_update_wins :
  forall (env : environment) (id : string) (first second : value) (w : world) (s1 s2 : string),
    get first "status" = Ok (VStr s1) -> get second "status" = Ok (VStr s2) ->
    patch_order env id second (snd (patch_order env id first w))
    = patch_order env id second w.
Proof.
  intros env id first second w s1 s2 H1 H2.
  rewrite (patch_order_text env id first w s1 H1). cbn [snd].
  rewrite !(patch_order_text env id second _ s2 H2). cbn [database trace ticks].
  rewrite update_status_overwrites. reflexivity.
Qed.

Lemma later_status_update_wins_witness :
  patch_order (sample_env None) "1" (VObj [("status", VStr "completed")])
    (snd (patch_order (sample_env None) "1" (VObj [("status", VStr "preparing")]) alice_world))
  = patch_order (sample_env None) "1" (VObj [("status", VStr "completed")]) alice_world.
Proof.
  apply (later_status_update_wins (sample_env None) "1" _ _ alice_world "preparing" "completed");
    reflexivity.
Defined.

(** X13. With a print method configured, a create request is answered with
    success only if the ticket could be formatted: the order returned then
    has an array without [null] elements as [items] and a number as
    [total]. *)
Theorem printed_orders_have_items_and_total :
  forall (env : environment) (req_body : value) (w w' : world) (r : response),
    env_unset (PRINT_METHOD env) = false ->
    post_orders env req_body w = (Ok r, w') -> http_status r = 200 ->
    exists (order : value) (l : list value) (x : number),
      r = created order /\ field "items" order = VArr l /\ field "total" order = VNum x /\
      Forall (fun item => item <> VUndefined /\ item <> VNull) l.
Proof.
  intros env req_body w w' r Hset H Hok.
  apply post_orders_200 in H; [| exact Hok].
  apply post_orders_try_ok in H
    as (b & c & p & i & s & t & w1 & key & w2 & _ & _ & _ & _ & _ & _ & _ & _ & Hprint & ->).
  apply printOrder_ok_formatted in Hprint as (n & tk & _ & Hticket); [| exact Hset].
  apply ticket_needs in Hticket as (l & x & Hitems & Htotal & Hall).
  eexists _, l, x. split; [reflexivity |].
  unfold field. rewrite Hitems, Htotal. repeat split. exact Hall.
Qed.

Lemma printed_orders_have_items_and_total_witness :
  exists (order : value) (l : list value) (x : number),
    created (created_order (sample_env (Some "webhook")) empty_world alice) = created order /\
    field "items" order = VArr l /\ field "total" order = VNum x /\
    Forall (fun item => item <> VUndefined /\ item <> VNull) l.
Proof.
  apply (printed_orders_have_items_and_total (sample_env (Some "webhook")) alice empty_world
           (snd (post_orders (sample_env (Some "webhook")) alice empty_world)));
    [reflexivity | vm_compute; reflexivity | reflexivity].
Defined.

(** X14. The PrintNode channel, configured for the business: [printOrder]
    announces the job on the console, makes one POST to the print-job
    endpoint, with the API key as basic authentication and the ticket in
    base64 as content, writes one line about the outcome (sent, refused by
    PrintNode with the text of its answer, or failed) and returns normally
    in every case. *)
Theorem printnode_sends_one_job :
  forall (env : environment) (businessId order : value) (w w1 : world)
         (t key b ps : string) (ids p : value),
    PRINT_METHOD env = Some "printnode" ->
    formatKitchenTicket env order w = (Ok t, w1) ->
    PRINTNODE_API_KEY env = Some key -> key <> "" ->
    JSON_parse (env_or (PRINTER_IDS env) "{}") = Ok ids ->
    ToString businessId = Ok b -> get ids b = Ok p -> truthy p = true ->
    ToString p = Ok ps ->
    exists n : number,
      parseInt p = Ok n /\
      printOrder env businessId order w
      = (Ok tt,
         {| database := database w1;
            trace := printnode_report (network env printnode_url (printnode_request key n t))
                     :: Fetch printnode_url (printnode_request key n t)
                     :: Console_log ("Printing to PrintNode printer " ++ ps
                                     ++ " for business " ++ b) Nothing
                     :: trace w1;
            ticks := ticks w1 |}).
Proof.
  intros env businessId order w w1 t key b ps ids p Hmethod Hfmt Hkey Hne Hids Hb Hp Htruthy Hps.
  destruct (parseInt_ok p ps Hps) as [n Hn]. exists n. split; [exact Hn |].
  rewrite (printOrder_with_method env businessId order w w1 t "printnode" Hmethod
             ltac:(discriminate) Hfmt).
  cbn [String.eqb Ascii.eqb Bool.eqb].
  exact (printViaPrintNode_caught env businessId w1 t key b ps ids p n
           Hkey Hne Hids Hb Hp Htruthy Hps Hn).
Qed.

Lemma printnode_sends_one_job_witness :
  exists w2 : world,
    printOrder (sample_env (Some "printnode")) (VStr "default") alice_order empty_world
    = (Ok tt, w2).
Proof.
  edestruct (printnode_sends_one_job (sample_env (Some "printnode")) (VStr "default")
               alice_order empty_world) as (n & _ & Hrun).
  - reflexivity.
  - vm_compute. reflexivity.
  - reflexivity.
  - discriminate.
  - vm_compute. reflexivity.
  - reflexivity.
  - vm_compute. reflexivity.
  - reflexivity.
  - reflexivity.
  - eexists. exact Hrun.
Defined.

(** X15. The PrintNode channel without its configuration sends nothing and
    returns normally: without an API key it logs that; when [PRINTER_IDS] is
    not JSON the error is caught and logged; when [PRINTER_IDS] is an object
    in which the business has no printer (no field of its name, or a field
    that is empty, zero, [null] or [false]) it logs that and the businesses
    that have one.  The last case is stated for business names that read a
    field of the object or nothing: a name of [Object.prototype], such as
    [constructor], that is no field of the object reads the inherited
    member, and is left out. *)
Theorem printnode_skips_without_configuration :
  forall (env : environment) (businessId order : value) (w w1 : world) (t : string),
    PRINT_METHOD env = Some "printnode" ->
    formatKitchenTicket env order w = (Ok t, w1) ->
    (env_unset (PRINTNODE_API_KEY env) = true ->
     printOrder env businessId order w
     = (Ok tt, logged_world (Console_log "PrintNode API key not configured" Nothing) w1))
    /\ (forall e : exn,
          env_unset (PRINTNODE_API_KEY env) = false ->
          JSON_parse (env_or (PRINTER_IDS env) "{}") = Throw e ->
          printOrder env businessId order w
          = (Ok tt, logged_world (Console_error "Print error:" (An_error e)) w1))
    /\ (forall (ids p : value) (b : string),
          env_unset (PRINTNODE_API_KEY env) = false ->
          JSON_parse (env_or (PRINTER_IDS env) "{}") = Ok ids ->
          ToString businessId = Ok b -> reads_own_field ids b = true ->
          get ids b = Ok p -> truthy p = false ->
          exists ks : value,
            Object_keys ids = Ok ks /\
            printOrder env businessId order w
            = (Ok tt,
               logged_world (Console_log "Available business IDs:" (A_value ks))
                 (logged_world (Console_log ("No printer configured for business " ++ b) Nothing)
                    w1))).
Proof.
  intros env businessId order w w1 t Hmethod Hfmt.
  rewrite (printOrder_with_method env businessId order w w1 t "printnode" Hmethod
             ltac:(discriminate) Hfmt).
  cbn [String.eqb Ascii.eqb Bool.eqb].
  unfold try_catch, printViaPrintNode. split; [| split].
  - intros Hkey. rewrite Hkey. reflexivity.
  - intros e Hkey Hids. rewrite Hkey. unfold bind, lift. rewrite Hids. reflexivity.
  - intros ids p b Hkey Hids Hb _ Hp Hfalsy.
    destruct (Object_keys_ok ids b p Hp) as [ks Hks]. exists ks. split; [exact Hks |].
    rewrite Hkey. unfold bind, lift. rewrite Hids, Hb, Hp, Hfalsy, Hks. reflexivity.
Qed.

Lemma printnode_skips_without_configuration_witness :
  (exists w1 : world,
     printOrder keyless_env (VStr "default") alice_order empty_world
     = (Ok tt, logged_world (Console_log "PrintNode API key not configured" Nothing) w1))
  /\ (exists (ks : value) (w1 : world),
        printOrder (sample_env (Some "printnode")) (VStr "cafe") alice_order empty_world
        = (Ok tt,
           logged_world (Console_log "Available business IDs:" (A_value ks))
             (logged_world (Console_log "No printer configured for business cafe" Nothing)
                w1))).
Proof.
  split.
  - edestruct (printnode_skips_without_configuration keyless_env (VStr "default") alice_order
                 empty_world) as (Hkey & _).
    + reflexivity.
    + vm_compute. reflexivity.
    + eexists. apply Hkey. reflexivity.
  - edestruct (printnode_skips_without_configuration (sample_env (Some "printnode"))
                 (VStr "cafe") alice_order empty_world) as (_ & _ & Hnone).
    + reflexivity.
    + vm_compute. reflexivity.
    + destruct (Hnone (VObj [("default", VStr "42")]) VUndefined "cafe")
        as (ks & _ & Hrun);
        [reflexivity | vm_compute; reflexivity | reflexivity | reflexivity | reflexivity
         | reflexivity |].
      exists ks. eexists. exact Hrun.
Defined.

(** X16. The webhook channel: when the business has a URL, [printOrder]
    makes one POST of [{content, businessId}] to it and looks at nothing of
    the answer, so that only a rejected request leaves a line on the
    console; when it has none (no field of its name in [PRINT_WEBHOOKS], or
    an empty one), nothing is sent and nothing logged; when
    [PRINT_WEBHOOKS] is not JSON the error is caught and logged.  The case
    without a URL is stated for business names that read a field of the
    object or nothing, not an inherited member of [Object.prototype]. *)
Theorem webhook_sends_the_ticket_once :
  forall (env : environment) (businessId order : value) (w w1 : world) (t : string),
    PRINT_METHOD env = Some "webhook" ->
    formatKitchenTicket env order w = (Ok t, w1) ->
    (forall e : exn,
       JSON_parse (env_or (PRINT_WEBHOOKS env) "{}") = Throw e ->
       printOrder env businessId order w
       = (Ok tt, logged_world (Console_error "Print error:" (An_error e)) w1))
    /\ (forall (urls url : value) (b : string),
          JSON_parse (env_or (PRINT_WEBHOOKS env) "{}") = Ok urls ->
          ToString businessId = Ok b -> get urls b = Ok url ->
          truthy url = true \/ reads_own_field urls b = true ->
          printOrder env businessId order w
          = (Ok tt,
             if truthy url
             then {| database := database w1;
                     trace := (webhook_report (network env url (webhook_request businessId t))
                               ++ Fetch url (webhook_request businessId t) :: trace w1)%list;
                     ticks := ticks w1 |}
             else w1)).
Proof.
  intros env businessId order w w1 t Hmethod Hfmt.
  rewrite (printOrder_with_method env businessId order w w1 t "webhook" Hmethod
             ltac:(discriminate) Hfmt).
  cbn [String.eqb Ascii.eqb Bool.eqb]. split.
  - intros e Hurls. unfold try_catch, printViaWebhook, bind, lift. rewrite Hurls. reflexivity.
  - intros urls url b Hurls Hb Hurl _.
    exact (printViaWebhook_caught env businessId w1 t b urls url Hurls Hb Hurl).
Qed.

Lemma webhook_sends_the_ticket_once_witness :
  (exists w2 : world,
     printOrder (sample_env (Some "webhook")) (VStr "default") alice_order empty_world
     = (Ok tt, w2) /\
     filter is_fetch (trace w2)
     = [Fetch (VStr "http://printer.local/hook")
          (webhook_request (VStr "default")
             (match fst (formatKitchenTicket (sample_env (Some "webhook")) alice_order
                           empty_world)
              with Ok t => t | Throw _ => "" end))])
  /\ (exists w2 : world,
        printOrder (sample_env (Some "webhook")) (VStr "cafe") alice_order empty_world
        = (Ok tt, w2) /\ trace w2 = []).
Proof.
  split.
  - edestruct (webhook_sends_the_ticket_once (sample_env (Some "webhook")) (VStr "default")
                 alice_order empty_world) as (_ & Hsend).
    + reflexivity.
    + vm_compute. reflexivity.
    + eexists. split.
      * eapply (Hsend (VObj [("default", VStr "http://printer.local/hook")])
                  (VStr "http://printer.local/hook") "default");
          [vm_compute; reflexivity | reflexivity | reflexivity | left; reflexivity].
      * vm_compute. reflexivity.
  - edestruct (webhook_sends_the_ticket_once (sample_env (Some "webhook")) (VStr "cafe")
                 alice_order empty_world) as (_ & Hsend).
    + reflexivity.
    + vm_compute. reflexivity.
    + eexists. split.
      * eapply (Hsend (VObj [("default", VStr "http://printer.local/hook")]) VUndefined "cafe");
          [vm_compute; reflexivity | reflexivity | reflexivity | right; reflexivity].
      * reflexivity.
Defined.

(** X17. The base64 text the PrintNode job carries decodes back to the
    ticket, byte for byte: the encoder loses nothing, whatever the length
    of the ticket modulo three. *)
Theorem base64_decodes_back :
  forall s : string, base64_decode (base64 s) = Some s.
Proof.
  intros s. unfold base64_decode, base64. rewrite chars_text.
  rewrite base64_groups_decode.
  - rewrite map_map. rewrite (map_ext _ (fun c => c)) by (intros c; apply char_of_code_code).
    rewrite map_id. rewrite text_chars. reflexivity.
  - rewrite length_map, length_chars. lia.
  - rewrite Forall_map. apply Forall_forall. intros c _. apply code_bounds.
Qed.

(** X18. [JSON.parse] undoes [JSON.stringify] on every value without
    [undefined] whose objects list their keys in own-key order and whose
    numbers are finite and print to numerals that read back as themselves,
    as the whole numbers from 0 to 999 do: nesting, escapes in strings and
    the fuel of the parser are no obstacle. *)
Theorem stringified_values_parse_back :
  (forall v : value,
     json_shaped v = true ->
     exists s : string, JSON_stringify v = Some s /\ JSON_parse s = Ok v)
  /\ (forall n : Z, 0 <= n < 1000 -> json_shaped (VNum (float_of_Z n)) = true).
Proof.
  split.
  - intros v Hshape. exists (element_text v).
    split; [apply stringify_shaped; exact Hshape | apply element_text_parses; exact Hshape].
  - intros n Hn. cbn [json_shaped].
    apply (all_from_spec _ _ _ small_numbers_read_back n). rewrite Z2Nat.id; lia.
Qed.

Lemma stringified_values_parse_back_witness :
  exists s : string,
    JSON_stringify (field "items" alice) = Some s /\ JSON_parse s = Ok (field "items" alice).
Proof.
  apply (proj1 stringified_values_parse_back). vm_compute. reflexivity.
Defined.

(** X19. A valid order whose items JSON writes in full, posted to a table
    that can be listed and holds fewer than 100 rows, is in the listing
    that follows, with every value of the response except [createdAt]
    under the name of its column: [id], [order_number], [business_id],
    [customer_name], [customer_phone], [items], [special_instructions] and
    [total] are those of the returned order, [status] is [new], and
    [created_at] is the time of the insert. *)
Theorem posted_order_is_listed :
  forall (env : environment) (req_body : value) (w : world),
    valid_payload req_body = true ->
    json_shaped (parsed_items (field "items" req_body)) = true ->
    listable (database w) ->
    (List.length (orders (database w)) < 100)%nat ->
    exists (w' : world) (os : list value) (o : value),
      post_orders env req_body w = (Ok (created (created_order env w req_body)), w') /\
      get_orders env (query None None) w'
      = (Ok {| http_status := 200; json := VArr os |}, w') /\
      In o os /\
      field "id" o = field "id" (created_order env w req_body) /\
      field "order_number" o = field "orderNumber" (created_order env w req_body) /\
      field "business_id" o = field "businessId" (created_order env w req_body) /\
      field "customer_name" o = field "customerName" (created_order env w req_body) /\
      field "customer_phone" o = field "customerPhone" (created_order env w req_body) /\
      field "items" o = field "items" (created_order env w req_body) /\
      field "special_instructions" o
      = field "specialInstructions" (created_order env w req_body) /\
      field "total" o = field "total" (created_order env w req_body) /\
      field "status" o = VStr "new" /\
      field "created_at" o = VStr (CURRENT_TIMESTAMP (clock env (S (ticks w)))).
Proof.
  intros env req_body w Hvalid Hshape Hlist Hroom.
  destruct (post_orders_valid env req_body w Hvalid) as (w' & r0 & Hrun & _).
  destruct (post_orders_stored_row env req_body w w' _ Hvalid Hrun)
    as (stored & Hrows & Hid & Hb & Hn & Hc & Hp & Hitems & Hs & Htotal & Hst & Hat).
  assert (Hlist' : listable (database w')).
  { pose proof (listable_posted env req_body w Hvalid Hshape Hlist) as H.
    rewrite Hrun in H. exact H. }
  destruct (get_orders_listable env None None w' Hlist') as (os & Hget & Hall).
  assert (Hin : In stored (firstn 100 (order_by_created_at_desc
                                         (filter (matches None None) (orders (database w')))))).
  { rewrite filter_all by reflexivity. rewrite firstn_all2.
    - apply (Permutation_in _ (Permutation_sym (order_by_perm _))).
      rewrite Hrows. apply in_or_app. right. left. reflexivity.
    - rewrite (Permutation_length (order_by_perm _)), Hrows, length_app. simpl. lia. }
  destruct (Forall2_In_l _ _ _ _ Hall Hin) as (o & Ho & Hfmt).
  apply format_row_listed in Hfmt as (v & Hv & ->).
  rewrite Hitems, (element_text_parses _ Hshape) in Hv. inversion Hv; subst v.
  exists w', os, (listed stored (parsed_items (field "items" req_body))).
  split; [exact Hrun |]. split; [exact Hget |]. split; [exact Ho |].
  destruct req_body as [| | | | | | fields]; try discriminate Hvalid.
  unfold valid_payload in Hvalid.
  apply andb_true_iff in Hvalid as [H _].
  apply andb_true_iff in H as [H _].
  apply andb_true_iff in H as [H Hos].
  apply andb_true_iff in H as [H Hop].
  apply andb_true_iff in H as [Hob Hoc].
  unfold created_order, order_object, listed, field.
  cbn [get lookup String.eqb Ascii.eqb Bool.eqb nullable].
  rewrite Hid, Hn, Hb, Hc, Hp, Hs, Htotal, Hst, Hat.
  rewrite (or_else_text_or _ _ Hob), (or_else_text_or _ _ Hoc), (or_else_text_or _ _ Hop),
    (or_else_text_or _ _ Hos).
  cbn [nullable]. repeat split.
Qed.

Lemma posted_order_is_listed_witness :
  exists (w' : world) (os : list value) (o : value),
    post_orders (sample_env None) alice empty_world = (Ok (created alice_order), w') /\
    get_orders (sample_env None) (query None None) w'
    = (Ok {| http_status := 200; json := VArr os |}, w') /\
    In o os /\ field "items" o = field "items" alice_order /\
    field "total" o = field "total" alice_order.
Proof.
  destruct (posted_order_is_listed (sample_env None) alice empty_world)
    as (w' & os & o & Hrun & Hget & Hin & _ & _ & _ & _ & _ & Hitems & _ & Htotal & _).
  - vm_compute. reflexivity.
  - vm_compute. reflexivity.
  - intros r [].
  - simpl. lia.
  - exists w', os, o. repeat split; assumption.
Defined.

(** X20. Starting from a table that can be listed, and serving any
    sequence of listings, status updates (whatever their bodies) and
    creations of valid orders whose items JSON writes in full, the listing
    keeps answering, under every pair of text filters. *)
Theorem listing_survives_valid_traffic :
  forall (env : environment) (cs : list call) (w : world) (b s : option string),
    listable (database w) -> Forall well_formed_call cs ->
    exists os : list value,
      get_orders env (query b s) (serve_all env cs w)
      = (Ok {| http_status := 200; json := VArr os |}, serve_all env cs w).
Proof.
  intros env cs w b s Hlist Hcs.
  assert (Hinv : listable (database (serve_all env cs w))).
  { revert w Hlist. induction Hcs as [| c cs Hc _ IH]; intros w Hlist; [exact Hlist |].
    rewrite serve_all_cons. apply IH. apply serve_listable; assumption. }
  destruct (get_orders_listable env b s _ Hinv) as (os & Hget & _).
  exists os. exact Hget.
Qed.

Lemma listing_survives_valid_traffic_witness :
  exists os : list value,
    get_orders (sample_env None) (query None (Some "new"))
      (serve_all (sample_env None) sample_calls empty_world)
    = (Ok {| http_status := 200; json := VArr os |},
       serve_all (sample_env None) sample_calls empty_world).
Proof.
  apply listing_survives_valid_traffic.
  - intros r [].
  - repeat constructor; vm_compute; reflexivity.
Defined.

(** X21. A create request without [items], its other fields being texts
    and a number as far as they are given, is answered with the failure of
    the constraint on the items column: [JSON.stringify(undefined)] is
    [undefined], which binds as NULL, and the column is declared
    [NOT NULL].  Nothing is stored and nothing printed. *)
Theorem order_without_items_is_refused :
  forall (env : environment) (req_body : value) (w : world),
    get req_body "items" = Ok VUndefined ->
    optional_text (field "businessId" req_body) = true ->
    optional_text (field "customerName" req_body) = true ->
    optional_text (field "customerPhone" req_body) = true ->
    optional_text (field "specialInstructions" req_body) = true ->
    optional_number (field "total" req_body) = true ->
    exists w' : world,
      post_orders env req_body w
      = (Ok (failed (SqliteError "NOT NULL constraint failed: orders.items")), w') /\
      database w' = database w /\ no_fetch_between w w'.
Proof.
  intros env req_body w Hitems Hob Hoc Hop Hos Hot.
  destruct (get_defined req_body "items" "businessId" _ Hitems) as [b Hb].
  destruct (get_defined req_body "items" "customerName" _ Hitems) as [c Hc].
  destruct (get_defined req_body "items" "customerPhone" _ Hitems) as [p Hp].
  destruct (get_defined req_body "items" "specialInstructions" _ Hitems) as [s Hs].
  destruct (get_defined req_body "items" "total" _ Hitems) as [t Ht].
  rewrite (field_get _ _ _ Hb) in Hob. rewrite (field_get _ _ _ Hc) in Hoc.
  rewrite (field_get _ _ _ Hp) in Hop. rewrite (field_get _ _ _ Hs) in Hos.
  rewrite (field_get _ _ _ Ht) in Hot.
  destruct (or_else_text _ "default" Hob) as [b' Eb].
  destruct (or_else_text _ "Guest" Hoc) as [c' Ec].
  destruct (or_else_text _ "" Hop) as [p' Ep].
  destruct (or_else_text _ "" Hos) as [s' Es].
  destruct (or_else_number _ Hot) as [x Ex].
  eexists. split.
  - unfold post_orders, try_catch, post_orders_try, bind at 1 2 3 4 5 6, lift.
    rewrite Hb, Hc, Hp, Hitems, Hs, Ht.
    unfold console_log, emit, parse_items, ret, bind at 1 2 3, now at 1.
    rewrite Eb, Ec, Ep, Es, Ex. unfold stringified. cbn [JSON_stringify].
    unfold bind at 1. rewrite insert_run_without_items.
    unfold post_orders_catch, bind, console_error, emit, ret. reflexivity.
  - split; [reflexivity |].
    eexists [_; _]. split; reflexivity.
Qed.

Lemma order_without_items_is_refused_witness :
  exists w' : world,
    post_orders (sample_env (Some "webhook")) (VObj [("customerName", VStr "Bob")]) empty_world
    = (Ok (failed (SqliteError "NOT NULL constraint failed: orders.items")), w') /\
    database w' = database empty_world /\ no_fetch_between empty_world w'.
Proof. apply order_without_items_is_refused; reflexivity. Defined.

(** X22. A status update whose body has no [status] (or [null]) is
    acknowledged like any other and clears the status: the value binds as
    NULL, the column allows it, and every row the id identifies is left
    without a status, unchanged otherwise. *)
Theorem status_update_without_status_clears_it :
  forall (env : environment) (id : string) (req_body : value) (w : world) (v : value),
    get req_body "status" = Ok v -> v = VUndefined \/ v = VNull ->
    exists w' : world,
      patch_order env id req_body w = (Ok acknowledged, w') /\
      trace w' = trace w /\
      Forall2 (fun r r' => if identifies (sqlite env) id r
                           then same_but_status r r' /\ status r' = None
                           else r' = r)
              (orders (database w)) (orders (database w')).
Proof.
  intros env id req_body w v Hstatus Hv.
  exists {| database := update_status (sqlite env) SqlNull (SqlText id) (database w);
            trace := trace w; ticks := ticks w |}.
  split.
  - unfold patch_order, bind, lift. rewrite Hstatus.
    destruct Hv as [-> | ->]; reflexivity.
  - split; [reflexivity |]. apply update_status_rows_null.
Qed.

Lemma status_update_without_status_clears_it_witness :
  exists w' : world,
    patch_order (sample_env None) "1" (VObj []) alice_world = (Ok acknowledged, w') /\
    trace w' = trace alice_world /\
    Forall2 (fun r r' => if identifies sample_conversions "1" r
                         then same_but_status r r' /\ status r' = None
                         else r' = r)
            (orders (database alice_world)) (orders (database w')).
Proof.
  apply (status_update_without_status_clears_it (sample_env None) "1" (VObj []) alice_world
           VUndefined); [reflexivity | left; reflexivity].
Defined.

(** X23. After a status update with a non-empty status, every row the id
    identifies is listed under that status: the listing filtered by it
    holds the row, unchanged but for the status (the table being one that
    can be listed, of at most 100 rows). *)
Theorem updated_status_is_listed :
  forall (env : environment) (id : string) (req_body : value) (w : world) (s : string) (r : row),
    get req_body "status" = Ok (VStr s) -> s <> "" ->
    listable (database w) -> (List.length (orders (database w)) <= 100)%nat ->
    In r (orders (database w)) -> identifies (sqlite env) id r = true ->
    exists (w' : world) (r' : row) (v : value) (os : list value),
      patch_order env id req_body w = (Ok acknowledged, w') /\
      get_orders env (query None (Some s)) w'
      = (Ok {| http_status := 200; json := VArr os |}, w') /\
      same_but_status r r' /\ status r' = Some s /\
      JSON_parse (items r) = Ok v /\ In (listed r' v) os.
Proof.
  intros env id req_body w s r Hstatus Hne Hlist Hroom Hin Hid.
  set (st' := update_status (sqlite env) (SqlText s) (SqlText id) (database w)).
  set (w' := {| database := st'; trace := trace w; ticks := ticks w |}).
  set (r' := {| row_id := row_id r; business_id := business_id r;
                order_number := order_number r; customer_name := customer_name r;
                customer_phone := customer_phone r; items := items r;
                special_instructions := special_instructions r; total := total r;
                status := Some s; created_at := created_at r |}).
  assert (Hin' : In r' (orders st')).
  { unfold st', update_status. cbn [orders]. apply in_map_iff. exists r. split; [| exact Hin].
    unfold identifies in Hid. unfold id_equals.
    destruct (integer_of_text (sqlite env) id) as [z |]; [| discriminate Hid].
    rewrite Hid. reflexivity. }
  assert (Hlist' : listable (database w')) by (apply listable_update_status; exact Hlist).
  destruct (get_orders_listable env None (Some s) w' Hlist') as (os & Hget & Hall).
  destruct (Hlist r Hin) as [v Hv].
  exists w', r', v, os.
  split; [apply patch_order_text; exact Hstatus |]. split; [exact Hget |].
  split; [unfold same_but_status; repeat split |]. split; [reflexivity |]. split; [exact Hv |].
  assert (Hlisted : In r' (firstn 100 (order_by_created_at_desc
                                         (filter (matches None (Some s)) (orders (database w')))))).
  { rewrite firstn_all2.
    - apply (Permutation_in _ (Permutation_sym (order_by_perm _))).
      apply filter_In. split; [exact Hin' |].
      unfold matches. apply String.eqb_neq in Hne. rewrite Hne.
      cbn [status r' andb]. apply String.eqb_refl.
    - rewrite (Permutation_length (order_by_perm _)).
      eapply Nat.le_trans; [apply length_filter_le |].
      unfold w', st', update_status. cbn [database orders]. rewrite length_map. exact Hroom. }
  destruct (Forall2_In_l _ _ _ _ Hall Hlisted) as (o & Ho & Hfmt).
  apply format_row_listed in Hfmt as (v' & Hv' & ->).
  cbn [items r'] in Hv'. rewrite Hv in Hv'. inversion Hv'; subst v'. exact Ho.
Qed.

Lemma updated_status_is_listed_witness :
  exists (w' : world) (r' : row) (v : value) (os : list value),
    patch_order (sample_env None) "1" (VObj [("status", VStr "preparing")]) alice_world
    = (Ok acknowledged, w') /\
    get_orders (sample_env None) (query None (Some "preparing")) w'
    = (Ok {| http_status := 200; json := VArr os |}, w') /\
    status r' = Some "preparing" /\ In (listed r' v) os.
Proof.
  edestruct (updated_status_is_listed (sample_env None) "1"
               (VObj [("status", VStr "preparing")]) alice_world "preparing")
    as (w' & r' & v & os & Hpatch & Hget & _ & Hstatus & _ & Hin).
  - reflexivity.
  - discriminate.
  - intros r [<- | []]. eexists. vm_compute. reflexivity.
  - vm_compute. lia.
  - vm_compute. left. reflexivity.
  - vm_compute. reflexivity.
  - exists w', r', v, os. repeat split; assumption.
Defined.

(** X24. From 1970 to the end of the year 9999, the texts of
    [CURRENT_TIMESTAMP] compare as the seconds they were taken in: ordering
    rows by [created_at] as text is ordering them by creation time, to the
    second. *)
Theorem time_stamps_order_as_seconds :
  forall t1 t2 : Z,
    0 <= t1 <= last_four_digit_year -> 0 <= t2 <= last_four_digit_year ->
    (CURRENT_TIMESTAMP t1 <=? CURRENT_TIMESTAMP t2)%string = (t1 / 1000 <=? t2 / 1000).
Proof.
  intros t1 t2 H1 H2. unfold String.leb. rewrite current_timestamp_compare by assumption.
  destruct (Z.compare_spec (stamp_number t1) (stamp_number t2)) as [Heq | Hlt | Hgt];
    symmetry.
  - apply Z.leb_le. destruct (Z_lt_le_dec (t2 / 1000) (t1 / 1000)) as [Hlt | Hle]; [| exact Hle].
    pose proof (stamp_number_mono _ _ Hlt). lia.
  - apply Z.leb_le. destruct (Z_lt_le_dec (t2 / 1000) (t1 / 1000)) as [Hlt' | Hle]; [| exact Hle].
    pose proof (stamp_number_mono _ _ Hlt'). lia.
  - apply Z.leb_gt. destruct (Z_lt_le_dec (t2 / 1000) (t1 / 1000)) as [Hlt | Hle]; [exact Hlt |].
    destruct (Z.eq_dec (t1 / 1000) (t2 / 1000)) as [Heq | Hne].
    + pose proof (stamp_number_same _ _ Heq). lia.
    + pose proof (stamp_number_mono t1 t2 ltac:(lia)). lia.
Qed.

Lemma time_stamps_order_as_seconds_witness :
  (CURRENT_TIMESTAMP 1700000000123 <=? CURRENT_TIMESTAMP 1700000001123)%string
  = (1700000000123 / 1000 <=? 1700000001123 / 1000).
Proof. apply time_stamps_order_as_seconds; unfold last_four_digit_year; lia. Defined.

(** X25. The listing is read-only, whatever the query and whether it
    answers or throws: the table, the console, the network and the clock
    are left as they were. *)
Theorem listing_changes_nothing :
  forall (env : environment) (req_query : value) (w : world),
    snd (get_orders env req_query w) = w.
Proof. intros env req_query w. apply get_orders_world. Qed.

(** X26. When every row carries the [created_at] the table gave it (the
    text of [CURRENT_TIMESTAMP] for a clock reading from 1970 to the end of
    9999), the listing answers with the rows newest first: each row listed
    was created in the same second as, or later than, every row listed
    after it, under every pair of text filters. *)
Theorem listing_is_newest_first :
  forall (env : environment) (b s : option string) (w : world) (t : row -> Z),
    listable (database w) ->
    (forall r, In r (orders (database w)) ->
       0 <= t r <= last_four_digit_year /\ created_at r = CURRENT_TIMESTAMP (t r)) ->
    exists (rows : list row) (os : list value),
      get_orders env (query b s) w = (Ok {| http_status := 200; json := VArr os |}, w) /\
      Forall2 (fun row o => exists v, JSON_parse (items row) = Ok v /\ o = listed row v)
              rows os /\
      StronglySorted (created_no_earlier t) rows.
Proof.
  intros env b s w t Hlist Htimes.
  destruct (get_orders_listable env b s w Hlist) as (os & Hget & Hall).
  eexists _, os. split; [exact Hget |]. split.
  - eapply Forall2_impl; [| exact Hall]. intros row o. apply format_row_listed.
  - apply (sorted_impl_in not_older); [| apply firstn_sorted, order_by_sorted].
    intros x y Hx Hy Hxy.
    assert (Hin : forall r, In r (firstn 100 (order_by_created_at_desc
                                               (filter (matches b s) (orders (database w)))))
                            -> In r (orders (database w))).
    { intros r Hr. apply in_firstn in Hr.
      apply (Permutation_in _ (order_by_perm _)) in Hr. apply filter_In in Hr. tauto. }
    destruct (Htimes x (Hin x Hx)) as [Htx Ex]. destruct (Htimes y (Hin y Hy)) as [Hty Ey].
    unfold not_older, String.leb in Hxy. rewrite Ex, Ey in Hxy.
    rewrite current_timestamp_compare in Hxy by assumption.
    unfold created_no_earlier.
    destruct (Z_lt_le_dec (t x / 1000) (t y / 1000)) as [Hlt | Hle]; [| exact Hle].
    pose proof (stamp_number_mono _ _ Hlt) as Hmono.
    apply Z.compare_gt_iff in Hmono. rewrite Hmono in Hxy. discriminate Hxy.
Qed.

Lemma listing_is_newest_first_witness :
  exists (rows : list row) (os : list value),
    get_orders (sample_env None) (query (Some "default") None) busy_world
    = (Ok {| http_status := 200; json := VArr os |}, busy_world) /\
    Forall2 (fun row o => exists v, JSON_parse (items row) = Ok v /\ o = listed row v) rows os /\
    StronglySorted (created_no_earlier insert_time) rows /\
    map (fun r => insert_time r / 1000) (orders (database busy_world))
    = map (fun n => 1700000001 + 3 * Z.of_nat n) (seq 0 102).
Proof.
  destruct (listing_is_newest_first (sample_env None) (Some "default") None busy_world
              insert_time) as (rows & os & Hrun & Hlisted & Hsorted).
  - unfold listable. apply items_parse_check. vm_compute. reflexivity.
  - apply stamps_check. vm_compute. reflexivity.
  - exists rows, os. split; [exact Hrun |]. split; [exact Hlisted |]. split; [exact Hsorted |].
    vm_compute. reflexivity.
Defined.

(** X27. A status update never reorders, adds or removes what the
    unfiltered listing shows: if the listing answered before the update it
    answers after it, with as many orders, in the same order, each the
    same under every name but [status] (whatever the id and the body, and
    whether the update was acknowledged or threw). *)
Theorem status_update_keeps_the_listing_order :
  forall (env : environment) (id : string) (req_body : value) (w : world) (os : list value),
    get_orders env (query None None) w = (Ok {| http_status := 200; json := VArr os |}, w) ->
    exists os' : list value,
      get_orders env (query None None) (snd (patch_order env id req_body w))
      = (Ok {| http_status := 200; json := VArr os' |}, snd (patch_order env id req_body w)) /\
      Forall2 same_listed_order os os'.
Proof.
  intros env id req_body w os Hget.
  destruct (patch_order_world env id req_body w) as [-> | (s & k & ->)].
  - exists os. split; [exact Hget |].
    clear Hget. induction os as [| o os IH]; constructor; [intros key _; reflexivity | exact IH].
  - rewrite get_orders_query in *. cbn [database].
    rewrite update_status_rows_with.
    rewrite !filter_all in * by reflexivity.
    rewrite order_by_map by apply with_status_created_at.
    rewrite firstn_map.
    set (rows := firstn 100 (order_by_created_at_desc (orders (database w)))) in *.
    destruct (result_map format_row rows) as [os0 | e] eqn:Hrows; [| discriminate Hget].
    inversion Hget; subst os0; clear Hget.
    apply result_map_Forall2 in Hrows.
    assert (Hnew : exists os',
               result_map format_row (map (with_status (sqlite env) s k) rows) = Ok os'
               /\ Forall2 same_listed_order os os').
    { clear - Hrows. induction Hrows as [| r o rows os Hr _ IH].
      - exists []. split; [reflexivity | constructor].
      - destruct IH as (os' & Hos' & Hsame).
        apply format_row_listed in Hr as (v & Hv & ->).
        exists (listed (with_status (sqlite env) s k r) v :: os'). split.
        + cbn [map result_map]. unfold format_row at 1.
          assert (Hitems : items (with_status (sqlite env) s k r) = items r)
            by (unfold with_status; destruct (id_equals _ _ _); reflexivity).
          rewrite Hitems, Hv. cbn [result_bind]. rewrite spread_items, Hos'. reflexivity.
        + constructor; [apply listed_same_order | exact Hsame]. }
    destruct Hnew as (os' & Hos' & Hsame). exists os'. rewrite Hos'. split; [reflexivity | exact Hsame].
Qed.

Lemma status_update_keeps_the_listing_order_witness :
  exists os' : list value,
    get_orders (sample_env None) (query None None)
      (snd (patch_order (sample_env None) "1" (VObj [("status", VStr "preparing")]) alice_world))
    = (Ok {| http_status := 200; json := VArr os' |},
       snd (patch_order (sample_env None) "1" (VObj [("status", VStr "preparing")]) alice_world))
    /\ Forall2 same_listed_order
         [listed (hd bad_row (orders (database alice_world))) (field "items" alice_order)] os'.
Proof.
  apply status_update_keeps_the_listing_order. vm_compute. reflexivity.
Defined.

(** X28. End to end through PrintNode: with the channel configured for the
    business of a valid order, the create request is answered with the
    order and makes exactly one network call, the POST of a print job
    whose content is the ticket of the very order returned (same order
    number, items and total), for the printer of that business. *)
Theorem valid_order_is_sent_to_printnode_once :
  forall (env : environment) (req_body : value) (w : world)
         (key b ps : string) (ids p : value),
    valid_payload req_body = true ->
    PRINT_METHOD env = Some "printnode" ->
    PRINTNODE_API_KEY env = Some key -> key <> "" ->
    JSON_parse (env_or (PRINTER_IDS env) "{}") = Ok ids ->
    ToString (business_of req_body) = Ok b -> get ids b = Ok p -> truthy p = true ->
    ToString p = Ok ps ->
    exists (w' : world) (t : string) (n : number) (added : list event),
      post_orders env req_body w = (Ok (created (created_order env w req_body)), w') /\
      ticket_of_request env w req_body = Ok t /\
      parseInt p = Ok n /\
      trace w' = (added ++ trace w)%list /\
      filter is_fetch added = [Fetch printnode_url (printnode_request key n t)].
Proof.
  intros env req_body w key b ps ids p Hvalid Hmethod Hkey Hne Hids Hb Hp Htruthy Hps.
  destruct (post_orders_valid_reaches_printOrder env req_body w Hvalid)
    as (w2 & w' & t & quiet & Hpost & Hprint & Hticket & Hfmt & Htrace & Hquiet).
  { rewrite Hmethod. reflexivity. }
  destruct (parseInt_ok p ps Hps) as [n Hn].
  rewrite (printOrder_with_method env _ _ w2 (ticked w2) t "printnode" Hmethod
             ltac:(discriminate) Hfmt) in Hprint.
  cbn [String.eqb Ascii.eqb Bool.eqb] in Hprint.
  rewrite (printViaPrintNode_caught env _ (ticked w2) t key b ps ids p n
             Hkey Hne Hids Hb Hp Htruthy Hps Hn) in Hprint.
  injection Hprint as Hw'.
  exists w', t, n,
    (printnode_report (network env printnode_url (printnode_request key n t))
     :: Fetch printnode_url (printnode_request key n t)
     :: Console_log ("Printing to PrintNode printer " ++ ps ++ " for business " ++ b) Nothing
     :: quiet).
  split; [exact Hpost |]. split; [exact Hticket |]. split; [exact Hn |]. split.
  - rewrite <- Hw'. cbn [trace ticked]. rewrite Htrace. reflexivity.
  - cbn [filter is_fetch]. rewrite Hquiet.
    destruct (network env printnode_url (printnode_request key n t)) as [e | [|] [txt | e]];
      reflexivity.
Qed.

Lemma valid_order_is_sent_to_printnode_once_witness :
  exists (w' : world) (t : string) (n : number) (added : list event),
    post_orders (sample_env (Some "printnode")) alice empty_world
    = (Ok (created (created_order (sample_env (Some "printnode")) empty_world alice)), w') /\
    ticket_of_request (sample_env (Some "printnode")) empty_world alice = Ok t /\
    parseInt (VStr "42") = Ok n /\
    trace w' = (added ++ trace empty_world)%list /\
    filter is_fetch added = [Fetch printnode_url (printnode_request "key" n t)].
Proof.
  apply (valid_order_is_sent_to_printnode_once (sample_env (Some "printnode")) alice empty_world
           "key" "default" "42" (VObj [("default", VStr "42")]) (VStr "42")).
  - vm_compute. reflexivity.
  - reflexivity.
  - reflexivity.
  - discriminate.
  - vm_compute. reflexivity.
  - reflexivity.
  - reflexivity.
  - reflexivity.
  - reflexivity.
Defined.

(** X29. End to end through the webhook: when the business of a valid
    order has a URL, the create request is answered with the order and
    makes exactly one network call, the POST to that URL of the ticket of
    the very order returned, together with the business id. *)
Theorem valid_order_is_sent_to_its_webhook_once :
  forall (env : environment) (req_body : value) (w : world) (b : string) (urls url : value),
    valid_payload req_body = true ->
    PRINT_METHOD env = Some "webhook" ->
    JSON_parse (env_or (PRINT_WEBHOOKS env) "{}") = Ok urls ->
    ToString (business_of req_body) = Ok b -> get urls b = Ok url -> truthy url = true ->
    exists (w' : world) (t : string) (added : list event),
      post_orders env req_body w = (Ok (created (created_order env w req_body)), w') /\
      ticket_of_request env w req_body = Ok t /\
      trace w' = (added ++ trace w)%list /\
      filter is_fetch added = [Fetch url (webhook_request (business_of req_body) t)].
Proof.
  intros env req_body w b urls url Hvalid Hmethod Hurls Hb Hurl Htruthy.
  destruct (post_orders_valid_reaches_printOrder env req_body w Hvalid)
    as (w2 & w' & t & quiet & Hpost & Hprint & Hticket & Hfmt & Htrace & Hquiet).
  { rewrite Hmethod. reflexivity. }
  rewrite (printOrder_with_method env _ _ w2 (ticked w2) t "webhook" Hmethod
             ltac:(discriminate) Hfmt) in Hprint.
  cbn [String.eqb Ascii.eqb Bool.eqb] in Hprint.
  rewrite (printViaWebhook_caught env _ (ticked w2) t b urls url Hurls Hb Hurl) in Hprint.
  rewrite Htruthy in Hprint. injection Hprint as Hw'.
  exists w', t,
    (webhook_report (network env url (webhook_request (business_of req_body) t))
     ++ Fetch url (webhook_request (business_of req_body) t) :: quiet)%list.
  split; [exact Hpost |]. split; [exact Hticket |]. split.
  - rewrite <- Hw'. cbn [trace ticked]. rewrite Htrace, <- app_assoc. reflexivity.
  - rewrite filter_app. cbn [filter is_fetch]. rewrite Hquiet.
    destruct (network env url (webhook_request (business_of req_body) t)) as [e | ok txt];
      reflexivity.
Qed.

Lemma valid_order_is_sent_to_its_webhook_once_witness :
  exists (w' : world) (t : string) (added : list event),
    post_orders (sample_env (Some "webhook")) alice empty_world
    = (Ok (created (created_order (sample_env (Some "webhook")) empty_world alice)), w') /\
    ticket_of_request (sample_env (Some "webhook")) empty_world alice = Ok t /\
    trace w' = (added ++ trace empty_world)%list /\
    filter is_fetch added
    = [Fetch (VStr "http://printer.local/hook") (webhook_request (business_of alice) t)].
Proof.
  apply (valid_order_is_sent_to_its_webhook_once (sample_env (Some "webhook")) alice empty_world
           "default" (VObj [("default", VStr "http://printer.local/hook")])
           (VStr "http://printer.local/hook")).
  - vm_compute. reflexivity.
  - reflexivity.
  - vm_compute. reflexivity.
  - reflexivity.
  - reflexivity.
  - reflexivity.
Defined.
